(** * Live stats synchronisation and fallback derivation of the dashboard

  A shallow embedding of the React components [Charts] (the chart
  coordinator with its fallback synthesiser) and [App] (session pulls,
  push channel, status classification, alert log), and the properties
  of the specification settled against them.

  JavaScript numbers are IEEE 754 binary64 values; they are modelled
  bit-exactly through the kernel-independent specification of
  [SpecFloat] at precision 53 and maximal exponent 1024. *)

From Stdlib Require Import ZArith List String Ascii Bool Lia DecimalString.
From Stdlib Require Import Floats.SpecFloat.
Import ListNotations.

Local Open Scope Z_scope.

(** ** JavaScript values *)

Module JS.

(** *** Numbers *)

Definition number : Type := spec_float.

Definition prec : Z := 53.
Definition emax : Z := 1024.

Definition NaN : number := S754_nan.
Definition of_Z (z : Z) : number := binary_normalize prec emax z 0 false.

Definition mul (x y : number) : number := SFmul prec emax x y.
Definition div (x y : number) : number := SFdiv prec emax x y.

(** [x > y] *)
Definition gt (x y : number) : bool := SFltb y x.

(** A decimal literal [m / 10^k]: the division is correctly rounded and
    both operands are exact, so the result is the double nearest to the
    decimal, which is what the literal denotes. *)
Definition dec (m : Z) (k : Z) : number := div (of_Z m) (of_Z (10 ^ k)).

(** [Math.floor] *)
Definition Math_floor (x : number) : number :=
  match x with
  | S754_finite s m e =>
      if 0 <=? e then x
      else
        let d := 2 ^ (- e) in
        let q := Zpos m / d in
        let r := Zpos m mod d in
        if s then of_Z (- (if r =? 0 then q else q + 1))
        else of_Z q
  | _ => x
  end.

(** [Math.ceil]; a negative argument above [-1] gives [-0]. *)
Definition Math_ceil (x : number) : number :=
  match x with
  | S754_finite s m e =>
      if 0 <=? e then x
      else
        let d := 2 ^ (- e) in
        let q := Zpos m / d in
        let r := Zpos m mod d in
        if s then (if q =? 0 then S754_zero true else of_Z (- q))
        else of_Z (if r =? 0 then q else q + 1)
  | _ => x
  end.

(** [Math.max] of two arguments: [NaN] is contagious and [+0] is
    larger than [-0]. *)
Definition Math_max (x y : number) : number :=
  match SFcompare x y with
  | None => NaN
  | Some Lt => y
  | Some Gt => x
  | Some Eq =>
      match x, y with
      | S754_zero true, S754_zero _ => y
      | _, _ => x
      end
  end.

(** [ToBoolean] of a number: [+0], [-0] and [NaN] are falsy. *)
Definition number_truthy (x : number) : bool :=
  match x with
  | S754_zero _ | S754_nan => false
  | _ => true
  end.

(** [x || d] on numbers *)
Definition number_or (x d : number) : number :=
  if number_truthy x then x else d.

(** A number that holds an unsigned integer (the [uint] of the data
    model): [+0] or a positive finite value without fractional part. *)
Definition is_uint (x : number) : bool :=
  match x with
  | S754_zero false => true
  | S754_finite false m e =>
      if 0 <=? e then true else Zpos m mod 2 ^ (- e) =? 0
  | _ => false
  end.

(** *** Values *)

#[local] Set Warnings "-register-all".

Inductive value : Type :=
| VUndefined
| VNull
| VBool (b : bool)
| VNum (n : number)
| VStr (s : string)
| VArr (items : list value)
| VObj (fields : list (string * value)).

(** Exceptions that the modelled code can raise. *)
Inductive exn : Type :=
| TypeError            (* property access on null or undefined *)
| SyntaxError          (* JSON.parse / response.json() on malformed text *)
| HttpError (status : Z)  (* new Error(`HTTP error! status: ...`) *)
| NetworkError         (* fetch() rejected *)
| InvalidChild.        (* React: an object is not valid as a child *)

Inductive result (A : Type) : Type :=
| Ok (a : A)
| Throw (e : exn).
Arguments Ok {A} a.
Arguments Throw {A} e.

(** Code that writes to a store of type [S] and may throw: the writes
    made before a throw remain. *)
Definition action (S A : Type) : Type := S -> S * result A.

Definition ret {S A : Type} (a : A) : action S A := fun st => (st, Ok a).

Definition raise {S A : Type} (e : exn) : action S A := fun st => (st, Throw e).

Definition lift {S A : Type} (r : result A) : action S A := fun st => (st, r).

Definition write {S : Type} (f : S -> S) : action S unit := fun st => (f st, Ok tt).

Definition bind {S A B : Type} (c : action S A) (k : A -> action S B) : action S B :=
  fun st =>
    match c st with
    | (st', Ok a) => k a st'
    | (st', Throw e) => (st', Throw e)
    end.

(** [try { body } catch (e) { handler } finally { final }], for a handler
    and a final block that do not throw themselves. *)
Definition try_catch_finally {S : Type} (body : action S unit)
    (handler : exn -> S -> S) (final : S -> S) (st : S) : S :=
  match body st with
  | (st', Ok _) => final st'
  | (st', Throw e) => final (handler e st')
  end.

(** Own property of an object built by JSON decoding or by an object
    literal; a later binding of the same key overrides an earlier one. *)
Fixpoint lookup (k : string) (fields : list (string * value)) : value :=
  match fields with
  | [] => VUndefined
  | (k', v) :: rest =>
      match lookup k rest with
      | VUndefined => if String.eqb k k' then v else VUndefined
      | later => later
      end
  end.

(** [v.k]: throws on [null] and [undefined]; the keys read by this
    program are no built-in properties of primitives or arrays. *)
Definition get (v : value) (k : string) : result value :=
  match v with
  | VUndefined | VNull => Throw TypeError
  | VObj fields => Ok (lookup k fields)
  | _ => Ok VUndefined
  end.

(** [ToBoolean] *)
Definition truthy (v : value) : bool :=
  match v with
  | VUndefined | VNull => false
  | VBool b => b
  | VNum n => number_truthy n
  | VStr s => negb (String.eqb s EmptyString)
  | VArr _ | VObj _ => true
  end.

(** [v || d] *)
Definition or_else (v d : value) : value := if truthy v then v else d.

(** [v === "s"] *)
Definition is_string (v : value) (s : string) : bool :=
  match v with
  | VStr s' => String.eqb s' s
  | _ => false
  end.

(** [v !== undefined] *)
Definition is_defined (v : value) : bool :=
  match v with
  | VUndefined => false
  | _ => true
  end.

End JS.

Import JS.

Declare Scope action_scope.
Delimit Scope action_scope with action.
Notation "x <- c ;; k" := (bind c (fun x => k))
  (at level 61, c at next level, right associativity) : action_scope.
Notation "c ;; k" := (bind c (fun _ => k))
  (at level 61, right associativity) : action_scope.

(** ** Rounding of doubles, as the proofs about integer counters read it

    [SpecFloat] rounds a mantissa with a location to 53 bits.  For a
    positive mantissa in the normal range the result is described by the
    three notions below. *)

Module Rounding.

(** Last stage of rounding: a carry out of the 53 bits moves the exponent. *)
Definition finish (M1 E : Z) : number :=
  if M1 <? 2 ^ 53 then S754_finite false (Z.to_pos M1) E
  else S754_finite false (Z.to_pos (2 ^ 52)) (E + 1).

(** The mantissa after the shift by [k] bits and rounding to nearest even. *)
Definition round_shift (m k : Z) (l : location) : Z :=
  let rec := shr_record_of_loc m l in
  if k =? 0 then round_nearest_even m l
  else round_nearest_even (m / 2 ^ k)
         (loc_of_shr_record
            {| shr_m := m / 2 ^ k;
               shr_r := Z.odd (m / 2 ^ (k - 1));
               shr_s := negb (m mod 2 ^ (k - 1) =? 0) || (shr_r rec || shr_s rec) |}).

(** The location [l] tells where the fraction [rho / d] lies. *)
Definition located (l : location) (rho d : Z) : Prop :=
  match l with
  | loc_Exact => rho = 0
  | loc_Inexact c => rho <> 0 /\ (2 * rho ?= d) = c
  end.

End Rounding.

(** ** Host environment

  The clock, the locale and the network are outside the program.  A
  clock reading is a number of milliseconds since the epoch; the
  locale-dependent rendering of a time is a function of the host. *)

Inductive time_format : Type :=
| DefaultFormat          (* toLocaleTimeString() *)
| HourMinute2Digit.      (* toLocaleTimeString([], {hour:'2-digit', minute:'2-digit'}) *)

Class Host : Type := { toLocaleTimeString : time_format -> Z -> string }.

(** What [fetch] hands back: the promise rejects, or it resolves with a
  response whose body decodes (or fails to decode) as JSON. *)
Record Response : Type := { ok : bool; status : Z; json : result value }.

Inductive fetched : Type :=
| Rejected
| Resolved (r : Response).

(** [await fetch(url)] *)
Definition await {S : Type} (f : fetched) : action S Response :=
  match f with
  | Rejected => raise NetworkError
  | Resolved r => ret r
  end.

(** A 24-hour clock at UTC, one of the renderings a host can have. *)
Module UTC.

Definition digit (d : Z) : ascii := ascii_of_nat (48 + Z.to_nat d).

Definition two_digits (n : Z) : string :=
  String (digit (n / 10)) (String (digit (n mod 10)) EmptyString).

Definition hh_mm (t : Z) : string :=
  (two_digits ((t / 3600000) mod 24) ++ ":" ++ two_digits ((t / 60000) mod 60))%string.

Definition hh_mm_ss (t : Z) : string :=
  (hh_mm t ++ ":" ++ two_digits ((t / 1000) mod 60))%string.

Definition host : Host :=
  {| toLocaleTimeString := fun f =>
       match f with
       | DefaultFormat => hh_mm_ss
       | HourMinute2Digit => hh_mm
       end |}.

End UTC.

(** ** Sequencing of computations that may throw, and coercions *)

(** [r] and then [k]: the first exception ends the computation. *)
Definition and_then {A B : Type} (r : result A) (k : A -> result B) : result B :=
  match r with
  | Ok a => k a
  | Throw e => Throw e
  end.

(** A property of the store that a computation keeps, whether it returns
    or throws. *)
Definition preserves {S A : Type} (P : S -> Prop) (c : action S A) : Prop :=
  forall st, P st -> P (fst (c st)).

(** Own property of an object, told apart from a missing one: the
    spread [{...o}] copies a property even when its value is
    [undefined]. *)
Fixpoint own (k : string) (fields : list (string * value)) : option value :=
  match fields with
  | [] => None
  | (k', v) :: rest =>
      match own k rest with
      | Some later => Some later
      | None => if String.eqb k k' then Some v else None
      end
  end.

Definition has_own (k : string) (fields : list (string * value)) : bool :=
  match own k fields with
  | Some _ => true
  | None => false
  end.

(** The values of this program are decoded JSON texts and literals, so
    no property of theirs is a function.  The conversion of an object to
    a primitive calls its [toString]: it throws when the object has a
    property of that name of its own, and gives the inherited rendering
    otherwise; an array joins the conversions of its items. *)
Fixpoint converts (v : value) : bool :=
  match v with
  | VArr items => forallb converts items
  | VObj fields => negb (has_own "toString" fields)
  | _ => true
  end.

(** [v.toLocaleString()] on an object calls the inherited method, which
    calls [toString], unless the object has a property of that name of
    its own, which is no function; an array calls it on its items. *)
Fixpoint localizes (v : value) : bool :=
  match v with
  | VArr items => forallb localizes items
  | VObj fields =>
      negb (has_own "toLocaleString" fields) && negb (has_own "toString" fields)
  | _ => true
  end.

(** A value that is neither an array nor an object. *)
Definition is_primitive (v : value) : bool :=
  match v with
  | VArr _ | VObj _ => false
  | _ => true
  end.

(** The conversions between numbers and strings are the host's: the
    rendering of a number, the rendering of an array or an object that
    converts, the reading of a string as a number and the
    locale-dependent rendering of a value. *)
Class Conversions : Type :=
  { number_to_string : number -> string;
    object_to_string : value -> string;
    string_to_number : string -> number;
    value_toLocaleString : value -> string }.

Section Coercions.
Context {conv : Conversions}.

(** [ToString], as a template literal applies it. *)
Definition to_string (v : value) : result string :=
  match v with
  | VUndefined => Ok "undefined"
  | VNull => Ok "null"
  | VBool true => Ok "true"
  | VBool false => Ok "false"
  | VNum n => Ok (number_to_string n)
  | VStr s => Ok s
  | VArr _ | VObj _ =>
      if converts v then Ok (object_to_string v) else Throw TypeError
  end%string.

(** [ToNumber], as an arithmetic operator or a comparison with a number
    applies it. *)
Definition to_number (v : value) : result number :=
  match v with
  | VUndefined => Ok NaN
  | VNull => Ok (of_Z 0)
  | VBool true => Ok (of_Z 1)
  | VBool false => Ok (of_Z 0)
  | VNum n => Ok n
  | VStr s => Ok (string_to_number s)
  | VArr _ | VObj _ =>
      if converts v then Ok (string_to_number (object_to_string v))
      else Throw TypeError
  end.

(** [v > 0] *)
Definition gt_zero (v : value) : result bool :=
  and_then (to_number v) (fun n => Ok (gt n (of_Z 0))).

(** [a - b] *)
Definition minus (a b : value) : result value :=
  and_then (to_number a) (fun x =>
  and_then (to_number b) (fun y =>
  Ok (VNum (SFsub prec emax x y)))).

(** [v.toLocaleString()] *)
Definition toLocaleString_call (v : value) : result string :=
  match v with
  | VUndefined | VNull => Throw TypeError
  | _ => if localizes v then Ok (value_toLocaleString v) else Throw TypeError
  end.

End Coercions.

(** A host for the evaluation of examples.  It renders the integers
    below [10^21] and reads the unsigned decimal numerals as every host
    does, and renders in the manner of the [en-US] locale; the examples
    use no other numbers (which it renders as the empty string) and no
    other numerals (which it reads as [NaN]). *)

Module Decimal.

(** The value of a double that is an integer. *)
Definition integer_of (x : number) : option Z :=
  match x with
  | S754_zero _ => Some 0
  | S754_finite s m e =>
      let sign := if s then -1 else 1 in
      if 0 <=? e then Some (sign * (Zpos m * 2 ^ e))
      else if Zpos m mod 2 ^ (- e) =? 0 then Some (sign * (Zpos m / 2 ^ (- e)))
      else None
  | _ => None
  end.

Definition digits (z : Z) : string := NilZero.string_of_uint (N.to_uint (Z.to_N (Z.abs z))).

Definition render_number (x : number) : string :=
  match x with
  | S754_nan => "NaN"%string
  | S754_infinity false => "Infinity"%string
  | S754_infinity true => "-Infinity"%string
  | _ =>
      match integer_of x with
      | Some z =>
          if Z.abs z <? 10 ^ 21
          then ((if Z.ltb z 0 then "-" else EmptyString) ++ digits z)%string
          else EmptyString
      | None => EmptyString
      end
  end.

Definition read_number (s : string) : number :=
  match NilEmpty.uint_of_string s with
  | Some u => of_Z (Z.of_uint u)
  | None => NaN
  end.

(** The items of an array, joined by commas; [null] and [undefined]
    items are rendered as nothing. *)
Definition join (render : value -> string) (items : list value) : string :=
  String.concat ","
    (map (fun v => match v with
                   | VUndefined | VNull => EmptyString
                   | _ => render v
                   end) items).

Fixpoint render (v : value) : string :=
  match v with
  | VUndefined => "undefined"
  | VNull => "null"
  | VBool true => "true"
  | VBool false => "false"
  | VNum n => render_number n
  | VStr s => s
  | VArr items => join render items
  | VObj _ => "[object Object]"
  end%string.

(** Groups of three digits, from the right. *)
Fixpoint grouped (digits : list ascii) : list ascii :=
  match digits with
  | [] => []
  | d :: rest =>
      if (0 <? List.length rest)%nat && (List.length rest mod 3 =? 0)%nat
      then d :: ","%char :: grouped rest
      else d :: grouped rest
  end.

Definition render_number_locale (x : number) : string :=
  match x with
  | S754_nan => "NaN"%string
  | S754_infinity false => "∞"%string
  | S754_infinity true => "-∞"%string
  | _ =>
      match integer_of x with
      | Some z =>
          if Z.abs z <? 10 ^ 21
          then ((if Z.ltb z 0 then "-" else EmptyString)
                ++ string_of_list_ascii (grouped (list_ascii_of_string (digits z))))%string
          else EmptyString
      | None => EmptyString
      end
  end.

Fixpoint render_locale (v : value) : string :=
  match v with
  | VNum n => render_number_locale n
  | VArr items => join render_locale items
  | _ => render v
  end.

Definition conversions : Conversions :=
  {| number_to_string := render_number;
     object_to_string := render;
     string_to_number := read_number;
     value_toLocaleString := render_locale |}.

End Decimal.

(** ** The chart coordinator ([components/Charts.jsx]) *)

Module Charts.

(** The [stats] prop: the local counters, numbers as in the data model
    of the specification.  (The shell passes whatever the server sent for
    a counter, if it is truthy; what the main view does with a counter that
    is no number is told by [ChartsView.main_view].) *)
Record LocalStats : Type :=
  { totalLogs : number; normalCount : number; suspiciousCount : number }.

Record TimelineData : Type :=
  { timestamps : list string;
    normal_counts : list number;
    anomaly_counts : list number }.

Record ThreatCategories : Type :=
  { categories : list string; counts : list number }.

Record HourlyPatterns : Type :=
  { time_periods : list string; threat_counts : list number }.

(** The object literal returned by [generateDataFromStats]. *)
Record GeneratedData : Type :=
  { timeline_data : TimelineData;
    threat_categories : ThreatCategories;
    hourly_patterns : HourlyPatterns;
    data_source : string }.

Inductive connection : Type :=
| connecting
| connected
| disconnected
| error.

(** [new Date(v)] of a decoded value, or [new Date()] at a clock reading. *)
Inductive date : Type :=
| DateOf (v : value)
| DateAt (t : Z).

(** [new Date(v)]: an object or an array is converted to a primitive
    first, which throws when [v] does not convert. *)
Definition new_Date (v : value) : result date :=
  if converts v then Ok (DateOf v) else Throw TypeError.

(** The component: its five [useState] cells, the [stats] prop of the
    latest render, and what the runtime holds for it, namely the [stats]
    that the callback registered with [setInterval] closed over (the one
    of the first render, the effect having no dependencies), for each
    [fetchChartData] call suspended at its [await] the [stats] that this
    call closed over and, when the markup committed last shows the
    Refresh button enabled, the [stats] that its [onClick] closed over. *)
Record state : Type :=
  { chartData : value;
    lastUpdated : option date;
    isLoading : bool;
    connectionStatus : connection;
    useSessionData : bool;
    stats : LocalStats;
    intervalStats : LocalStats;
    pending : list LocalStats;
    refreshButton : option LocalStats }.

Definition setChartData (v : value) (st : state) : state :=
  {| chartData := v; lastUpdated := lastUpdated st; isLoading := isLoading st;
     connectionStatus := connectionStatus st; useSessionData := useSessionData st;
     stats := stats st; intervalStats := intervalStats st; pending := pending st;
     refreshButton := refreshButton st |}.

Definition setLastUpdated (d : date) (st : state) : state :=
  {| chartData := chartData st; lastUpdated := Some d; isLoading := isLoading st;
     connectionStatus := connectionStatus st; useSessionData := useSessionData st;
     stats := stats st; intervalStats := intervalStats st; pending := pending st;
     refreshButton := refreshButton st |}.

Definition setIsLoading (b : bool) (st : state) : state :=
  {| chartData := chartData st; lastUpdated := lastUpdated st; isLoading := b;
     connectionStatus := connectionStatus st; useSessionData := useSessionData st;
     stats := stats st; intervalStats := intervalStats st; pending := pending st;
     refreshButton := refreshButton st |}.

Definition setConnectionStatus (c : connection) (st : state) : state :=
  {| chartData := chartData st; lastUpdated := lastUpdated st; isLoading := isLoading st;
     connectionStatus := c; useSessionData := useSessionData st;
     stats := stats st; intervalStats := intervalStats st; pending := pending st;
     refreshButton := refreshButton st |}.

Definition setUseSessionData (b : bool) (st : state) : state :=
  {| chartData := chartData st; lastUpdated := lastUpdated st; isLoading := isLoading st;
     connectionStatus := connectionStatus st; useSessionData := b;
     stats := stats st; intervalStats := intervalStats st; pending := pending st;
     refreshButton := refreshButton st |}.

Definition with_stats (s : LocalStats) (st : state) : state :=
  {| chartData := chartData st; lastUpdated := lastUpdated st; isLoading := isLoading st;
     connectionStatus := connectionStatus st; useSessionData := useSessionData st;
     stats := s; intervalStats := intervalStats st; pending := pending st;
     refreshButton := refreshButton st |}.

Definition with_refreshButton (b : option LocalStats) (st : state) : state :=
  {| chartData := chartData st; lastUpdated := lastUpdated st; isLoading := isLoading st;
     connectionStatus := connectionStatus st; useSessionData := useSessionData st;
     stats := stats st; intervalStats := intervalStats st; pending := pending st;
     refreshButton := b |}.

Definition with_pending (l : list LocalStats) (st : state) : state :=
  {| chartData := chartData st; lastUpdated := lastUpdated st; isLoading := isLoading st;
     connectionStatus := connectionStatus st; useSessionData := useSessionData st;
     stats := stats st; intervalStats := intervalStats st; pending := l;
     refreshButton := refreshButton st |}.

(** The counters of Scenario A of the specification, and the counters
    before any detection test has run. *)
Definition scenario_A : LocalStats :=
  {| totalLogs := of_Z 100; normalCount := of_Z 90; suspiciousCount := of_Z 10 |}.

Definition no_logs : LocalStats :=
  {| totalLogs := of_Z 0; normalCount := of_Z 0; suspiciousCount := of_Z 0 |}.


Section WithHost.
Context {host : Host}.

(** One turn of the loop [for (let i = 9; i >= 0; i--)]: a label and a
    point are pushed onto the three arrays. *)
Definition timeline_push (now : Z) (currentStats : LocalStats) (i : Z)
    (acc : TimelineData) : TimelineData :=
  let time := now - i * 2 * 60 * 1000 in
  {| timestamps := timestamps acc ++ [toLocaleTimeString HourMinute2Digit time];
     normal_counts := normal_counts acc ++
       [if i =? 0 then number_or (normalCount currentStats) (of_Z 0)
        else Math_floor (div (number_or (normalCount currentStats) (of_Z 0)) (of_Z 10))];
     anomaly_counts := anomaly_counts acc ++
       [if i =? 0 then number_or (suspiciousCount currentStats) (of_Z 0)
        else Math_floor (div (number_or (suspiciousCount currentStats) (of_Z 0)) (of_Z 10))] |}.

(** The loop with [n] turns left: the counter runs from [n - 1] down to 0. *)
Fixpoint timeline_loop (now : Z) (currentStats : LocalStats) (n : nat)
    (acc : TimelineData) : TimelineData :=
  match n with
  | O => acc
  | S i => timeline_loop now currentStats i (timeline_push now currentStats (Z.of_nat i) acc)
  end.

(** [generateDataFromStats(currentStats)], run when the clock reads [now]. *)
Definition generateDataFromStats (now : Z) (currentStats : LocalStats) : GeneratedData :=
  let baseAnomalyRate :=
    if gt (totalLogs currentStats) (of_Z 0)
    then div (suspiciousCount currentStats) (totalLogs currentStats)
    else dec 2 2 in
  let timeline :=
    timeline_loop now currentStats 10
      {| timestamps := []; normal_counts := []; anomaly_counts := [] |} in
  let totalThreats := Math_max (suspiciousCount currentStats) (of_Z 1) in
  {| timeline_data := timeline;
     threat_categories :=
       {| categories := ["Failed Authentication"; "Off-Hours Activity";
                         "External Access"; "System Anomalies"]%string;
          counts := [Math_ceil (mul totalThreats (dec 4 1));
                     Math_ceil (mul totalThreats (dec 3 1));
                     Math_ceil (mul totalThreats (dec 2 1));
                     Math_ceil (mul totalThreats (dec 1 1))] |};
     hourly_patterns :=
       {| time_periods := ["00-03"; "03-06"; "06-09"; "09-12";
                           "12-15"; "15-18"; "18-21"; "21-24"]%string;
          threat_counts :=
            [Math_ceil (mul baseAnomalyRate (of_Z 12)); Math_ceil (mul baseAnomalyRate (of_Z 8));
             Math_ceil (mul baseAnomalyRate (of_Z 3)); Math_ceil (mul baseAnomalyRate (of_Z 2));
             Math_ceil (mul baseAnomalyRate (of_Z 1)); Math_ceil (mul baseAnomalyRate (of_Z 2));
             Math_ceil (mul baseAnomalyRate (of_Z 4)); Math_ceil (mul baseAnomalyRate (of_Z 6))] |};
     data_source := "generated_from_stats"%string |}.

(** The generated record as the JavaScript object that is stored. *)
Definition to_value (d : GeneratedData) : value :=
  VObj
    [("timeline_data",
      VObj [("timestamps", VArr (map VStr (timestamps (timeline_data d))));
            ("normal_counts", VArr (map VNum (normal_counts (timeline_data d))));
            ("anomaly_counts", VArr (map VNum (anomaly_counts (timeline_data d))))]);
     ("threat_categories",
      VObj [("categories", VArr (map VStr (categories (threat_categories d))));
            ("counts", VArr (map VNum (counts (threat_categories d))))]);
     ("hourly_patterns",
      VObj [("time_periods", VArr (map VStr (time_periods (hourly_patterns d))));
            ("threat_counts", VArr (map VNum (threat_counts (hourly_patterns d))))]);
     ("data_source", VStr (data_source d))]%string.

(** [fetchChartData] up to its [await]: the call is now in flight, with
    the [stats] of the render that created the function. *)
Definition fetchChartData_call (captured : LocalStats) (st : state) : state :=
  with_pending (pending st ++ [captured]) (setIsLoading true st).

(** The rest of the [try] block, once [fetch] has settled. *)
Definition fetchChartData_try (f : fetched) : action state unit :=
  (response <- await f ;;
   (if negb (ok response) then raise (HttpError (status response)) else ret tt) ;;
   data <- lift (json response) ;;
   write (setChartData data) ;;
   last_updated <- lift (get data "last_updated") ;;
   date <- lift (new_Date last_updated) ;;
   write (setLastUpdated date) ;;
   write (setConnectionStatus connected) ;;
   write (setUseSessionData true))%action.

(** The [catch] block: the fallback is generated from the [stats] the
    call closed over. *)
Definition fetchChartData_catch (now : Z) (captured : LocalStats)
    (_ : exn) (st : state) : state :=
  setChartData (to_value (generateDataFromStats now captured))
    (setUseSessionData false (setConnectionStatus error st)).

Definition fetchChartData_resume (now : Z) (captured : LocalStats) (f : fetched)
    (st : state) : state :=
  try_catch_finally (fetchChartData_try f) (fetchChartData_catch now captured)
    (setIsLoading false) st.

(** The effect with dependencies [[stats, useSessionData]]; [stats] is
    an object, hence truthy. *)
Definition statsEffect (now : Z) (st : state) : state :=
  if negb (useSessionData st) && true
  then setLastUpdated (DateAt now)
         (setChartData (to_value (generateDataFromStats now (stats st))) st)
  else st.

(** After the writes of a pull that has settled the component renders
    again, and the effect runs when one of its dependencies has changed;
    the effect is taken to run before the next event. *)
Definition commit (now : Z) (before after : state) : state :=
  if Bool.eqb (useSessionData before) (useSessionData after) then after
  else statsEffect now after.

Definition initial (s : LocalStats) : state :=
  {| chartData := VNull; lastUpdated := None; isLoading := true;
     connectionStatus := connecting; useSessionData := true;
     stats := s; intervalStats := s; pending := []; refreshButton := None |}.

(** The first commit, which shows the spinner: the mount effect calls
    [fetchChartData] and registers it with [setInterval]; the stats effect
    runs too. *)
Definition mount (now : Z) (s : LocalStats) : state :=
  statsEffect now (fetchChartData_call s (initial s)).

(** The markup of a render of these cells shows the Refresh button in
    the main view only (the spinner is returned while
    [isLoading || !chartData]), where it is [disabled] while [isLoading]. *)
Definition refresh_enabled (st : state) : bool :=
  negb (isLoading st || negb (truthy (chartData st))) && negb (isLoading st).

(** The component renders and the markup is committed: from now on a
    click meets the button of this render, whose [onClick] is the
    [fetchChartData] of this render. *)
Definition rendered (st : state) : state :=
  with_refreshButton (if refresh_enabled st then Some (stats st) else None) st.

Definition remove_nth {A : Type} (i : nat) (l : list A) : list A :=
  firstn i l ++ skipn (S i) l.

Inductive event : Type :=
| TimerTick                              (* the 30 s interval fires *)
| RefreshClick                           (* a click where the Refresh button is *)
| FetchSettled (i : nat) (f : fetched)   (* the i-th call in flight resumes *)
| StatsChanged (s : LocalStats)          (* the parent renders with a new stats object *)
| Rendered.                              (* the markup is renewed after writes *)

(** One event, handled when the clock reads [now].  [fetchChartData] has
    no guard of its own: the timer calls it whatever is in flight, and a
    click calls it whenever the markup committed last shows the button
    enabled, whatever the cells hold by now.  The markup is renewed when
    the parent renders the component and, since React renders the writes
    of a click handler before the next event, after a click; the writes
    of a timer tick and of a settled pull are rendered later ([Rendered]),
    and other events can come first. *)
Definition step (now : Z) (e : event) (st : state) : state :=
  match e with
  | TimerTick => fetchChartData_call (intervalStats st) st
  | RefreshClick =>
      match refreshButton st with
      | Some captured => rendered (fetchChartData_call captured st)
      | None => st
      end
  | FetchSettled i f =>
      match nth_error (pending st) i with
      | None => st
      | Some captured =>
          commit now st
            (fetchChartData_resume now captured f
               (with_pending (remove_nth i (pending st)) st))
      end
  | StatsChanged s => statsEffect now (rendered (with_stats s st))
  | Rendered => rendered st
  end.

Fixpoint run (evs : list (Z * event)) (st : state) : state :=
  match evs with
  | [] => st
  | (now, e) :: rest => run rest (step now e st)
  end.

(** The states the component can be in. *)
Definition reachable (st : state) : Prop :=
  exists now s evs, st = run evs (mount now s).

End WithHost.

End Charts.

(** ** What the chart component renders ([components/Charts.jsx], the
    return value of the component) *)

Module ChartsView.
Import Charts.

(** The status banner: its alert class, the texts inside [<strong>]
    (an expression [c && text] renders its text when [c] holds and nothing
    otherwise) and the badge beside the Refresh button. *)
Record Banner : Type :=
  { alert_class : string; texts : list string; badge : string }.

Definition connection_eqb (a b : connection) : bool :=
  match a, b with
  | connecting, connecting | connected, connected
  | disconnected, disconnected | error, error => true
  | _, _ => false
  end.

Definition when (c : bool) (text : string) : list string :=
  if c then [text] else [].

Definition banner (st : state) : Banner :=
  {| alert_class :=
       if useSessionData st && connection_eqb (connectionStatus st) connected
       then "alert-success"
       else if connection_eqb (connectionStatus st) error then "alert-warning"
       else "alert-info";
     texts :=
       when (useSessionData st && connection_eqb (connectionStatus st) connected)
         "🟢 Session-Based Data Active"
       ++ when (useSessionData st && connection_eqb (connectionStatus st) disconnected)
            "🟡 Session Data Reconnecting"
       ++ when (negb (useSessionData st))
            "📊 Charts Generated from Current Detection Stats";
     badge := if useSessionData st then "Session-Based" else "Stats-Based" |}%string.

Section WithConversions.
Context {conv : Conversions}.

(** The items of an array, each converted to a number. *)
Fixpoint numbers (items : list value) : result (list number) :=
  match items with
  | [] => Ok []
  | v :: rest =>
      and_then (to_number v) (fun n =>
      and_then (numbers rest) (fun ns => Ok (n :: ns)))
  end.

(** [v.map(count => count > 8 ? ... : count > 4 ? ... : ...)]: calling
    [map] on a value that is no array throws, and each comparison converts
    its item to a number, as [Math.max(...v)] does later. *)
Definition numbers_of (v : value) : result (list number) :=
  match v with
  | VArr items => numbers items
  | _ => Throw TypeError
  end.

(** [v.reduce((a, b) => a + b, 0)], as far as it throws: calling
    [reduce] on a value that is no array throws, and each addition converts
    its item to a primitive; the sum itself is a number or a string. *)
Definition sum (v : value) : result unit :=
  match v with
  | VArr items => if forallb converts items then Ok tt else Throw TypeError
  | _ => Throw TypeError
  end.

(** [Math.max(...ns)] *)
Definition max_of (ns : list number) : number :=
  fold_left Math_max ns (S754_infinity true).

(** [items.indexOf(m)] for a number [m]: the first item that is a number
    equal to [m]. *)
Fixpoint indexOf (m : number) (items : list value) : option nat :=
  match items with
  | [] => None
  | v :: rest =>
      if match v with VNum n => SFeqb n m | _ => false end then Some O
      else option_map S (indexOf m rest)
  end.

(** [v[i]] for the result [i] of [indexOf], which is -1 when nothing is
    found: [null] and [undefined] throw; an array gives its item, a string
    its character and an object its property of that name. *)
Definition at_index (v : value) (i : option nat) : result value :=
  match v with
  | VUndefined | VNull => Throw TypeError
  | VArr items =>
      Ok (match i with Some i => nth i items VUndefined | None => VUndefined end)
  | VStr s =>
      Ok (match i with
          | Some i =>
              match String.get i s with
              | Some c => VStr (String c EmptyString)
              | None => VUndefined
              end
          | None => VUndefined
          end)
  | VObj fields =>
      Ok (lookup (match i with
                  | Some i => NilZero.string_of_uint (Nat.to_uint i)
                  | None => "-1"
                  end) fields)
  | _ => Ok VUndefined
  end.

(** What React accepts as a child of an element: primitives, and arrays
    of children; any other object makes the render throw. *)
Fixpoint renders (v : value) : bool :=
  match v with
  | VObj _ => false
  | VArr items => forallb renders items
  | _ => true
  end.

Definition child (v : value) : result unit :=
  if renders v then Ok tt else Throw InvalidChild.

(** The main view, as far as it can throw, in the order of the source:
    the three chart configurations, the metrics, the expressions of the
    markup, and then the children that React renders.  The metrics are the
    sums over the timeline for session data and the counters of the
    [stats] prop otherwise.  The charts themselves are drawn by the
    charting library, outside this component. *)
Definition main_view (useSessionData : bool)
    (chartData totalLogs normalCount suspiciousCount : value) : result unit :=
  and_then (get chartData "timeline_data") (fun timelineData =>
  and_then (get timelineData "timestamps") (fun _ =>
  and_then (get timelineData "normal_counts") (fun normal_counts =>
  and_then (get timelineData "anomaly_counts") (fun anomaly_counts =>
  and_then (get chartData "threat_categories") (fun categoryData =>
  and_then (get categoryData "categories") (fun _ =>
  and_then (get categoryData "counts") (fun _ =>
  and_then (get chartData "hourly_patterns") (fun patternData =>
  and_then (get patternData "time_periods") (fun time_periods =>
  and_then (get patternData "threat_counts") (fun threat_counts =>
  and_then (numbers_of threat_counts) (fun counts =>
  (* totalAnomalies, totalNormal *)
  and_then (if useSessionData then sum anomaly_counts else Ok tt) (fun _ =>
  and_then (if useSessionData then sum normal_counts else Ok tt) (fun _ =>
  (* threatRate: totalAnomalies > 0 ? totalAnomalies / Math.max(totalAnomalies + totalNormal, 1) ... *)
  and_then (if useSessionData then Ok tt
            else and_then (gt_zero suspiciousCount) (fun positive =>
                 if (positive : bool) && negb (converts normalCount)
                 then Throw TypeError else Ok tt)) (fun _ =>
  (* the peak period *)
  and_then (at_index time_periods
              (match threat_counts with
               | VArr items => indexOf (max_of counts) items
               | _ => None
               end)) (fun peak =>
  (* `Current detection results (${stats.totalLogs} logs analyzed)` *)
  and_then (if useSessionData then Ok EmptyString else to_string totalLogs) (fun _ =>
  (* the children {totalAnomalies}, {currentTotalLogs}, the peak period, {totalNormal} *)
  and_then (if useSessionData then Ok tt else child suspiciousCount) (fun _ =>
  and_then (if useSessionData then Ok tt else child totalLogs) (fun _ =>
  and_then (child peak) (fun _ =>
  if useSessionData then Ok tt else child normalCount))))))))))))))))))).

(** One render: the spinner while [isLoading || !chartData], the main
    view with its banner otherwise; an exception leaves the render. *)
Definition render (st : state) : result (option Banner) :=
  if isLoading st || negb (truthy (chartData st)) then Ok None
  else and_then (main_view (useSessionData st) (chartData st)
                   (VNum (totalLogs (stats st))) (VNum (normalCount (stats st)))
                   (VNum (suspiciousCount (stats st))))
         (fun _ => Ok (Some (banner st))).

End WithConversions.

(** The invariant of the component: the flag, the connection status and
    the chart data go together, and the loading flag is set only while a
    call is in flight. *)
Definition coherent {host : Host} (st : state) : Prop :=
  (useSessionData st = true ->
     (connectionStatus st = connected /\ chartData st <> VNull) \/
     (connectionStatus st = connecting /\ chartData st = VNull)) /\
  (useSessionData st = false ->
     connectionStatus st = error /\
     exists now s, chartData st = to_value (generateDataFromStats now s)) /\
  (pending st = [] -> isLoading st = false).

End ChartsView.

(** ** The application shell ([App.jsx] with [services/api.js]) *)

Module App.

Record SystemStatus : Type :=
  { online : bool; modelTrained : value; realDataEnabled : value; version : value }.

(** The [stats] cell; its fields are whatever the server sent, or 0. *)
Record Stats : Type :=
  { totalLogs : value; normalCount : value; suspiciousCount : value }.

Record Alert : Type :=
  { id : Z; type : string; message : string; timestamp : string }.

(** The [useState] cells of the component and the number of
    [fetchSessionStats] calls suspended at their [await]. *)
Record state : Type :=
  { systemStatus : SystemStatus;
    stats : Stats;
    realTimeStats : value;
    alerts : list Alert;
    apiResponding : bool;
    sessionPulls : nat }.

Definition setSystemStatus (s : SystemStatus) (st : state) : state :=
  {| systemStatus := s; stats := stats st; realTimeStats := realTimeStats st;
     alerts := alerts st; apiResponding := apiResponding st;
     sessionPulls := sessionPulls st |}.

Definition setStats (s : Stats) (st : state) : state :=
  {| systemStatus := systemStatus st; stats := s; realTimeStats := realTimeStats st;
     alerts := alerts st; apiResponding := apiResponding st;
     sessionPulls := sessionPulls st |}.

Definition setRealTimeStats (v : value) (st : state) : state :=
  {| systemStatus := systemStatus st; stats := stats st; realTimeStats := v;
     alerts := alerts st; apiResponding := apiResponding st;
     sessionPulls := sessionPulls st |}.

Definition setAlerts (f : list Alert -> list Alert) (st : state) : state :=
  {| systemStatus := systemStatus st; stats := stats st;
     realTimeStats := realTimeStats st; alerts := f (alerts st);
     apiResponding := apiResponding st; sessionPulls := sessionPulls st |}.

Definition setApiResponding (b : bool) (st : state) : state :=
  {| systemStatus := systemStatus st; stats := stats st;
     realTimeStats := realTimeStats st; alerts := alerts st;
     apiResponding := b; sessionPulls := sessionPulls st |}.

Definition with_sessionPulls (n : nat) (st : state) : state :=
  {| systemStatus := systemStatus st; stats := stats st;
     realTimeStats := realTimeStats st; alerts := alerts st;
     apiResponding := apiResponding st; sessionPulls := n |}.

(** [apiService.request(endpoint)] *)
Definition request (f : fetched) : result value :=
  match f with
  | Rejected => Throw NetworkError
  | Resolved response =>
      if negb (ok response) then Throw (HttpError (status response))
      else json response
  end.

(** The first [try] of [checkSystemStatus]: the status to adopt when the
    function returns from it, nothing when it falls through. *)
Definition advanced_probe (advanced : fetched) : action state (option SystemStatus) :=
  (advancedStatus <- lift (request advanced) ;;
   real_data_enabled <- lift (get advancedStatus "real_data_enabled") ;;
   if is_defined real_data_enabled then
     model_trained <- lift (get advancedStatus "model_trained") ;;
     version <- lift (get advancedStatus "version") ;;
     ret (Some {| online := true;
                  modelTrained := or_else model_trained (VBool false);
                  realDataEnabled := or_else real_data_enabled (VBool false);
                  version := or_else version (VStr "2.0.0") |})
   else ret None)%action.

(** The second [try]. *)
Definition basic_probe (basic : fetched) : action state unit :=
  (status <- lift (request basic) ;;
   system_status <- lift (get status "system_status") ;;
   model_trained <- lift (get status "model_trained") ;;
   write (setSystemStatus
            {| online := is_string system_status "healthy" || true;
               modelTrained := or_else model_trained (VBool false);
               realDataEnabled := VBool false;
               version := VStr "1.0.0" |}))%action.

Definition offline : SystemStatus :=
  {| online := false; modelTrained := VBool false;
     realDataEnabled := VBool false; version := VStr "Unknown" |}.

(** [checkSystemStatus], given what the request to [/] hands back and
    what the request to [/status] hands back if it comes to be made. *)
Definition checkSystemStatus (advanced basic : fetched) (st : state) : state :=
  match advanced_probe advanced st with
  | (st', Ok (Some s)) => setSystemStatus s st'
  | (st', _) =>
      try_catch_finally (basic_probe basic)
        (fun _ => setSystemStatus offline) (fun s => s) st'
  end.

(** [fetchSessionStats] up to its [await]. *)
Definition fetchSessionStats_call (st : state) : state :=
  with_sessionPulls (S (sessionPulls st)) st.

Section WithConversions.
Context {conv : Conversions}.

(** The [try] block of [fetchSessionStats] after its [await].  The
    message that it logs last converts the session id to a string, which
    can throw, after the three writes. *)
Definition fetchSessionStats_try (f : fetched) : action state unit :=
  (response <- await f ;;
   if ok response then
     data <- lift (json response) ;;
     sessionData <- lift (get data "session_stats") ;;
     total_logs_processed <- lift (get sessionData "total_logs_processed") ;;
     normal_activities <- lift (get sessionData "normal_activities") ;;
     total_anomalies_detected <- lift (get sessionData "total_anomalies_detected") ;;
     write (setStats
              {| totalLogs := or_else total_logs_processed (VNum (of_Z 0));
                 normalCount := or_else normal_activities (VNum (of_Z 0));
                 suspiciousCount := or_else total_anomalies_detected (VNum (of_Z 0)) |}) ;;
     write (setRealTimeStats sessionData) ;;
     write (setApiResponding true) ;;
     session_id <- lift (get sessionData "session_id") ;;
     logged <- lift (to_string (or_else session_id (VStr "none"))) ;;
     ret tt
   else write (setApiResponding false))%action.

Definition fetchSessionStats_resume (f : fetched) (st : state) : state :=
  try_catch_finally (fetchSessionStats_try f)
    (fun _ => setApiResponding false) (fun s => s)
    (with_sessionPulls (Nat.pred (sessionPulls st)) st).

End WithConversions.

(** [ws.onmessage].  A message event is given by what
    [JSON.parse(event.data)] does with its text: it throws [SyntaxError]
    when the text is malformed and returns the decoded value otherwise.
    Nothing in the handler catches. *)
Definition ws_onmessage (parsed : result value) : action state unit :=
  (message <- lift parsed ;;
   type <- lift (get message "type") ;;
   if is_string type "session_detection_complete"
      || is_string type "periodic_update"
      || is_string type "stats_update"
   then write fetchSessionStats_call
   else ret tt)%action.

Section WithHost.
Context {host : Host}.

(** [addAlert(type, message)] when the clock reads [now]. *)
Definition addAlert (now : Z) (type message : string) (st : state) : state :=
  let alert :=
    {| id := now; type := type; message := message;
       timestamp := toLocaleTimeString DefaultFormat now |} in
  setAlerts (fun prev => alert :: firstn 4 prev) st.

(** A sequence of [addAlert] calls, each with its clock reading, its
    type and its message, oldest call first. *)
Fixpoint record_all (calls : list (Z * string * string)) (st : state) : state :=
  match calls with
  | [] => st
  | (now, type, message) :: rest => record_all rest (addAlert now type message st)
  end.

(** The entry that a call leaves in the log. *)
Definition entry (call : Z * string * string) : Alert :=
  let '(now, type, message) := call in
  {| id := now; type := type; message := message;
     timestamp := toLocaleTimeString DefaultFormat now |}.

End WithHost.

Definition initial : state :=
  {| systemStatus :=
       {| online := false; modelTrained := VBool false;
          realDataEnabled := VBool false; version := VStr "1.0.0" |};
     stats := {| totalLogs := VNum (of_Z 0); normalCount := VNum (of_Z 0);
                 suspiciousCount := VNum (of_Z 0) |};
     realTimeStats :=
       VObj [("total_logs_processed", VNum (of_Z 0));
             ("total_anomalies_detected", VNum (of_Z 0));
             ("normal_activities", VNum (of_Z 0));
             ("threat_rate_percent", VNum (of_Z 0));
             ("session_id", VNull)]%string;
     alerts := []; apiResponding := false; sessionPulls := 0 |}.

(** The mount effect calls [fetchSessionStats] (next to the status check
    and the opening of the push channel). *)
Definition mount : state := fetchSessionStats_call initial.

Inductive event : Type :=
| IntervalTick                           (* the 30 s interval fires *)
| PushMessage (parsed : result value)    (* a message on the push channel *)
| PullSettled (f : fetched)              (* a session pull resumes *)
| StatusChecked (advanced basic : fetched).

(** One event; an exception that escapes a handler is reported by the
    host and leaves the writes made so far. *)
Definition step {conv : Conversions} (e : event) (st : state) : state :=
  match e with
  | IntervalTick => fetchSessionStats_call st
  | PushMessage parsed => fst (ws_onmessage parsed st)
  | PullSettled f =>
      match sessionPulls st with
      | O => st
      | S _ => fetchSessionStats_resume f st
      end
  | StatusChecked advanced basic => checkSystemStatus advanced basic st
  end.

End App.

(** ** The control panel ([components/ControlPanel.jsx]) *)

Module ControlPanel.

(** The five callbacks that the application shell passes down. *)
Inductive handler : Type :=
| onTrainModel
| onTrainRealData
| onTestDetection
| onTestRealDetection
| onGenerateData.

Record Props : Type :=
  { isLoading : bool; modelTrained : value; realDataEnabled : value }.

Record Button : Type :=
  { id : string;
    label : string;
    icon : string;
    variant : string;
    onClick : handler;
    disabled : bool;
    loadingText : string;
    description : string }.

Definition basicButtons (p : Props) : list Button :=
  [ {| id := "train-basic"; label := "Train Basic AI"; icon := "bi-mortarboard";
       variant := "btn-primary"; onClick := onTrainModel;
       disabled := isLoading p;
       loadingText := "Training Basic AI...";
       description := "Train with generated sample data (quick demo)" |};
    {| id := "test-basic"; label := "Test Basic Detection"; icon := "bi-search";
       variant := "btn-success"; onClick := onTestDetection;
       disabled := isLoading p || negb (truthy (modelTrained p));
       loadingText := "Testing Basic Detection...";
       description := "Test with sample log data" |};
    {| id := "generate"; label := "Generate Sample Data"; icon := "bi-database";
       variant := "btn-info"; onClick := onGenerateData;
       disabled := isLoading p;
       loadingText := "Generating Data...";
       description := "Create sample log data for testing" |} ]%string.

Definition advancedButtons (p : Props) : list Button :=
  [ {| id := "train-real"; label := "Train on Real Linux Data";
       icon := "bi-shield-check"; variant := "btn-primary";
       onClick := onTrainRealData;
       disabled := isLoading p;
       loadingText := "Training on Real Data...";
       description := "Train AI using authentic Linux system logs" |};
    {| id := "test-real"; label := "Test Real Detection"; icon := "bi-bug";
       variant := "btn-danger"; onClick := onTestRealDetection;
       disabled := isLoading p || negb (truthy (modelTrained p));
       loadingText := "Analyzing Real Logs...";
       description := "Detect threats in production Linux logs" |};
    {| id := "test-basic-alt"; label := "Test Sample Detection";
       icon := "bi-play-circle"; variant := "btn-success";
       onClick := onTestDetection;
       disabled := isLoading p || negb (truthy (modelTrained p));
       loadingText := "Testing Sample Data...";
       description := "Quick test with generated sample data" |} ]%string.

Definition buttonsToShow (p : Props) : list Button :=
  if truthy (realDataEnabled p) then advancedButtons p else basicButtons p.

(** The text on a button:
    [isLoading && !button.disabled ? button.loadingText : button.label]. *)
Definition button_text (p : Props) (b : Button) : string :=
  if isLoading p && negb (disabled b) then loadingText b else label b.

(** The three blocks under the buttons: the progress bar
    ([isLoading && ...]), the warning ([!modelTrained && !isLoading && ...])
    and the ready message ([modelTrained && !isLoading && ...]). *)
Definition progress_bar (p : Props) : bool := isLoading p.

Definition not_trained_warning (p : Props) : bool :=
  negb (truthy (modelTrained p)) && negb (isLoading p).

Definition ready_message (p : Props) : bool :=
  truthy (modelTrained p) && negb (isLoading p).

(** A click on the button with the given [id]: a button that is shown
    and not disabled calls its [onClick]; a disabled button, or an id
    that is not shown, calls nothing. *)
Definition click (p : Props) (button_id : string) : option handler :=
  match find (fun b => String.eqb (id b) button_id) (buttonsToShow p) with
  | Some b => if disabled b then None else Some (onClick b)
  | None => None
  end.

End ControlPanel.

(** ** The request helper of the API service ([services/api.js]) *)

Module ApiService.

(** The own properties that [{...v}] copies: those of an object; an
    array gives its items and a string its characters, under their
    indices; any other value gives none. *)
Fixpoint indexed (i : nat) (items : list value) : list (string * value) :=
  match items with
  | [] => []
  | v :: rest => (NilEmpty.string_of_uint (Nat.to_uint i), v) :: indexed (S i) rest
  end.

Definition spread (v : value) : list (string * value) :=
  match v with
  | VObj fields => fields
  | VArr items => indexed 0 items
  | VStr s =>
      indexed 0 (map (fun c => VStr (String c EmptyString)) (list_ascii_of_string s))
  | _ => []
  end.

(** The [config] that [request(endpoint, options = {})] hands to
    [fetch]; reading [options.headers] throws when [options] is null. *)
Definition request_config (options : value) : result (list (string * value)) :=
  let options := match options with VUndefined => VObj [] | _ => options end in
  and_then (get options "headers") (fun headers =>
    Ok (("headers",
         VObj (("Content-Type", VStr "application/json") :: spread headers))
        :: spread options))%string.

End ApiService.

(** ** The action handlers of the application shell ([App.jsx]) *)

Module Actions.

(** A handler suspended at an [await]: at the request it made, or, for
    the training on real data, at the status check that follows. *)
Inductive continuation : Type :=
| TrainModel
| TrainRealData
| StatusAfterTraining
| TestDetection
| TestRealDetection
| GenerateData.

(** The cells of [App] that the handlers use besides those of
    [App.state]: the [isLoading] flag, the handlers that are suspended and
    the number of [setTimeout(fetchSessionStats, 2000)] that have not
    fired yet. *)
Record state : Type :=
  { app : App.state;
    isLoading : bool;
    running : list continuation;
    timeouts : nat }.

Definition in_app (f : App.state -> App.state) (st : state) : state :=
  {| app := f (app st); isLoading := isLoading st;
     running := running st; timeouts := timeouts st |}.

Definition setIsLoading (b : bool) (st : state) : state :=
  {| app := app st; isLoading := b; running := running st; timeouts := timeouts st |}.

Definition with_running (l : list continuation) (st : state) : state :=
  {| app := app st; isLoading := isLoading st; running := l; timeouts := timeouts st |}.

Definition with_timeouts (n : nat) (st : state) : state :=
  {| app := app st; isLoading := isLoading st; running := running st; timeouts := n |}.

(** [setSystemStatus(prev => ({ ...prev, modelTrained: true }))] *)
Definition mark_trained (st : App.state) : App.state :=
  App.setSystemStatus
    {| App.online := App.online (App.systemStatus st);
       App.modelTrained := VBool true;
       App.realDataEnabled := App.realDataEnabled (App.systemStatus st);
       App.version := App.version (App.systemStatus st) |} st.

(** The props that [App] passes to the control panel, which is rendered
    anew after every event. *)
Definition panel_props (st : state) : ControlPanel.Props :=
  {| ControlPanel.isLoading := isLoading st;
     ControlPanel.modelTrained := App.modelTrained (App.systemStatus (app st));
     ControlPanel.realDataEnabled := App.realDataEnabled (App.systemStatus (app st)) |}.

Definition continuation_of (h : ControlPanel.handler) : continuation :=
  match h with
  | ControlPanel.onTrainModel => TrainModel
  | ControlPanel.onTrainRealData => TrainRealData
  | ControlPanel.onTestDetection => TestDetection
  | ControlPanel.onTestRealDetection => TestRealDetection
  | ControlPanel.onGenerateData => GenerateData
  end.

(** Every handler begins with [setIsLoading(true)] and its request. *)
Definition start (h : ControlPanel.handler) (st : state) : state :=
  with_running (running st ++ [continuation_of h]) (setIsLoading true st).

Section WithHost.
Context {host : Host} {conv : Conversions}.

Definition alert (now : Z) (type message : string) : action state unit :=
  write (in_app (App.addAlert now type message)).

(** [handleTrainModel] after its [await]. *)
Definition handleTrainModel_resume (now : Z) (f : fetched) : state -> state :=
  try_catch_finally
    (result <- lift (App.request f) ;;
     write (in_app mark_trained) ;;
     training_samples <- lift (get result "training_samples") ;;
     samples <- lift (to_string training_samples) ;;
     alert now "success"
       ("✅ Basic AI model trained successfully! (" ++ samples ++ " samples)"))%action
    (fun _ => in_app (App.addAlert now "error"
                        "❌ Basic training failed. Please try again."))
    (setIsLoading false).

(** [handleTrainRealData] from its first [await] to its second, the
    status check: when nothing throws the handler is suspended again. *)
Definition handleTrainRealData_resume (now : Z) (f : fetched) (st : state) : state :=
  match
    (result <- lift (App.request f) ;;
     write (in_app mark_trained) ;;
     training_samples <- lift (get result "training_samples") ;;
     samples <- lift (to_string training_samples) ;;
     alert now "success"
       ("🎯 Advanced training completed on real Linux logs! ("
        ++ samples ++ " samples)"))%action st
  with
  | (st', Ok _) => with_running (running st' ++ [StatusAfterTraining]) st'
  | (st', Throw _) =>
      setIsLoading false
        (in_app (App.addAlert now "error"
                   "❌ Real data training failed. Please check API connection.") st')
  end.

(** [handleTrainRealData] after the status check, which never throws. *)
Definition handleTrainRealData_checked (advanced basic : fetched) (st : state) : state :=
  setIsLoading false (in_app (App.checkSystemStatus advanced basic) st).

(** [handleTestDetection] after its [await]; the clock is read once for
    each alert. *)
Definition handleTestDetection_resume (now later : Z) (f : fetched) : state -> state :=
  try_catch_finally
    (result <- lift (App.request f) ;;
     total_logs <- lift (get result "total_logs") ;;
     normal_found <- lift (get result "normal_found") ;;
     suspicious_found <- lift (get result "suspicious_found") ;;
     write (in_app (App.setStats
                      {| App.totalLogs := or_else total_logs (VNum (of_Z 0));
                         App.normalCount := or_else normal_found (VNum (of_Z 0));
                         App.suspiciousCount :=
                           or_else suspicious_found (VNum (of_Z 0)) |})) ;;
     summary <- lift (get result "summary") ;;
     text <- lift (to_string (or_else summary (VStr "Test completed successfully"))) ;;
     alert now "info" ("🔍 Basic test complete: " ++ text) ;;
     found <- lift (gt_zero suspicious_found) ;;
     if found : bool then
       count <- lift (to_string suspicious_found) ;;
       alert later "warning"
         ("🚨 Found " ++ count ++ " suspicious activities in sample data!")
     else ret tt)%action
    (fun _ => in_app (App.addAlert later "error" "❌ Basic detection test failed."))
    (setIsLoading false).

(** [handleTestRealDetection] after its [await]. *)
Definition handleTestRealDetection_resume (now later : Z) (f : fetched)
    : state -> state :=
  try_catch_finally
    (result <- lift (App.request f) ;;
     total_analyzed <- lift (get result "total_analyzed") ;;
     (if is_defined total_analyzed then
        normal_behavior <- lift (get result "normal_behavior") ;;
        anomalies_detected <- lift (get result "anomalies_detected") ;;
        write (in_app (App.setStats
                         {| App.totalLogs := or_else total_analyzed (VNum (of_Z 0));
                            App.normalCount := or_else normal_behavior (VNum (of_Z 0));
                            App.suspiciousCount :=
                              or_else anomalies_detected (VNum (of_Z 0)) |})) ;;
        anomalies <- lift (to_string anomalies_detected) ;;
        total <- lift (to_string total_analyzed) ;;
        alert now "info"
          ("🔍 Session analysis: " ++ anomalies ++ " anomalies found in "
           ++ total ++ " logs") ;;
        found <- lift (gt_zero anomalies_detected) ;;
        if found : bool then
          anomalies <- lift (to_string anomalies_detected) ;;
          alert later "warning"
            ("🚨 SESSION THREATS: " ++ anomalies ++ " suspicious activities detected!")
        else alert later "success"
               "🛡️ Session complete: All logs show normal behavior patterns"
      else ret tt) ;;
     write (fun st => with_timeouts (S (timeouts st)) st))%action
    (fun _ => in_app (App.addAlert later "error"
                        "❌ Real data detection test failed. Make sure advanced API is running."))
    (setIsLoading false).

(** [handleGenerateData] after its [await]. *)
Definition handleGenerateData_resume (now : Z) (f : fetched) : state -> state :=
  try_catch_finally
    (result <- lift (App.request f) ;;
     message <- lift (get result "message") ;;
     message <- lift (to_string message) ;;
     normal_count <- lift (get result "normal_count") ;;
     normal_count <- lift (to_string normal_count) ;;
     suspicious_count <- lift (get result "suspicious_count") ;;
     suspicious_count <- lift (to_string suspicious_count) ;;
     alert now "success"
       ("📊 " ++ message ++ ": " ++ normal_count ++ " normal + "
        ++ suspicious_count ++ " suspicious logs"))%action
    (fun _ => in_app (App.addAlert now "error" "❌ Data generation failed."))
    (setIsLoading false).

Inductive event : Type :=
| Click (button_id : string)                 (* a click in the control panel *)
| Settled (i : nat) (f : fetched)            (* the request of the i-th suspended handler settles *)
| StatusSettled (i : nat) (advanced basic : fetched)
                                             (* the status check of the i-th suspended handler ends *)
| TimeoutFired                               (* a scheduled fetchSessionStats runs *)
| Shell (e : App.event).                     (* timer, push channel, session pull, status check *)

(** One event; [now] and [later] are the clock readings of the alerts
    that it posts. *)
Definition step (now later : Z) (e : event) (st : state) : state :=
  match e with
  | Click button_id =>
      match ControlPanel.click (panel_props st) button_id with
      | Some h => start h st
      | None => st
      end
  | Settled i f =>
      let rest := with_running (Charts.remove_nth i (running st)) st in
      match nth_error (running st) i with
      | Some TrainModel => handleTrainModel_resume now f rest
      | Some TrainRealData => handleTrainRealData_resume now f rest
      | Some TestDetection => handleTestDetection_resume now later f rest
      | Some TestRealDetection => handleTestRealDetection_resume now later f rest
      | Some GenerateData => handleGenerateData_resume now f rest
      | Some StatusAfterTraining | None => st
      end
  | StatusSettled i advanced basic =>
      match nth_error (running st) i with
      | Some StatusAfterTraining =>
          handleTrainRealData_checked advanced basic
            (with_running (Charts.remove_nth i (running st)) st)
      | _ => st
      end
  | TimeoutFired =>
      match timeouts st with
      | O => st
      | S n => in_app App.fetchSessionStats_call (with_timeouts n st)
      end
  | Shell e => in_app (App.step e) st
  end.

Fixpoint run (evs : list (Z * Z * event)) (st : state) : state :=
  match evs with
  | [] => st
  | (now, later, e) :: rest => run rest (step now later e st)
  end.

End WithHost.

(** The first commit of [App]. *)
Definition mount : state :=
  {| app := App.mount; isLoading := false; running := []; timeouts := 0 |}.

Definition reachable {host : Host} {conv : Conversions} (st : state) : Prop :=
  exists evs, st = run evs mount.

(** A counter as the handlers and the session pull store it: a truthy
    value, or the number 0. *)
Definition stored_counter (v : value) : Prop :=
  truthy v = true \/ v = VNum (of_Z 0).

(** What the cells of the shell satisfy after every event: the three
    counters are stored counters, the session object is neither null nor
    undefined and the log holds five alerts at most. *)
Definition sound (a : App.state) : Prop :=
  stored_counter (App.totalLogs (App.stats a)) /\
  stored_counter (App.normalCount (App.stats a)) /\
  stored_counter (App.suspiciousCount (App.stats a)) /\
  App.realTimeStats a <> VUndefined /\
  App.realTimeStats a <> VNull /\
  (List.length (App.alerts a) <= 5)%nat.

(** The state while a handler runs: the handlers suspended, the
    loading flag and sound cells. *)
Definition during (l : list continuation) (b : bool) (st : state) : Prop :=
  running st = l /\ isLoading st = b /\ sound (app st).

(** No handler is suspended and nothing is loading, or one handler is
    suspended and the loading flag is set. *)
Definition exclusive (st : state) : Prop :=
  (running st = [] /\ isLoading st = false) \/
  (exists c, running st = [c] /\ isLoading st = true).

End Actions.

(** ** The status cards ([components/StatusCards.jsx]) *)

Module StatusCards.

Record Props : Type :=
  { stats : App.Stats;
    modelTrained : value;
    realDataEnabled : value;
    realTimeStats : value }.

Record Card : Type :=
  { title : string; value : string; icon : string; bgColor : string;
    textColor : string }.

(** The props that [App] passes. *)
Definition props_of (st : App.state) : Props :=
  {| stats := App.stats st;
     modelTrained := App.modelTrained (App.systemStatus st);
     realDataEnabled := App.realDataEnabled (App.systemStatus st);
     realTimeStats := App.realTimeStats st |}.

Section WithConversions.
Context {conv : Conversions}.

(** [realTimeStats && realTimeStats.total_logs_processed > 0] *)
Definition session_active (p : Props) : result bool :=
  if truthy (realTimeStats p) then
    and_then (get (realTimeStats p) "total_logs_processed") gt_zero
  else Ok false.

Definition displayStats (p : Props) : result App.Stats :=
  and_then (session_active p) (fun active =>
    if active : bool then
      and_then (get (realTimeStats p) "total_logs_processed") (fun total =>
      and_then (get (realTimeStats p) "total_anomalies_detected") (fun anomalies =>
      and_then (minus total anomalies) (fun normal =>
      Ok {| App.totalLogs := total;
            App.normalCount := normal;
            App.suspiciousCount := anomalies |})))
    else Ok (stats p)).

(** The [cards] array, which the component computes before it returns
    its markup. *)
Definition cards (p : Props) : result (list Card) :=
  (and_then (displayStats p) (fun d =>
  and_then (toLocaleString_call (App.totalLogs d)) (fun total =>
  and_then (toLocaleString_call (App.normalCount d)) (fun normal =>
  and_then (toLocaleString_call (App.suspiciousCount d)) (fun suspicious =>
  and_then (gt_zero (App.suspiciousCount d)) (fun danger =>
  let trained := truthy (modelTrained p) in
  let real := truthy (realDataEnabled p) in
  Ok [ {| title := "Total Logs Analyzed"; value := total;
          icon := "bi-file-earmark-text-fill"; bgColor := "bg-primary";
          textColor := "text-white" |};
       {| title := "Normal Activities"; value := normal;
          icon := "bi-check-circle-fill"; bgColor := "bg-success";
          textColor := "text-white" |};
       {| title := "Suspicious Activities"; value := suspicious;
          icon := "bi-exclamation-triangle-fill";
          bgColor := if danger : bool then "bg-danger" else "bg-warning";
          textColor := "text-white" |};
       {| title := if real then "Advanced AI Status" else "Basic AI Status";
          value := if trained
                   then (if real then "Real Data Trained" else "Sample Data Trained")
                   else "Not Trained";
          icon := if trained
                  then (if real then "bi-shield-check" else "bi-cpu-fill")
                  else "bi-cpu";
          bgColor := if trained
                     then (if real then "bg-success" else "bg-info")
                     else "bg-secondary";
          textColor := "text-white" |} ]))))))%string.

End WithConversions.

End StatusCards.

(** * Properties *)

(** ** Doubles that hold integers *)

Section Doubles.
Import Rounding.

Lemma digits2_pos_bounds (p : positive) :
  2 ^ (Zpos (digits2_pos p) - 1) <= Zpos p < 2 ^ Zpos (digits2_pos p).
Proof.
  induction p as [p IH|p IH|]; cbn [digits2_pos].
  - rewrite Pos2Z.inj_succ.
    replace (Z.succ (Zpos (digits2_pos p)) - 1) with (Z.succ (Zpos (digits2_pos p) - 1)) by lia.
    rewrite !Z.pow_succ_r by lia. lia.
  - rewrite Pos2Z.inj_succ.
    replace (Z.succ (Zpos (digits2_pos p)) - 1) with (Z.succ (Zpos (digits2_pos p) - 1)) by lia.
    rewrite !Z.pow_succ_r by lia. lia.
  - cbn. lia.
Qed.

Lemma digits2_pos_unique (p : positive) (d : Z) :
  2 ^ (d - 1) <= Zpos p < 2 ^ d -> Zpos (digits2_pos p) = d.
Proof.
  intros [Hlo Hhi]. pose proof (digits2_pos_bounds p) as [Blo Bhi].
  set (D := Zpos (digits2_pos p)) in *.
  assert (HD : 1 <= D) by (subst D; lia).
  destruct (Z.lt_trichotomy D d) as [Hlt | [Heq | Hgt]]; [exfalso | exact Heq | exfalso].
  - pose proof (Z.pow_le_mono_r 2 D (d - 1)). lia.
  - assert (0 <= d \/ d < 0) as [Hd | Hd] by lia.
    + pose proof (Z.pow_le_mono_r 2 d (D - 1)). lia.
    + rewrite (Z.pow_neg_r 2 d) in Hhi by lia. lia.
Qed.

Lemma shr_1_nonneg (m : Z) (r s : bool) :
  0 <= m ->
  shr_1 {| shr_m := m; shr_r := r; shr_s := s |} =
  {| shr_m := m / 2; shr_r := Z.odd m; shr_s := r || s |}.
Proof.
  intros Hm. destruct m as [|[p|p|]|p]; try lia; cbn [shr_1 Z.odd].
  - reflexivity.
  - f_equal. rewrite Pos2Z.inj_xI. apply (Z.div_unique _ 2 _ 1); lia.
  - f_equal. rewrite Pos2Z.inj_xO. apply (Z.div_unique _ 2 _ 0); lia.
  - reflexivity.
Qed.

Lemma iter_pos_nat {A : Type} (f : A -> A) (p : positive) :
  forall x, iter_pos f p x = Nat.iter (Pos.to_nat p) f x.
Proof.
  induction p as [p IH|p IH|]; intros x; cbn [iter_pos].
  - rewrite !IH, Pos2Nat.inj_xI.
    replace (S (2 * Pos.to_nat p)) with (Pos.to_nat p + (Pos.to_nat p + 1))%nat by lia.
    rewrite !Nat.iter_add. reflexivity.
  - rewrite !IH, Pos2Nat.inj_xO.
    replace (2 * Pos.to_nat p)%nat with (Pos.to_nat p + Pos.to_nat p)%nat by lia.
    rewrite Nat.iter_add. reflexivity.
  - reflexivity.
Qed.

(** [k + 1] shifts: the mantissa loses its low bits, the round bit is
    the last bit lost and the sticky bit tells whether anything below it
    was set. *)
Lemma shr_nat (m : Z) (r s : bool) (k : nat) :
  0 <= m ->
  Nat.iter (S k) shr_1 {| shr_m := m; shr_r := r; shr_s := s |} =
  {| shr_m := m / 2 ^ Z.of_nat (S k);
     shr_r := Z.odd (m / 2 ^ Z.of_nat k);
     shr_s := negb (m mod 2 ^ Z.of_nat k =? 0) || (r || s) |}.
Proof.
  intros Hm. induction k as [|k IH].
  - cbn [Nat.iter nat_rect]. rewrite shr_1_nonneg by lia.
    change (2 ^ Z.of_nat 0) with 1. change (2 ^ Z.of_nat 1) with 2.
    rewrite Z.div_1_r, Z.mod_1_r. reflexivity.
  - change (Nat.iter (S (S k)) shr_1 ?x) with (shr_1 (Nat.iter (S k) shr_1 x)).
    rewrite IH.
    assert (Hp : 0 < 2 ^ Z.of_nat k) by (apply Z.pow_pos_nonneg; lia).
    assert (Hp1 : 2 ^ Z.of_nat (S k) = 2 ^ Z.of_nat k * 2).
    { rewrite Nat2Z.inj_succ, Z.pow_succ_r by lia. lia. }
    rewrite shr_1_nonneg by (apply Z.div_pos; lia).
    f_equal.
    + rewrite Z.div_div by lia.
      rewrite (Nat2Z.inj_succ (S k)), Z.pow_succ_r by lia. f_equal. lia.
    + set (P := 2 ^ Z.of_nat k) in *.
      replace (2 ^ Z.of_nat (S k)) with (P * 2) by lia.
      pose proof (Z.div_mod m P ltac:(lia)) as E1.
      pose proof (Z.mod_pos_bound m P Hp) as B1.
      pose proof (Z.div_mod (m / P) 2 ltac:(lia)) as E2.
      pose proof (Z.mod_pos_bound (m / P) 2 ltac:(lia)) as B2.
      rewrite Zodd_mod.
      assert (E3 : m mod (P * 2) = P * ((m / P) mod 2) + m mod P).
      { symmetry. apply (Z.mod_unique_pos _ _ ((m / P) / 2)); nia. }
      rewrite E3.
      destruct (Z.eqb_spec ((m / P) mod 2) 1) as [H1|H1];
      destruct (Z.eqb_spec (m mod P) 0) as [H0|H0];
      destruct (Z.eqb_spec (P * ((m / P) mod 2) + m mod P) 0) as [H2|H2];
      cbn; try reflexivity; exfalso; nia.
Qed.

Lemma shr_pos (m : Z) (r s : bool) (e : Z) (k : positive) :
  0 <= m ->
  shr {| shr_m := m; shr_r := r; shr_s := s |} e (Zpos k) =
  ({| shr_m := m / 2 ^ Zpos k;
      shr_r := Z.odd (m / 2 ^ (Zpos k - 1));
      shr_s := negb (m mod 2 ^ (Zpos k - 1) =? 0) || (r || s) |}, e + Zpos k).
Proof.
  intros Hm. unfold shr. rewrite iter_pos_nat.
  destruct (Pos2Nat.is_succ k) as [n Hn]. rewrite Hn, shr_nat by exact Hm.
  rewrite <- Hn, positive_nat_Z.
  replace (Z.of_nat n) with (Zpos k - 1) by lia. reflexivity.
Qed.

Lemma fexp_normal (x : Z) : -1021 <= x -> fexp prec emax x = x - 53.
Proof. unfold fexp, emin, prec, emax. lia. Qed.

Lemma shr_zero (mrs : shr_record) (e : Z) : shr mrs e 0 = (mrs, e).
Proof. reflexivity. Qed.

Lemma binary_round_aux_canonical (m : positive) (e : Z) :
  Zpos (digits2_pos m) = 53 -> -1074 <= e <= 971 ->
  binary_round_aux prec emax false (Zpos m) e loc_Exact = S754_finite false m e.
Proof.
  intros Hd He. unfold binary_round_aux, shr_fexp.
  cbn [Zdigits2 shr_record_of_loc]. rewrite Hd, fexp_normal by lia.
  replace (53 + e - 53 - e) with 0 by lia. rewrite shr_zero.
  cbn [shr_m loc_of_shr_record round_nearest_even Zdigits2].
  rewrite Hd, fexp_normal by lia.
  replace (53 + e - 53 - e) with 0 by lia. rewrite shr_zero.
  cbn [shr_m].
  replace (e <=? emax - prec) with true by (symmetry; apply Z.leb_le; unfold emax, prec; lia).
  reflexivity.
Qed.

Lemma Pos_iter_xO (p k : positive) :
  Zpos (Pos.iter xO p k) = Zpos p * 2 ^ Zpos k.
Proof.
  rewrite Pos2Nat.inj_iter, <- (positive_nat_Z k).
  induction (Pos.to_nat k) as [|n IH].
  - cbn [Nat.iter nat_rect]. change (2 ^ Z.of_nat 0) with 1. lia.
  - cbn [Nat.iter nat_rect] in *. rewrite Pos2Z.inj_xO, IH, Nat2Z.inj_succ, Z.pow_succ_r by lia. ring.
Qed.

(** The double that holds a positive integer below 2^53. *)
Lemma of_Z_normal (n : Z) :
  0 < n < 2 ^ 53 ->
  exists m e,
    of_Z n = S754_finite false m e /\
    -52 <= e <= 0 /\
    Zpos m = n * 2 ^ (- e) /\
    2 ^ 52 <= Zpos m < 2 ^ 53.
Proof.
  intros [Hlo Hhi]. destruct n as [|p|p]; try lia.
  pose proof (digits2_pos_bounds p) as [Blo Bhi].
  set (D := Zpos (digits2_pos p)) in *.
  assert (HD : 1 <= D <= 53).
  { split; [subst D; lia |].
    destruct (Z_le_gt_dec D 53) as [H|H]; [exact H | exfalso].
    pose proof (Z.pow_le_mono_r 2 53 (D - 1)). lia. }
  unfold of_Z, binary_normalize, binary_round, shl_align.
  fold D. rewrite fexp_normal by lia.
  destruct (D + 0 - 53 - 0) as [|k|k] eqn:Hk; try lia.
  - exists p, 0. rewrite binary_round_aux_canonical by (fold D; lia).
    change (2 ^ (- 0)) with 1. rewrite Z.mul_1_r.
    replace D with 53 in * by lia. repeat split; lia.
  - exists (Pos.iter xO p k), (D + 0 - 53).
    assert (Hm : Zpos (Pos.iter xO p k) = Zpos p * 2 ^ (- (D + 0 - 53))).
    { rewrite Pos_iter_xO. f_equal. f_equal. lia. }
    assert (Hb : 2 ^ 52 <= Zpos (Pos.iter xO p k) < 2 ^ 53).
    { rewrite Hm. replace (- (D + 0 - 53)) with (53 - D) by lia.
      assert (E1 : 2 ^ 53 = 2 ^ D * 2 ^ (53 - D)).
      { rewrite <- Z.pow_add_r by lia. f_equal. lia. }
      assert (E2 : 2 ^ 52 = 2 ^ (D - 1) * 2 ^ (53 - D)).
      { rewrite <- Z.pow_add_r by lia. f_equal. lia. }
      assert (0 < 2 ^ (53 - D)) by (apply Z.pow_pos_nonneg; lia).
      rewrite E1, E2. nia. }
    rewrite binary_round_aux_canonical.
    + repeat split; try lia; exact Hm.
    + apply digits2_pos_unique. exact Hb.
    + lia.
Qed.

Lemma loc_of_shr_record_of_loc (m : Z) (l : location) :
  loc_of_shr_record (shr_record_of_loc m l) = l.
Proof. destruct l as [|[| |]]; reflexivity. Qed.

Lemma shr_m_of_loc (m : Z) (l : location) : shr_m (shr_record_of_loc m l) = m.
Proof. destruct l as [|[| |]]; reflexivity. Qed.

Lemma round_nearest_even_bounds (m : Z) (l : location) :
  m <= round_nearest_even m l <= m + 1.
Proof.
  destruct l as [|[| |]]; cbn [round_nearest_even]; try lia.
  destruct (Z.even m); lia.
Qed.

Lemma finish_stage (M1 E : Z) :
  2 ^ 52 <= M1 <= 2 ^ 53 -> -1074 <= E <= 970 ->
  (let '(mrs, e) := shr_fexp prec emax M1 E loc_Exact in
   match shr_m mrs with
   | Z0 => S754_zero false
   | Zpos m => if e <=? emax - prec then S754_finite false m e else S754_infinity false
   | Zneg _ => S754_nan
   end) = finish M1 E.
Proof.
  intros HM HE. unfold finish, shr_fexp.
  destruct M1 as [|p|p]; try lia. cbn [Zdigits2 shr_record_of_loc].
  destruct (Z.ltb_spec (Zpos p) (2 ^ 53)) as [Hlt|Hge].
  - rewrite (digits2_pos_unique p 53) by lia.
    rewrite fexp_normal by lia. replace (53 + E - 53 - E) with 0 by lia.
    rewrite shr_zero. cbn [shr_m].
    replace (E <=? emax - prec) with true
      by (symmetry; apply Z.leb_le; unfold emax, prec; lia).
    reflexivity.
  - assert (Hp : Zpos p = 2 ^ 53) by lia.
    rewrite (digits2_pos_unique p 54) by lia.
    rewrite fexp_normal by lia. replace (54 + E - 53 - E) with 1 by lia.
    rewrite shr_pos by lia. cbn [shr_m]. rewrite Hp.
    change (2 ^ 53 / 2 ^ 1) with (2 ^ 52).
    replace (E + 1 <=? emax - prec) with true
      by (symmetry; apply Z.leb_le; unfold emax, prec; lia).
    reflexivity.
Qed.

(** Rounding of a positive mantissa of [53 + k] bits at an exponent in
    the normal range. *)
Lemma binary_round_aux_normal (m e k : Z) (l : location) :
  0 <= k -> 2 ^ (52 + k) <= m < 2 ^ (53 + k) -> -1074 <= e + k <= 970 ->
  binary_round_aux prec emax false m e l = finish (round_shift m k l) (e + k).
Proof.
  intros Hk Hm He.
  assert (Hpos : 0 < 2 ^ (52 + k)) by (apply Z.pow_pos_nonneg; lia).
  destruct m as [|p|p]; try lia.
  unfold binary_round_aux. rewrite <- finish_stage.
  - unfold shr_fexp at 1. cbn [Zdigits2].
    rewrite (digits2_pos_unique p (53 + k))
      by (replace (53 + k - 1) with (52 + k) by lia; exact Hm).
    rewrite fexp_normal by lia.
    replace (53 + k + e - 53 - e) with k by lia.
    unfold round_shift.
    destruct k as [|k|k]; try lia.
    + rewrite shr_zero, Z.add_0_r. cbn [Z.eqb].
      rewrite loc_of_shr_record_of_loc, shr_m_of_loc. reflexivity.
    + destruct (shr_record_of_loc (Zpos p) l) as [m0 r0 s0] eqn:Hrec.
      assert (Hm0 : m0 = Zpos p).
      { rewrite <- (shr_m_of_loc (Zpos p) l), Hrec. reflexivity. }
      subst m0. rewrite shr_pos by lia. cbn [shr_m shr_r shr_s Z.eqb].
      reflexivity.
  - unfold round_shift.
    destruct (Z.eqb_spec k 0) as [->|Hk0].
    + pose proof (round_nearest_even_bounds (Zpos p) l).
      rewrite Z.add_0_r in Hm. lia.
    + set (l' := loc_of_shr_record _).
      pose proof (round_nearest_even_bounds (Zpos p / 2 ^ k) l').
      assert (Hp2 : 0 < 2 ^ k) by (apply Z.pow_pos_nonneg; lia).
      rewrite !Z.pow_add_r in Hm by lia.
      assert (2 ^ 52 <= Zpos p / 2 ^ k) by (apply Z.div_le_lower_bound; lia).
      assert (Zpos p / 2 ^ k < 2 ^ 53) by (apply Z.div_lt_upper_bound; lia).
      lia.
  - lia.
Qed.

(** Rounding is to a nearest multiple: the rounded mantissa, scaled
    back, is at most half a unit away from the exact value [N / d]. *)
Lemma round_shift_nearest (N d k : Z) (l : location) :
  0 < d -> 0 <= N -> 0 <= k -> located l (N mod d) d ->
  let M1 := round_shift (N / d) k l in
  2 * (M1 * (d * 2 ^ k)) - 2 * N <= d * 2 ^ k /\
  2 * N - 2 * (M1 * (d * 2 ^ k)) <= d * 2 ^ k.
Proof.
  intros Hd HN Hk Hl. cbn zeta.
  pose proof (Z.div_mod N d ltac:(lia)) as EN.
  pose proof (Z.mod_pos_bound N d Hd) as BN.
  assert (Hm : 0 <= N / d) by (apply Z.div_pos; lia).
  set (m := N / d) in *. set (rho := N mod d) in *.
  unfold round_shift.
  destruct (Z.eqb_spec k 0) as [->|Hk0].
  - change (2 ^ 0) with 1. rewrite Z.mul_1_r.
    destruct l as [|[| |]]; cbn [located round_nearest_even] in *.
    + lia.
    + destruct Hl as [_ Hc]. rewrite Z.compare_eq_iff in Hc.
      destruct (Z.even m); lia.
    + destruct Hl as [_ Hc]. rewrite Z.compare_lt_iff in Hc. lia.
    + destruct Hl as [_ Hc]. rewrite Z.compare_gt_iff in Hc. lia.
  - set (H := 2 ^ (k - 1)).
    assert (HH : 0 < H) by (apply Z.pow_pos_nonneg; lia).
    assert (E2 : 2 ^ k = 2 * H).
    { unfold H. rewrite <- Z.pow_succ_r by lia. f_equal. lia. }
    rewrite E2.
    pose proof (Z.div_mod m H ltac:(lia)) as Em.
    pose proof (Z.mod_pos_bound m H HH) as Bm.
    assert (Emk : m / (2 * H) = (m / H) / 2).
    { rewrite (Z.mul_comm 2 H), Z.div_div by lia. reflexivity. }
    rewrite Emk.
    pose proof (Z.div_mod (m / H) 2 ltac:(lia)) as Eh.
    pose proof (Z.mod_pos_bound (m / H) 2 ltac:(lia)) as Bh.
    rewrite Zodd_mod.
    set (mh := m / H) in *. set (u := m mod H) in *.
    set (mk := mh / 2) in *. set (b := mh mod 2) in *.
    assert (Hs : shr_r (shr_record_of_loc m l) || shr_s (shr_record_of_loc m l) =
                 negb (rho =? 0)).
    { destruct l as [|[| |]]; cbn [located] in Hl; cbn;
        [rewrite Hl; reflexivity | | |];
        symmetry; apply negb_true_iff, Z.eqb_neq; apply Hl. }
    rewrite Hs.
    destruct (Z.eqb_spec b 1) as [Hb|Hb];
    destruct (Z.eqb_spec u 0) as [Hu|Hu];
    destruct (Z.eqb_spec rho 0) as [Hr|Hr];
    cbn [negb orb loc_of_shr_record round_nearest_even];
    try (destruct (Z.even mk)); nia.
Qed.

Lemma new_location_located (d r : Z) :
  0 < d -> 0 <= r < d -> located (new_location d r) r d.
Proof.
  intros Hd Hr. unfold new_location, new_location_even, new_location_odd.
  destruct (Z.even d) eqn:Hev; destruct (Z.eqb_spec r 0) as [H0|H0];
    cbn [located]; try exact H0; split; try exact H0; try reflexivity.
  assert (Hodd : d mod 2 = 1).
  { rewrite <- Z.negb_odd in Hev. apply negb_false_iff in Hev.
    rewrite Zodd_mod in Hev. apply Z.eqb_eq in Hev. exact Hev. }
  pose proof (Z.div_mod d 2 ltac:(lia)) as Ed.
  destruct (Z.compare_spec (2 * r + 1) d) as [H|H|H];
    [apply Z.compare_lt_iff | apply Z.compare_lt_iff | apply Z.compare_gt_iff]; lia.
Qed.

(** The product of two positive doubles in the normal range. *)
Lemma mul_normal (mx my : positive) (ex ey : Z) :
  2 ^ 52 <= Zpos mx < 2 ^ 53 -> 2 ^ 52 <= Zpos my < 2 ^ 53 ->
  -1074 <= ex + ey + 52 -> ex + ey + 53 <= 970 ->
  exists k,
    (k = 52 \/ k = 53) /\
    2 ^ (52 + k) <= Zpos mx * Zpos my < 2 ^ (53 + k) /\
    mul (S754_finite false mx ex) (S754_finite false my ey) =
    finish (round_shift (Zpos mx * Zpos my) k loc_Exact) (ex + ey + k).
Proof.
  intros Hx Hy Hlo Hhi. unfold mul, SFmul. cbn [xorb]. rewrite Pos2Z.inj_mul.
  destruct (Z_lt_ge_dec (Zpos mx * Zpos my) (2 ^ 105)) as [H|H].
  - exists 52. split; [left; reflexivity |].
    assert (Hb : 2 ^ (52 + 52) <= Zpos mx * Zpos my < 2 ^ (53 + 52)).
    { change (2 ^ (52 + 52)) with (2 ^ 52 * 2 ^ 52). change (53 + 52) with 105. nia. }
    split; [exact Hb |]. apply binary_round_aux_normal; lia.
  - exists 53. split; [right; reflexivity |].
    assert (Hb : 2 ^ (52 + 53) <= Zpos mx * Zpos my < 2 ^ (53 + 53)).
    { change (2 ^ (53 + 53)) with (2 ^ 53 * 2 ^ 53). change (52 + 53) with 105. nia. }
    split; [exact Hb |]. apply binary_round_aux_normal; lia.
Qed.

Lemma div_eucl_div_mod (a b : Z) : Z.div_eucl a b = (a / b, a mod b).
Proof. unfold Z.div, Z.modulo. destruct (Z.div_eucl a b). reflexivity. Qed.

(** The quotient of two positive doubles in the normal range. *)
Lemma div_normal (mx my : positive) (ex ey : Z) :
  2 ^ 52 <= Zpos mx < 2 ^ 53 -> 2 ^ 52 <= Zpos my < 2 ^ 53 ->
  -1021 <= ex - ey -> ex - ey <= 969 ->
  exists k,
    (k = 0 \/ k = 1) /\
    2 ^ (52 + k) <= Zpos mx * 2 ^ 53 / Zpos my < 2 ^ (53 + k) /\
    div (S754_finite false mx ex) (S754_finite false my ey) =
    finish (round_shift (Zpos mx * 2 ^ 53 / Zpos my) k
              (new_location (Zpos my) (Zpos mx * 2 ^ 53 mod Zpos my)))
           (ex - ey - 53 + k).
Proof.
  intros Hx Hy Hlo Hhi. unfold div, SFdiv, SFdiv_core_binary. cbn [xorb Zdigits2].
  rewrite (digits2_pos_unique mx 53), (digits2_pos_unique my 53) by lia.
  rewrite fexp_normal by lia.
  replace (Z.min (53 + ex - (53 + ey) - 53) (ex - ey)) with (ex - ey - 53) by lia.
  replace (ex - ey - (ex - ey - 53)) with 53 by lia.
  rewrite Z.shiftl_mul_pow2 by lia.
  rewrite div_eucl_div_mod.
  set (q := Zpos mx * 2 ^ 53 / Zpos my).
  assert (Hq : 2 ^ 52 <= q < 2 ^ 54).
  { split.
    - apply Z.div_le_lower_bound; [lia |].
      change (2 ^ 53) with (2 * 2 ^ 52) in *. nia.
    - apply Z.div_lt_upper_bound; [lia |].
      change (2 ^ 54) with (2 * 2 ^ 53) in *. change (2 ^ 53) with (2 * 2 ^ 52) in *. nia. }
  destruct (Z_lt_ge_dec q (2 ^ 53)) as [H|H].
  - exists 0. split; [left; reflexivity |]. split; [change (53 + 0) with 53; change (52 + 0) with 52; lia |].
    rewrite (binary_round_aux_normal q _ 0); [reflexivity | lia | | lia].
    change (53 + 0) with 53; change (52 + 0) with 52; lia.
  - exists 1. split; [right; reflexivity |]. split; [change (53 + 1) with 54; change (52 + 1) with 53; lia |].
    rewrite (binary_round_aux_normal q _ 1); [reflexivity | lia | | lia].
    change (53 + 1) with 54; change (52 + 1) with 53; lia.
Qed.

Lemma round_shift_bounds (m k : Z) (l : location) :
  0 <= k -> 2 ^ (52 + k) <= m < 2 ^ (53 + k) ->
  2 ^ 52 <= round_shift m k l <= 2 ^ 53.
Proof.
  intros Hk Hm. unfold round_shift.
  destruct (Z.eqb_spec k 0) as [->|Hk0].
  - pose proof (round_nearest_even_bounds m l).
    rewrite !Z.add_0_r in Hm. lia.
  - set (l' := loc_of_shr_record _).
    pose proof (round_nearest_even_bounds (m / 2 ^ k) l').
    assert (Hp2 : 0 < 2 ^ k) by (apply Z.pow_pos_nonneg; lia).
    rewrite !Z.pow_add_r in Hm by lia.
    assert (2 ^ 52 <= m / 2 ^ k) by (apply Z.div_le_lower_bound; lia).
    assert (m / 2 ^ k < 2 ^ 53) by (apply Z.div_lt_upper_bound; lia).
    lia.
Qed.

Lemma floor_finish (M1 E : Z) :
  2 ^ 52 <= M1 <= 2 ^ 53 -> E <= -2 ->
  Math_floor (finish M1 E) = of_Z (M1 / 2 ^ (- E)).
Proof.
  intros HM HE. unfold finish.
  destruct (Z.ltb_spec M1 (2 ^ 53)) as [Hlt|Hge]; cbn [Math_floor].
  - replace (0 <=? E) with false by (symmetry; apply Z.leb_gt; lia).
    rewrite Z2Pos.id by lia. reflexivity.
  - replace (0 <=? E + 1) with false by (symmetry; apply Z.leb_gt; lia).
    rewrite Z2Pos.id by lia. f_equal.
    replace M1 with (2 * 2 ^ 52) by (change (2 * 2 ^ 52) with (2 ^ 53); lia).
    replace (2 ^ (- E)) with (2 * 2 ^ (- (E + 1))).
    + symmetry. apply Z.div_mul_cancel_l; [| lia].
      apply Z.pow_nonzero; lia.
    + rewrite <- Z.pow_succ_r by lia. f_equal. lia.
Qed.

Lemma ceil_finish (M1 E : Z) :
  2 ^ 52 <= M1 <= 2 ^ 53 -> E <= -2 ->
  Math_ceil (finish M1 E) =
  of_Z (if M1 mod 2 ^ (- E) =? 0 then M1 / 2 ^ (- E) else M1 / 2 ^ (- E) + 1).
Proof.
  intros HM HE. unfold finish.
  destruct (Z.ltb_spec M1 (2 ^ 53)) as [Hlt|Hge]; cbn [Math_ceil].
  - replace (0 <=? E) with false by (symmetry; apply Z.leb_gt; lia).
    rewrite Z2Pos.id by lia. reflexivity.
  - replace (0 <=? E + 1) with false by (symmetry; apply Z.leb_gt; lia).
    rewrite Z2Pos.id by lia. f_equal.
    replace M1 with (2 * 2 ^ 52) by (change (2 * 2 ^ 52) with (2 ^ 53); lia).
    replace (2 ^ (- E)) with (2 * 2 ^ (- (E + 1)))
      by (rewrite <- Z.pow_succ_r by lia; f_equal; lia).
    assert (Hnz : 2 ^ (- (E + 1)) <> 0) by (apply Z.pow_nonzero; lia).
    rewrite Z.mul_mod_distr_l, Z.div_mul_cancel_l by lia.
    destruct (Z.eqb_spec (2 ^ 52 mod 2 ^ (- (E + 1))) 0) as [H0|H0];
    destruct (Z.eqb_spec (2 * (2 ^ 52 mod 2 ^ (- (E + 1)))) 0) as [H1|H1];
      try reflexivity; lia.
Qed.

(** [Math.floor(n / 10)] on the double that holds the integer [n] is the
    integer quotient. *)
Lemma floor_tenth (n : Z) :
  0 <= n < 2 ^ 53 ->
  Math_floor (div (of_Z n) (of_Z 10)) = of_Z (n / 10).
Proof.
  intros [Hlo Hhi].
  destruct (Z.eq_dec n 0) as [->|Hn0]; [reflexivity |].
  destruct (of_Z_normal n ltac:(lia)) as (m & e & Hof & He & Hm & Hmb).
  rewrite Hof.
  change (of_Z 10) with (S754_finite false 5629499534213120 (-49)).
  destruct (div_normal m 5629499534213120 e (-49) Hmb ltac:(lia) ltac:(lia) ltac:(lia))
    as (k & Hk & Hq & Hdiv).
  rewrite Hdiv.
  set (Y := Zpos 5629499534213120) in *.
  set (N := Zpos m * 2 ^ 53) in *.
  pose proof (round_shift_bounds (N / Y) k (new_location Y (N mod Y)) ltac:(lia) Hq) as HM1.
  pose proof (round_shift_nearest N Y k (new_location Y (N mod Y))
                ltac:(lia) ltac:(lia) ltac:(lia)
                (new_location_located Y (N mod Y) ltac:(lia)
                   (Z.mod_pos_bound N Y ltac:(lia)))) as Hnear.
  cbn zeta in Hnear.
  set (M1 := round_shift (N / Y) k (new_location Y (N mod Y))) in *.
  rewrite floor_finish by lia. f_equal.
  set (P := 2 ^ (- e)) in *.
  assert (HP : 1 <= P) by (subst P; apply (Z.pow_le_mono_r 2 0 (- e)); lia).
  pose proof (Z.div_mod n 10 ltac:(lia)) as En.
  pose proof (Z.mod_pos_bound n 10 ltac:(lia)) as Bn.
  set (Q := n / 10) in *. set (R := n mod 10) in *.
  assert (HQ : 0 <= Q) by (subst Q; apply Z.div_pos; lia).
  assert (EA : Zpos m = 10 * (Q * P) + R * P) by (rewrite Hm, En; ring).
  assert (BB : 0 <= R * P <= 9 * P) by nia.
  assert (HA : 0 <= Q * P) by nia.
  destruct Hk as [-> | ->].
  - replace (2 ^ (- (e - -49 - 53 + 0))) with (16 * P).
    + symmetry. apply (Z.div_unique _ _ _ (M1 - 16 * (Q * P))); [| ring].
      left. subst N Y. change (2 ^ 0) with 1 in Hnear. lia.
    + subst P. replace (- (e - -49 - 53 + 0)) with (4 + - e) by lia.
      rewrite Z.pow_add_r by lia. reflexivity.
  - replace (2 ^ (- (e - -49 - 53 + 1))) with (8 * P).
    + symmetry. apply (Z.div_unique _ _ _ (M1 - 8 * (Q * P))); [| ring].
      left. subst N Y. change (2 ^ 1) with 2 in Hnear. lia.
    + subst P. replace (- (e - -49 - 53 + 1)) with (3 + - e) by lia.
      rewrite Z.pow_add_r by lia. reflexivity.
Qed.

Lemma ceil_div_unique (M D I : Z) :
  0 < D -> (I - 1) * D < M <= I * D ->
  (if M mod D =? 0 then M / D else M / D + 1) = I.
Proof.
  intros HD HM.
  pose proof (Z.div_mod M D ltac:(lia)) as E.
  pose proof (Z.mod_pos_bound M D HD) as B.
  destruct (Z.eqb_spec (M mod D) 0) as [H0|H0]; nia.
Qed.

(** [Math.ceil(T * w)] for the weights 0.1, 0.2, 0.3, 0.4 on the double
    that holds the integer [T] is the integer ceiling of [j * T / 10]. *)
Lemma ceil_weight (T j : Z) :
  1 <= T < 2 ^ 50 -> j = 1 \/ j = 2 \/ j = 3 \/ j = 4 ->
  Math_ceil (mul (of_Z T) (dec j 1)) = of_Z ((j * T + 9) / 10).
Proof.
  intros [Hlo Hhi] Hj.
  destruct (of_Z_normal T ltac:(lia)) as (m & e & Hof & He & Hm & Hmb).
  rewrite Hof.
  set (P := 2 ^ (- e)) in *.
  assert (He3 : e <= -3).
  { destruct (Z_le_gt_dec e (-3)) as [H|H]; [exact H | exfalso].
    assert (P <= 2 ^ 2) by (subst P; apply Z.pow_le_mono_r; lia).
    change (2 ^ 2) with 4 in *. change (2 ^ 52) with (4 * 2 ^ 50) in Hmb. nia. }
  assert (HP : 8 <= P) by (subst P; apply (Z.pow_le_mono_r 2 3 (- e)); lia).
  pose proof (Z.div_mod (j * T + 9) 10 ltac:(lia)) as EI.
  pose proof (Z.mod_pos_bound (j * T + 9) 10 ltac:(lia)) as BI.
  set (I := (j * T + 9) / 10) in *.
  assert (HIP : 10 * (I * P) - 9 * P <= j * Zpos m <= 10 * (I * P)).
  { rewrite Hm. nia. }
  destruct Hj as [-> | [-> | [-> | ->]]].
  all: match goal with
       | |- context [dec ?j 1] =>
           let c := eval vm_compute in (dec j 1) in change (dec j 1) with c
       end.
  all: match goal with
       | Hmb : _ <= Zpos ?m < _ |- context [mul (S754_finite false ?m ?e) (S754_finite false ?mw ?ew)] =>
           destruct (mul_normal m mw e ew Hmb ltac:(lia) ltac:(lia) ltac:(lia))
             as (k & Hk & Hb & Hmul);
           rewrite Hmul;
           pose proof (round_shift_bounds _ k loc_Exact ltac:(lia) Hb) as HM1;
           pose proof (round_shift_nearest (Zpos m * Zpos mw) 1 k loc_Exact
                         ltac:(lia) ltac:(lia) ltac:(lia)
                         (Z.mod_1_r _)) as Hnear;
           cbn zeta in Hnear; rewrite Z.div_1_r in Hnear;
           set (M1 := round_shift (Zpos m * Zpos mw) k loc_Exact) in *;
           rewrite ceil_finish by lia; f_equal;
           destruct Hk as [-> | ->]
       end.
  all: match goal with
       | P := 2 ^ (- ?e') |- context [2 ^ (- (?e' + ?ew + ?k))] =>
           let c := eval vm_compute in (2 ^ (- (ew + k))) in
           replace (2 ^ (- (e' + ew + k))) with (c * P)
             by (subst P; replace (- (e' + ew + k)) with (- (ew + k) + - e') by lia;
                 rewrite Z.pow_add_r by lia; reflexivity)
       end.
  all: apply ceil_div_unique; [lia |].
  all: match goal with
       | H : context [2 ^ ?k] |- _ =>
         let c := eval vm_compute in (2 ^ k) in change (2 ^ k) with c in H
       end.
  all: lia.
Qed.

(** The double of a non-negative integer below 2^53 is an unsigned
    integer of the data model, and it is zero for 0 only. *)
Lemma is_uint_of_Z (n : Z) : 0 <= n < 2 ^ 53 -> is_uint (of_Z n) = true.
Proof.
  intros [Hlo Hhi].
  destruct (Z.eq_dec n 0) as [->|Hn0]; [reflexivity |].
  destruct (of_Z_normal n ltac:(lia)) as (m & e & Hof & He & Hm & Hmb).
  rewrite Hof. cbn [is_uint].
  destruct (Z.leb_spec 0 e) as [H|H]; [reflexivity |].
  apply Z.eqb_eq. rewrite Hm. apply Z.mod_mul.
  apply Z.pow_nonzero; lia.
Qed.

Lemma of_Z_nonzero (n : Z) : 1 <= n < 2 ^ 53 -> of_Z n <> of_Z 0.
Proof.
  intros Hn.
  destruct (of_Z_normal n ltac:(lia)) as (m & e & Hof & _).
  rewrite Hof. discriminate.
Qed.

(** [Math.max(n, 1)] on the double that holds the integer [n]. *)
Lemma max_one (n : Z) :
  0 <= n < 2 ^ 53 -> Math_max (of_Z n) (of_Z 1) = of_Z (Z.max n 1).
Proof.
  intros [Hlo Hhi].
  destruct (Z.eq_dec n 0) as [->|Hn0]; [reflexivity |].
  rewrite Z.max_l by lia.
  destruct (of_Z_normal n ltac:(lia)) as (m & e & Hof & He & Hm & Hmb).
  rewrite Hof.
  change (of_Z 1) with (S754_finite false 4503599627370496 (-52)).
  unfold Math_max, SFcompare.
  destruct (Z.compare_spec e (-52)) as [H|H|H]; [| lia | reflexivity].
  rewrite Pos.compare_cont_spec. cbn [Pos.switch_Eq].
  destruct (Pos.compare_spec m 4503599627370496) as [H1|H1|H1];
    try reflexivity.
  exfalso. apply Pos2Z.pos_lt_pos in H1.
  change (Zpos 4503599627370496) with (2 ^ 52) in H1. lia.
Qed.

End Doubles.

(** ** The fallback synthesiser *)

Section Synthesiser.
Context {host : Host}.
Import Charts.

Lemma number_or_uint (x : number) :
  is_uint x = true -> number_or x (of_Z 0) = x.
Proof.
  destruct x as [[|]|[|]| |[|] m e]; simpl; try discriminate; reflexivity.
Qed.

(** Every turn of the loop adds one entry to each of the three arrays. *)
Lemma timeline_loop_length (now : Z) (s : LocalStats) (n : nat) :
  forall acc,
    let t := timeline_loop now s n acc in
    List.length (timestamps t) = (List.length (timestamps acc) + n)%nat /\
    List.length (normal_counts t) = (List.length (normal_counts acc) + n)%nat /\
    List.length (anomaly_counts t) = (List.length (anomaly_counts acc) + n)%nat.
Proof.
  induction n as [|n IH]; intros acc; cbn zeta.
  - cbn [timeline_loop]. repeat split; lia.
  - cbn [timeline_loop].
    destruct (IH (timeline_push now s (Z.of_nat n) acc)) as (Ht & Hn & Ha).
    cbn zeta in Ht, Hn, Ha. rewrite Ht, Hn, Ha.
    unfold timeline_push; cbn [timestamps normal_counts anomaly_counts].
    rewrite !length_app; cbn [List.length]. repeat split; lia.
Qed.

Lemma timeline_timestamps (now : Z) (s : LocalStats) :
  timestamps (timeline_data (generateDataFromStats now s)) =
  map (fun k => toLocaleTimeString HourMinute2Digit (now - (9 - k) * 120000))
      [0; 1; 2; 3; 4; 5; 6; 7; 8; 9].
Proof. reflexivity. Qed.

Lemma timeline_normal_counts (now : Z) (s : LocalStats) :
  normal_counts (timeline_data (generateDataFromStats now s)) =
  repeat (Math_floor (div (number_or (normalCount s) (of_Z 0)) (of_Z 10))) 9
  ++ [number_or (normalCount s) (of_Z 0)].
Proof. reflexivity. Qed.

Lemma timeline_anomaly_counts (now : Z) (s : LocalStats) :
  anomaly_counts (timeline_data (generateDataFromStats now s)) =
  repeat (Math_floor (div (number_or (suspiciousCount s) (of_Z 0)) (of_Z 10))) 9
  ++ [number_or (suspiciousCount s) (of_Z 0)].
Proof. reflexivity. Qed.

(** C4: for counters that are unsigned integers, the timeline has ten
    points, labelled with the instants from eighteen minutes ago to now
    in steps of two minutes, oldest first; the last point is the pair
    (normalCount, suspiciousCount) itself and each of the nine earlier
    points is (Math.floor(normalCount / 10), Math.floor(suspiciousCount / 10)),
    which for integers below 2^53 are the integer quotients by ten; for
    the counters 100 / 90 / 10 the last point is (90, 10) and the earlier
    ones are (9, 1). *)
Theorem synthesize_timeline (now : Z) (s : LocalStats) :
  is_uint (normalCount s) = true ->
  is_uint (suspiciousCount s) = true ->
  let t := timeline_data (generateDataFromStats now s) in
  let t_A := timeline_data (generateDataFromStats now scenario_A) in
  (List.length (timestamps t) = 10%nat /\
   List.length (normal_counts t) = 10%nat /\
   List.length (anomaly_counts t) = 10%nat) /\
  timestamps t =
    map (fun k => toLocaleTimeString HourMinute2Digit (now - (9 - k) * 120000))
        [0; 1; 2; 3; 4; 5; 6; 7; 8; 9] /\
  normal_counts t =
    repeat (Math_floor (div (normalCount s) (of_Z 10))) 9 ++ [normalCount s] /\
  anomaly_counts t =
    repeat (Math_floor (div (suspiciousCount s) (of_Z 10))) 9 ++ [suspiciousCount s] /\
  (forall n a,
     0 <= n < 2 ^ 53 -> 0 <= a < 2 ^ 53 ->
     normalCount s = of_Z n -> suspiciousCount s = of_Z a ->
     normal_counts t = map of_Z (repeat (n / 10) 9 ++ [n]) /\
     anomaly_counts t = map of_Z (repeat (a / 10) 9 ++ [a])) /\
  normal_counts t_A = map of_Z [9; 9; 9; 9; 9; 9; 9; 9; 9; 90] /\
  anomaly_counts t_A = map of_Z [1; 1; 1; 1; 1; 1; 1; 1; 1; 10].
Proof.
  intros Hn Hs t t_A. subst t t_A.
  assert (En := timeline_normal_counts now s).
  assert (Ea := timeline_anomaly_counts now s).
  rewrite (number_or_uint _ Hn) in En. rewrite (number_or_uint _ Hs) in Ea.
  split; [| split; [| split; [| split; [| split; [| split]]]]].
  - apply (timeline_loop_length now s 10).
  - apply timeline_timestamps.
  - exact En.
  - exact Ea.
  - intros n a Hnb Hab Hnn Haa. rewrite En, Ea, Hnn, Haa.
    rewrite !floor_tenth by assumption. split; reflexivity.
  - rewrite timeline_normal_counts. vm_compute. reflexivity.
  - rewrite timeline_anomaly_counts. vm_compute. reflexivity.
Qed.

(** C5: the category counts are Math.ceil(totalThreats * w) for the
    weights 0.4, 0.3, 0.2, 0.1 with totalThreats = Math.max(suspiciousCount, 1),
    and the hourly counts are Math.ceil(baseRate * m) for the multipliers
    12, 8, 3, 2, 1, 2, 4, 6 with baseRate = suspiciousCount / totalLogs when
    totalLogs > 0 and 0.02 otherwise.  For an integer suspiciousCount
    below 2^50 the category counts are the integer ceilings of
    4T/10, 3T/10, 2T/10 and T/10 with T the larger of the count and 1, so
    none of them is zero.  Without any log totalThreats is 1 and the four
    category counts are 1, the base rate is 0.02 and the eight hourly
    counts are 1; for the counters 100 / 90 / 10 the category counts are
    4, 3, 2, 1 and the hourly counts 2, 1, 1, 1, 1, 1, 1, 1. *)
Theorem synthesize_categories_and_hours (now : Z) (s : LocalStats) :
  let d := generateDataFromStats now s in
  let totalThreats := Math_max (suspiciousCount s) (of_Z 1) in
  let baseRate :=
    if gt (totalLogs s) (of_Z 0) then div (suspiciousCount s) (totalLogs s)
    else dec 2 2 in
  counts (threat_categories d) =
    map (fun w => Math_ceil (mul totalThreats w)) [dec 4 1; dec 3 1; dec 2 1; dec 1 1] /\
  threat_counts (hourly_patterns d) =
    map (fun m => Math_ceil (mul baseRate (of_Z m))) [12; 8; 3; 2; 1; 2; 4; 6] /\
  (forall n,
     0 <= n < 2 ^ 50 -> suspiciousCount s = of_Z n ->
     totalThreats = of_Z (Z.max n 1) /\
     counts (threat_categories d) =
       map (fun j => of_Z ((j * Z.max n 1 + 9) / 10)) [4; 3; 2; 1] /\
     Forall (fun c => c <> of_Z 0) (counts (threat_categories d))) /\
  (Math_max (suspiciousCount no_logs) (of_Z 1) = of_Z 1 /\
   counts (threat_categories (generateDataFromStats now no_logs)) =
     map of_Z [1; 1; 1; 1] /\
   threat_counts (hourly_patterns (generateDataFromStats now no_logs)) =
     map of_Z [1; 1; 1; 1; 1; 1; 1; 1]) /\
  (counts (threat_categories (generateDataFromStats now scenario_A)) =
     map of_Z [4; 3; 2; 1] /\
   threat_counts (hourly_patterns (generateDataFromStats now scenario_A)) =
     map of_Z [2; 1; 1; 1; 1; 1; 1; 1]).
Proof.
  cbn zeta.
  split; [reflexivity | split; [reflexivity | split; [| split]]].
  - intros n Hn Hs.
    assert (HT : 1 <= Z.max n 1 < 2 ^ 50) by lia.
    assert (Hmax : Math_max (suspiciousCount s) (of_Z 1) = of_Z (Z.max n 1)).
    { rewrite Hs. apply max_one. lia. }
    assert (Hc : counts (threat_categories (generateDataFromStats now s)) =
                 map (fun j => of_Z ((j * Z.max n 1 + 9) / 10)) [4; 3; 2; 1]).
    { change (counts (threat_categories (generateDataFromStats now s)))
        with (map (fun w => Math_ceil (mul (Math_max (suspiciousCount s) (of_Z 1)) w))
                  [dec 4 1; dec 3 1; dec 2 1; dec 1 1]).
      rewrite Hmax. cbn [map].
      rewrite !ceil_weight by (auto; lia). reflexivity. }
    split; [exact Hmax | split; [exact Hc |]].
    rewrite Hc. cbn [map].
    repeat constructor; apply of_Z_nonzero;
      (split; [apply Z.div_le_lower_bound | apply Z.div_lt_upper_bound]; lia).
  - repeat split; vm_compute; reflexivity.
  - vm_compute. split; reflexivity.
Qed.

(** C6, as amended: the result is a function of the counters and of the
    clock.  The points of the timeline, the threat categories, the
    hourly pattern and the source tag depend on the counters alone; the
    labels of the timeline are the renderings of the ten instants that
    end at the clock reading. *)
Theorem synthesize_depends_on_clock_in_labels_only (now1 now2 : Z) (s : LocalStats) :
  let d1 := generateDataFromStats now1 s in
  let d2 := generateDataFromStats now2 s in
  normal_counts (timeline_data d1) = normal_counts (timeline_data d2) /\
  anomaly_counts (timeline_data d1) = anomaly_counts (timeline_data d2) /\
  threat_categories d1 = threat_categories d2 /\
  hourly_patterns d1 = hourly_patterns d2 /\
  data_source d1 = data_source d2 /\
  timestamps (timeline_data d1) =
    map (fun k => toLocaleTimeString HourMinute2Digit (now1 - (9 - k) * 120000))
        [0; 1; 2; 3; 4; 5; 6; 7; 8; 9] /\
  timestamps (timeline_data d2) =
    map (fun k => toLocaleTimeString HourMinute2Digit (now2 - (9 - k) * 120000))
        [0; 1; 2; 3; 4; 5; 6; 7; 8; 9].
Proof.
  cbn zeta. rewrite !timeline_normal_counts, !timeline_anomaly_counts.
  repeat split; reflexivity.
Qed.

End Synthesiser.

Lemma synthesize_timeline_witness :
  let s := {| Charts.totalLogs := of_Z 57; Charts.normalCount := of_Z 50;
              Charts.suspiciousCount := of_Z 7 |} in
  is_uint (of_Z 50) = true /\ is_uint (of_Z 7) = true /\
  Charts.normal_counts
    (Charts.timeline_data (Charts.generateDataFromStats (host := UTC.host) 0 s)) =
  map of_Z [5; 5; 5; 5; 5; 5; 5; 5; 5; 50].
Proof.
  cbn zeta. split; [reflexivity | split; [reflexivity |]].
  pose proof (synthesize_timeline (host := UTC.host) 0
    {| Charts.totalLogs := of_Z 57; Charts.normalCount := of_Z 50;
       Charts.suspiciousCount := of_Z 7 |} eq_refl eq_refl) as H.
  cbn zeta in H.
  destruct H as (_ & _ & _ & _ & H & _).
  exact (proj1 (H 50 7 ltac:(lia) ltac:(lia) eq_refl eq_refl)).
Defined.

Lemma synthesize_categories_and_hours_witness :
  let s := {| Charts.totalLogs := of_Z 57; Charts.normalCount := of_Z 50;
              Charts.suspiciousCount := of_Z 7 |} in
  Charts.counts
    (Charts.threat_categories (Charts.generateDataFromStats (host := UTC.host) 0 s)) =
  map of_Z [3; 3; 2; 1].
Proof.
  cbn zeta.
  pose proof (synthesize_categories_and_hours (host := UTC.host) 0
    {| Charts.totalLogs := of_Z 57; Charts.normalCount := of_Z 50;
       Charts.suspiciousCount := of_Z 7 |}) as H.
  cbn zeta in H.
  destruct H as (_ & _ & H & _).
  exact (proj1 (proj2 (H 7 ltac:(lia) eq_refl))).
Defined.

(** C6, as stated, fails: one minute later the same counters give other
    labels. *)
Lemma synthesize_not_a_function_of_stats_alone :
  Charts.generateDataFromStats (host := UTC.host) 0 Charts.no_logs <>
  Charts.generateDataFromStats (host := UTC.host) 60000 Charts.no_logs.
Proof.
  intros H.
  apply (f_equal (fun d => Charts.timestamps (Charts.timeline_data d))) in H.
  vm_compute in H. discriminate H.
Qed.

(** ** The chart coordinator *)

Ltac run_action :=
  unfold try_catch_finally, bind, lift, ret, raise, write, await; cbn.

Section Coordinator.
Context {host : Host} {conv : Conversions}.
Import Charts.

Lemma fetchChartData_call_pending (captured : LocalStats) (st : state) :
  pending (fetchChartData_call captured st) = pending st ++ [captured].
Proof. reflexivity. Qed.

Lemma refresh_disabled_while_loading (st : state) :
  isLoading st = true -> refresh_enabled st = false.
Proof. unfold refresh_enabled. intros ->. reflexivity. Qed.

(** What a pull that settles without a usable payload leaves behind. *)
Lemma failed_pull_state (now : Z) (captured : LocalStats) (f : fetched) (st : state) :
  snd (fetchChartData_try f st) <> Ok tt ->
  let st' := fetchChartData_resume now captured f st in
  useSessionData st' = false /\ connectionStatus st' = error /\
  chartData st' = to_value (generateDataFromStats now captured) /\
  isLoading st' = false /\ stats st' = stats st /\ pending st' = pending st.
Proof.
  unfold fetchChartData_resume, fetchChartData_try.
  destruct f as [|response]; run_action.
  - intros _. repeat split.
  - destruct (ok response); cbn.
    + destruct (json response) as [data|e]; cbn.
      * destruct (get data "last_updated") as [last_updated|e]; cbn;
          [| intros _; repeat split].
        unfold new_Date. destruct (converts last_updated); cbn; intros H;
          try (exfalso; apply H; reflexivity); repeat split.
      * intros _. repeat split.
    + intros _. repeat split.
Qed.

(** The data displayed after a failed pull: when the component was
    showing session data the stats effect runs after the fallback and
    regenerates the charts from the current counters; when it was already
    showing generated data the effect does not run and the charts stay
    generated from the counters the call closed over. *)
Lemma failed_pull_dataset (now : Z) (st : state) (i : nat)
    (captured : LocalStats) (f : fetched) :
  nth_error (pending st) i = Some captured ->
  snd (fetchChartData_try f (with_pending (remove_nth i (pending st)) st)) <> Ok tt ->
  let st' := step now (FetchSettled i f) st in
  useSessionData st' = false /\ connectionStatus st' = error /\
  chartData st' =
    to_value (generateDataFromStats now
                (if useSessionData st then stats st else captured)).
Proof.
  intros Hi Hfail. cbn zeta. unfold step. rewrite Hi.
  destruct (failed_pull_state now captured f _ Hfail)
    as (Hu & Hc & Hd & _ & Hs & _).
  unfold commit. rewrite Hu.
  destruct (useSessionData st); cbn [Bool.eqb].
  - unfold statsEffect. rewrite Hu. cbn [negb andb].
    cbn [useSessionData connectionStatus chartData setLastUpdated setChartData].
    rewrite Hs. cbn [stats with_pending]. repeat split; assumption.
  - repeat split; assumption.
Qed.

(** Timer ticks pile up: each adds a pull to those in flight. *)
Lemma ticks_accumulate (now : Z) (n : nat) :
  forall st,
    List.length (pending (run (repeat (now, TimerTick) n) st)) =
    (List.length (pending st) + n)%nat.
Proof.
  induction n as [|n IH]; intros st; cbn [repeat run].
  - lia.
  - rewrite IH. cbn [step]. rewrite fetchChartData_call_pending, length_app.
    cbn [List.length]. lia.
Qed.


(** C8: a new [stats] object while the data is generated
    ([useSessionData] false) replaces the chart data by the data
    generated from the new counters and starts no pull; while the data is
    session data it leaves the chart data and the flag as they are. *)
Theorem stats_change_resynthesises_only_generated_data (now : Z) (st : state)
    (s : LocalStats) :
  let st' := step now (StatsChanged s) st in
  (useSessionData st = false ->
     chartData st' = to_value (generateDataFromStats now s) /\
     useSessionData st' = false /\ pending st' = pending st) /\
  (useSessionData st = true ->
     chartData st' = chartData st /\
     useSessionData st' = true /\ pending st' = pending st).
Proof.
  cbn zeta. unfold step, statsEffect. cbn.
  split; intros H; rewrite H; cbn; repeat split; exact H.
Qed.

(** C1, as amended: pulls are not serialised.  Mounting starts a pull;
    a timer tick starts a pull whatever is in flight, with the counters of
    the first render.  A click is gated by nothing but the markup
    committed last: it does nothing when that markup shows no enabled
    Refresh button, and otherwise starts a pull, with the counters of
    that render, whatever is in flight by now.  So a click right after a
    timer tick, before the component has rendered again, starts a second
    pull.  After a render of cells that show the button enabled a click
    starts a pull with the current counters; a render while [isLoading]
    is set shows no button, so that a click does nothing once the render
    that follows a tick is committed, or after another click.  In the
    application shell a timer tick and a push message of a recognised
    kind each start a session pull whatever is in flight. *)
Theorem triggers_are_not_serialised :
  (forall now s, pending (mount now s) = [s]) /\
  (forall now st,
     pending (step now TimerTick st) = pending st ++ [intervalStats st]) /\
  (forall now st,
     refreshButton st = None -> step now RefreshClick st = st) /\
  (forall now st captured,
     refreshButton st = Some captured ->
     pending (step now RefreshClick st) = pending st ++ [captured] /\
     refreshButton (step now RefreshClick st) = None) /\
  (forall now now' st captured,
     refreshButton st = Some captured ->
     pending (step now' RefreshClick (step now TimerTick st)) =
     pending st ++ [intervalStats st; captured]) /\
  (forall now now' st,
     refresh_enabled st = true ->
     pending (step now' RefreshClick (step now Rendered st)) =
     pending st ++ [stats st]) /\
  (forall now st,
     isLoading st = true -> refreshButton (step now Rendered st) = None) /\
  (forall now now' now'' st,
     step now'' RefreshClick (step now' Rendered (step now TimerTick st)) =
     step now' Rendered (step now TimerTick st)) /\
  (forall st,
     App.sessionPulls (App.step App.IntervalTick st) = S (App.sessionPulls st)) /\
  (forall st message kind,
     get message "type" = Ok (VStr kind) ->
     kind = "session_detection_complete"%string \/
     kind = "periodic_update"%string \/ kind = "stats_update"%string ->
     App.sessionPulls (App.step (App.PushMessage (Ok message)) st) =
     S (App.sessionPulls st)).
Proof.
  split; [reflexivity |]. split; [reflexivity |].
  split; [intros now st Hb; unfold step; rewrite Hb; reflexivity |].
  split; [intros now st captured Hb; unfold step; rewrite Hb; split; reflexivity |].
  split.
  { intros now now' st captured Hb. unfold step.
    cbn [fetchChartData_call with_pending setIsLoading refreshButton].
    rewrite Hb. cbn. rewrite <- app_assoc. reflexivity. }
  split.
  { intros now now' st He. unfold step, rendered. rewrite He. reflexivity. }
  split.
  { intros now st Hl. unfold step, rendered.
    rewrite (refresh_disabled_while_loading _ Hl). reflexivity. }
  split; [intros now now' now'' st; reflexivity |].
  split; [reflexivity |].
  intros st message kind Hget Hkind.
  unfold App.step, App.ws_onmessage. run_action. rewrite Hget.
  destruct Hkind as [-> | [-> | ->]]; reflexivity.
Qed.

End Coordinator.



Lemma stats_change_resynthesises_only_generated_data_witness :
  let fetching := Charts.mount (host := UTC.host) 0 Charts.no_logs in
  let fallen_back :=
    Charts.step (host := UTC.host) 1000 (Charts.FetchSettled 0 Rejected) fetching in
  Charts.chartData
    (Charts.step (host := UTC.host) 2000 (Charts.StatsChanged Charts.scenario_A) fallen_back) =
  Charts.to_value (Charts.generateDataFromStats (host := UTC.host) 2000 Charts.scenario_A) /\
  Charts.chartData
    (Charts.step (host := UTC.host) 2000 (Charts.StatsChanged Charts.scenario_A) fetching) =
  VNull.
Proof.
  cbn zeta. split.
  - apply (stats_change_resynthesises_only_generated_data (host := UTC.host)).
    reflexivity.
  - apply (stats_change_resynthesises_only_generated_data (host := UTC.host) 2000
             (Charts.mount (host := UTC.host) 0 Charts.no_logs)).
    reflexivity.
Defined.

Lemma triggers_are_not_serialised_witness :
  let fetching := Charts.mount (host := UTC.host) 0 Charts.no_logs in
  let idle :=
    Charts.run (host := UTC.host)
      [(1000, Charts.FetchSettled 0 Rejected); (1001, Charts.Rendered)] fetching in
  Charts.step (host := UTC.host) 2000 Charts.RefreshClick fetching = fetching /\
  Charts.pending (Charts.step (host := UTC.host) 2000 Charts.RefreshClick idle) =
    [Charts.no_logs] /\
  Charts.pending
    (Charts.step (host := UTC.host) 30001 Charts.RefreshClick
       (Charts.step (host := UTC.host) 30000 Charts.TimerTick idle)) =
    [Charts.no_logs; Charts.no_logs] /\
  App.sessionPulls
    (App.step (conv := Decimal.conversions)
       (App.PushMessage (Ok (VObj [("type", VStr "stats_update")]%string)))
       App.mount) = 2%nat.
Proof.
  cbn zeta.
  destruct (triggers_are_not_serialised (host := UTC.host)
              (conv := Decimal.conversions))
    as (_ & _ & H2 & H3 & H4 & _ & _ & _ & _ & H6).
  split; [| split; [| split]].
  - apply H2. reflexivity.
  - exact (proj1 (H3 2000
                    (Charts.run (host := UTC.host)
                       [(1000, Charts.FetchSettled 0 Rejected);
                        (1001, Charts.Rendered)]
                       (Charts.mount (host := UTC.host) 0 Charts.no_logs))
                    Charts.no_logs eq_refl)).
  - exact (H4 30000 30001
             (Charts.run (host := UTC.host)
                [(1000, Charts.FetchSettled 0 Rejected);
                 (1001, Charts.Rendered)]
                (Charts.mount (host := UTC.host) 0 Charts.no_logs))
             Charts.no_logs eq_refl).
  - rewrite (H6 App.mount _ "stats_update"%string); [reflexivity | reflexivity |].
    right; right; reflexivity.
Defined.

(** C1, as stated, fails: the pull started on mount is still in flight
    when the timer fires, and the tick starts a second one. *)
Lemma timer_tick_during_fetch_starts_second_pull :
  let fetching := Charts.mount (host := UTC.host) 0 Charts.no_logs in
  Charts.reachable (host := UTC.host) fetching /\
  Charts.isLoading fetching = true /\
  List.length (Charts.pending fetching) = 1%nat /\
  List.length
    (Charts.pending (Charts.step (host := UTC.host) 30000 Charts.TimerTick fetching)) = 2%nat.
Proof.
  cbn zeta. split; [| repeat split].
  exists 0, Charts.no_logs, []. reflexivity.
Qed.

(** C2 fails on the code: the charts fell back, a detection test then
    changed the counters to those of Scenario A and the charts were
    generated anew from them; the timer fires and its pull fails too.  The
    connection is in error and the data is flagged as generated, but it is
    generated from the counters of the first render, which the callback
    of the timer closed over, not from the current ones. *)
Theorem timer_failure_falls_back_to_mount_stats :
  let trace :=
    [(1000, Charts.FetchSettled 0 Rejected);
     (2000, Charts.StatsChanged Charts.scenario_A);
     (30000, Charts.TimerTick);
     (31000, Charts.FetchSettled 0 Rejected)] in
  let st := Charts.run (host := UTC.host) trace
              (Charts.mount (host := UTC.host) 0 Charts.no_logs) in
  Charts.useSessionData st = false /\
  Charts.connectionStatus st = Charts.error /\
  Charts.stats st = Charts.scenario_A /\
  Charts.chartData st =
    Charts.to_value (Charts.generateDataFromStats (host := UTC.host) 31000 Charts.no_logs) /\
  Charts.chartData st <>
    Charts.to_value (Charts.generateDataFromStats (host := UTC.host) 31000 Charts.scenario_A).
Proof.
  cbn zeta. repeat split.
  intros H. vm_compute in H. discriminate H.
Qed.

(** ** The alert log *)

Section AlertLog.
Context {host : Host}.
Import App.

Lemma firstn_app_cons_firstn {A : Type} (n : nat) (front : list A) (a : A)
    (l : list A) :
  firstn (S n) (front ++ a :: firstn n l) = firstn (S n) (front ++ a :: l).
Proof.
  rewrite !firstn_app. f_equal.
  change (a :: firstn n l) with (firstn (S n) (a :: l)).
  rewrite firstn_firstn. f_equal. lia.
Qed.

Lemma addAlert_entry (now : Z) (type message : string) (st : state) :
  alerts (addAlert now type message st) =
  entry (now, type, message) :: firstn 4 (alerts st).
Proof. reflexivity. Qed.

(** The log after a sequence of calls, from any log of at most five
    entries: the entries of the calls, newest first, before the old ones,
    cut after the fifth. *)
Lemma record_all_alerts (calls : list (Z * string * string)) :
  forall st,
    (List.length (alerts st) <= 5)%nat ->
    alerts (record_all calls st) = firstn 5 (rev (map entry calls) ++ alerts st).
Proof.
  induction calls as [|[[now type] message] calls IH]; intros st Hst.
  - cbn [record_all map rev app]. symmetry. apply firstn_all2. exact Hst.
  - cbn [record_all map rev]. rewrite IH.
    + rewrite addAlert_entry, (firstn_app_cons_firstn 4), <- app_assoc.
      reflexivity.
    + rewrite addAlert_entry. cbn [List.length]. rewrite length_firstn. lia.
Qed.

(** C7: after any sequence of calls of [addAlert] from the empty log the
    log holds the entries of the five most recent calls, newest first;
    its length is the number of calls or five, whichever is less; and on
    a log of five entries a call puts its entry in front and drops the
    oldest one. *)
Theorem alert_log_keeps_five_most_recent (calls : list (Z * string * string)) :
  let log := alerts (record_all calls initial) in
  log = firstn 5 (rev (map entry calls)) /\
  List.length log = Nat.min (List.length calls) 5 /\
  (List.length log <= 5)%nat /\
  (forall st now type message,
     List.length (alerts st) = 5%nat ->
     alerts (addAlert now type message st) =
     entry (now, type, message) :: removelast (alerts st)).
Proof.
  cbn zeta.
  assert (Hlog : alerts (record_all calls initial) = firstn 5 (rev (map entry calls))).
  { rewrite record_all_alerts by (cbn; lia).
    cbn [alerts initial]. rewrite app_nil_r. reflexivity. }
  rewrite Hlog, length_firstn, length_rev, length_map.
  split; [reflexivity | split; [lia | split; [lia |]]].
  intros st now type message Hlen. rewrite addAlert_entry. f_equal.
  destruct (alerts st) as [|a1 [|a2 [|a3 [|a4 [|a5 [|a6 l]]]]]];
    try discriminate Hlen.
  reflexivity.
Qed.

End AlertLog.

Lemma alert_log_keeps_five_most_recent_witness :
  let calls :=
    [(1000, "info", "one"); (2000, "info", "two"); (3000, "warning", "three");
     (4000, "success", "four"); (5000, "error", "five")]%string in
  let full := App.record_all (host := UTC.host) calls App.initial in
  List.length (App.alerts full) = 5%nat /\
  App.alerts (App.addAlert (host := UTC.host) 6000 "info" "six" full) =
  App.entry (host := UTC.host) (6000, "info", "six")%string
    :: removelast (App.alerts full).
Proof.
  cbn zeta. split; [reflexivity |].
  apply (alert_log_keeps_five_most_recent (host := UTC.host) []).
  reflexivity.
Defined.

(** ** The push channel *)

Section PushChannel.
Import App.

(** C9, as amended: a message whose kind is one of the three recognised
    ones starts exactly one session pull; a message whose kind is any
    other string starts none and raises nothing; on a malformed message
    [JSON.parse] throws and the exception leaves the handler, which has
    started no pull and written nothing. *)
Theorem push_message_handling (st : state) :
  (forall message kind,
     get message "type" = Ok (VStr kind) ->
     kind = "session_detection_complete"%string \/
     kind = "periodic_update"%string \/ kind = "stats_update"%string ->
     ws_onmessage (Ok message) st = (fetchSessionStats_call st, Ok tt) /\
     sessionPulls (fetchSessionStats_call st) = S (sessionPulls st)) /\
  (forall message kind,
     get message "type" = Ok (VStr kind) ->
     kind <> "session_detection_complete"%string ->
     kind <> "periodic_update"%string ->
     kind <> "stats_update"%string ->
     ws_onmessage (Ok message) st = (st, Ok tt)) /\
  ws_onmessage (Throw SyntaxError) st = (st, Throw SyntaxError).
Proof.
  split; [| split].
  - intros message kind Hget Hkind.
    unfold ws_onmessage. run_action. rewrite Hget.
    destruct Hkind as [-> | [-> | ->]]; split; reflexivity.
  - intros message kind Hget H1 H2 H3.
    unfold ws_onmessage. run_action. rewrite Hget. cbn [is_string].
    apply String.eqb_neq in H1, H2, H3. rewrite H1, H2, H3. reflexivity.
  - reflexivity.
Qed.

End PushChannel.

Lemma push_message_handling_witness :
  App.ws_onmessage (Ok (VObj [("type", VStr "stats_update")]%string)) App.mount =
    (App.fetchSessionStats_call App.mount, Ok tt) /\
  App.ws_onmessage (Ok (VObj [("type", VStr "unknown_kind")]%string)) App.mount =
    (App.mount, Ok tt).
Proof.
  destruct (push_message_handling App.mount) as (H1 & H2 & _).
  split.
  - apply (H1 _ "stats_update"%string); [reflexivity |].
    right; right; reflexivity.
  - apply (H2 _ "unknown_kind"%string); [reflexivity | | |]; discriminate.
Defined.

(** C9, as stated, fails: a malformed message is not ignored, the
    handler ends with the exception of [JSON.parse]. *)
Lemma malformed_push_message_throws :
  snd (App.ws_onmessage (Throw SyntaxError) App.mount) = Throw SyntaxError /\
  snd (App.ws_onmessage (Throw SyntaxError) App.mount) <> Ok tt.
Proof. split; [reflexivity | discriminate]. Qed.

(** ** Status classification *)

Section StatusClassification.
Import App.

Lemma advanced_probe_falls_through (advanced : fetched) (st : state) :
  (exists e, request advanced = Throw e) \/
  (exists v, request advanced = Ok v /\
             (get v "real_data_enabled" = Throw TypeError \/
              get v "real_data_enabled" = Ok VUndefined)) ->
  forall basic,
    checkSystemStatus advanced basic st =
    try_catch_finally (basic_probe basic) (fun _ => setSystemStatus offline)
      (fun s => s) st.
Proof.
  intros H basic. unfold checkSystemStatus, advanced_probe. run_action.
  destruct H as [[e He] | [v [Hv [Hg | Hg]]]].
  - rewrite He. reflexivity.
  - rewrite Hv. cbn. rewrite Hg. reflexivity.
  - rewrite Hv. cbn. rewrite Hg. reflexivity.
Qed.

(** C10, as amended: when the advanced probe fails or its answer lacks
    [real_data_enabled], the system is classified as online whenever the
    basic request returns a decoded value other than null, whatever its
    [system_status]; it is classified as offline exactly when the basic
    request fails or returns null. *)
Theorem basic_status_is_online_unless_request_fails (advanced basic : fetched)
    (st : state) :
  (exists e, request advanced = Throw e) \/
  (exists v, request advanced = Ok v /\
             (get v "real_data_enabled" = Throw TypeError \/
              get v "real_data_enabled" = Ok VUndefined)) ->
  let st' := checkSystemStatus advanced basic st in
  (forall status,
     request basic = Ok status -> status <> VNull -> status <> VUndefined ->
     online (systemStatus st') = true) /\
  (online (systemStatus st') = false <->
   (exists e, request basic = Throw e) \/
   request basic = Ok VNull \/ request basic = Ok VUndefined).
Proof.
  intros Hadv. cbn zeta.
  rewrite (advanced_probe_falls_through advanced st Hadv basic).
  unfold basic_probe. run_action.
  destruct (request basic) as [status|e].
  - destruct status; cbn; (split; [intros ? [= <-] ? ? | split; intros H]);
      try reflexivity; try congruence; try discriminate;
      try (right; auto; fail);
      try (destruct H as [[e He] | [He | He]]; discriminate He).
    + apply orb_true_r.
    + rewrite orb_true_r in H. discriminate H.
  - split; [intros ? [=] |].
    split; [intros _; left; exists e; reflexivity | reflexivity].
Qed.

End StatusClassification.

Lemma basic_status_is_online_unless_request_fails_witness :
  let degraded :=
    Resolved {| ok := true; status := 200;
                json := Ok (VObj [("system_status", VStr "degraded")]%string) |} in
  App.online (App.systemStatus (App.checkSystemStatus Rejected degraded App.initial)) = true.
Proof.
  cbn zeta.
  refine (proj1 (basic_status_is_online_unless_request_fails Rejected _ App.initial _)
            (VObj [("system_status", VStr "degraded")]%string) _ _ _).
  - left. exists NetworkError. reflexivity.
  - reflexivity.
  - discriminate.
  - discriminate.
Defined.

(** C10, as stated, fails: the advanced request fails and the basic
    request returns the JSON value null, which is parseable; reading
    [system_status] of it throws and the system is classified as offline. *)
Lemma null_status_is_classified_offline :
  let null_body := Resolved {| ok := true; status := 200; json := Ok VNull |} in
  App.request null_body = Ok VNull /\
  App.online (App.systemStatus (App.checkSystemStatus Rejected null_body App.initial)) = false.
Proof. split; reflexivity. Qed.

(** * Further properties of the code *)

(** ** Reading a property *)

Lemma get_defined (v : value) (k k' : string) (x : value) :
  get v k = Ok x -> exists y, get v k' = Ok y.
Proof. destruct v; cbn; intros H; try discriminate H; eauto. Qed.

Lemma get_not_nullish (v : value) (k : string) (x : value) :
  get v k = Ok x -> v <> VUndefined /\ v <> VNull.
Proof. destruct v; cbn; intros H; try discriminate H; split; discriminate. Qed.

(** ** What every reachable state of the chart component satisfies *)

Section ChartInvariants.
Context {host : Host}.
Import Charts ChartsView.

(** What a pull whose [try] block runs to its end leaves behind. *)
Lemma successful_pull_state (now : Z) (captured : LocalStats) (f : fetched)
    (st : state) :
  snd (fetchChartData_try f st) = Ok tt ->
  let st' := fetchChartData_resume now captured f st in
  useSessionData st' = true /\ connectionStatus st' = connected /\
  chartData st' <> VNull /\ isLoading st' = false /\
  stats st' = stats st /\ pending st' = pending st.
Proof.
  unfold fetchChartData_resume, fetchChartData_try.
  destruct f as [|response]; run_action; [discriminate |].
  destruct (ok response); cbn; [| discriminate].
  destruct (json response) as [data|e]; cbn; [| discriminate].
  destruct (get data "last_updated") as [last_updated|e] eqn:Hget; cbn;
    [| discriminate].
  unfold new_Date. destruct (converts last_updated); cbn; [| discriminate].
  intros _. destruct (get_not_nullish _ _ _ Hget) as [_ Hn].
  repeat split. exact Hn.
Qed.

Lemma coherent_mount (now : Z) (s : LocalStats) : coherent (mount now s).
Proof.
  unfold coherent. cbn. repeat split; try discriminate.
  intros _. right. split; reflexivity.
Qed.

Lemma coherent_call (captured : LocalStats) (st : state) :
  coherent st -> coherent (fetchChartData_call captured st).
Proof.
  intros (Ht & Hf & _). unfold coherent.
  rewrite fetchChartData_call_pending. cbn.
  split; [exact Ht | split; [exact Hf |]].
  intros H. destruct (pending st); discriminate H.
Qed.

Lemma coherent_statsEffect (now : Z) (st : state) :
  coherent st -> coherent (statsEffect now st).
Proof.
  intros Hc. pose proof Hc as (Ht & Hf & Hp). unfold statsEffect.
  destruct (useSessionData st) eqn:Hu; cbn [negb andb]; [exact Hc |].
  unfold coherent. cbn. rewrite Hu.
  split; [discriminate | split; [| exact Hp]].
  intros _. split; [apply Hf; reflexivity |].
  exists now, (stats st). reflexivity.
Qed.

Lemma coherent_rendered (st : state) : coherent st -> coherent (rendered st).
Proof. intros H. exact H. Qed.

Lemma coherent_step (now : Z) (e : event) (st : state) :
  coherent st -> coherent (step now e st).
Proof.
  intros Hc. destruct e as [| |i f|s|]; cbn [step].
  - apply coherent_call, Hc.
  - destruct (refreshButton st);
      [apply coherent_rendered, coherent_call, Hc | exact Hc].
  - destruct (nth_error (pending st) i) as [captured|] eqn:Hi; [| exact Hc].
    set (st0 := with_pending (remove_nth i (pending st)) st).
    assert (Hafter : coherent (fetchChartData_resume now captured f st0)).
    { destruct (snd (fetchChartData_try f st0)) as [[]|e] eqn:Htry.
      - destruct (successful_pull_state now captured f st0 Htry)
          as (Hu & Hs & Hd & Hl & _).
        unfold coherent. rewrite Hu, Hs, Hl.
        split; [intros _; left; split; [reflexivity | exact Hd] |].
        split; [discriminate | reflexivity].
      - assert (Hne : snd (fetchChartData_try f st0) <> Ok tt)
          by (rewrite Htry; discriminate).
        destruct (failed_pull_state now captured f st0 Hne)
          as (Hu & Hs & Hd & Hl & _).
        unfold coherent. rewrite Hu, Hs, Hl, Hd.
        split; [discriminate |].
        split; [| reflexivity].
        intros _. split; [reflexivity |]. exists now, captured. reflexivity. }
    unfold commit. destruct (Bool.eqb _ _); [exact Hafter |].
    apply coherent_statsEffect, Hafter.
  - apply coherent_statsEffect, coherent_rendered.
    destruct Hc as (Ht & Hf & Hp). unfold coherent. cbn.
    split; [exact Ht | split; [exact Hf | exact Hp]].
  - apply coherent_rendered, Hc.
Qed.

Lemma coherent_run (evs : list (Z * event)) :
  forall st, coherent st -> coherent (run evs st).
Proof.
  induction evs as [|[now e] evs IH]; intros st Hc; cbn [run].
  - exact Hc.
  - apply IH, coherent_step, Hc.
Qed.

Lemma reachable_coherent (st : state) : reachable st -> coherent st.
Proof.
  intros (now & s & evs & ->). apply coherent_run, coherent_mount.
Qed.

End ChartInvariants.

Section ChartGuarantees.
Context {host : Host} {conv : Conversions}.
Import Charts ChartsView.

Lemma numbers_of_numbers (ns : list number) : numbers (map VNum ns) = Ok ns.
Proof.
  induction ns as [| n ns IH]; cbn [map numbers to_number and_then];
    [reflexivity |].
  rewrite IH. reflexivity.
Qed.

Lemma nth_string_renders (i : nat) (l : list string) :
  renders (nth i (map VStr l) VUndefined) = true.
Proof.
  revert i. induction l as [| x l IH]; intros [| i]; cbn; auto.
Qed.

(** The main view of generated charts, for counters that are numbers. *)
Lemma generated_data_view (now : Z) (s : LocalStats) (total normal suspicious : number) :
  main_view false (to_value (generateDataFromStats now s))
    (VNum total) (VNum normal) (VNum suspicious) = Ok tt.
Proof.
  unfold main_view, to_value.
  cbn [get lookup String.eqb Ascii.eqb Bool.eqb and_then numbers_of].
  rewrite numbers_of_numbers.
  cbn [and_then gt_zero to_number converts andb negb at_index to_string child
       renders].
  rewrite andb_false_r. cbn [and_then]. unfold child.
  destruct (indexOf _ _) as [i|]; [rewrite nth_string_renders |]; reflexivity.
Qed.

Lemma generated_data_truthy (now : Z) (s : LocalStats) :
  truthy (to_value (generateDataFromStats now s)) = true.
Proof. reflexivity. Qed.

(** A pull that settles with an ok response and a decoded body with a
    [last_updated] that [new Date] accepts stores the body. *)
Lemma settled_payload (now : Z) (st : state) (i : nat) (captured : LocalStats)
    (response : Response) (data last_updated : value) :
  nth_error (pending st) i = Some captured ->
  ok response = true -> json response = Ok data ->
  get data "last_updated" = Ok last_updated -> converts last_updated = true ->
  let st' := step now (FetchSettled i (Resolved response)) st in
  chartData st' = data /\ useSessionData st' = true /\ isLoading st' = false.
Proof.
  intros Hi Hok Hjson Hget Hdate. cbn zeta. unfold step. rewrite Hi.
  unfold commit, fetchChartData_resume, fetchChartData_try, new_Date. run_action.
  rewrite Hok, Hjson. cbn. rewrite Hget. cbn. rewrite Hdate. cbn.
  destruct (useSessionData st); cbn; repeat split.
Qed.

(** X1: in every reachable state the connection status is error exactly
    when the charts are generated from the counters, and it is never
    disconnected. *)
Theorem status_follows_data_source (st : state) :
  reachable st ->
  connectionStatus st <> disconnected /\
  (useSessionData st = false <-> connectionStatus st = error).
Proof.
  intros Hr. destruct (reachable_coherent st Hr) as (Ht & Hf & _).
  destruct (useSessionData st).
  - destruct (Ht eq_refl) as [[-> _] | [-> _]];
      (split; [discriminate | split; discriminate]).
  - destruct (Hf eq_refl) as [-> _].
    split; [discriminate | split; reflexivity].
Qed.

(** X2: in every reachable state the loading flag is set only while a
    pull is in flight. *)
Theorem loading_only_while_pull_in_flight (st : state) :
  reachable st -> isLoading st = true -> pending st <> [].
Proof.
  intros Hr Hl Hp. destruct (reachable_coherent st Hr) as (_ & _ & H).
  rewrite (H Hp) in Hl. discriminate Hl.
Qed.

(** X3: in every reachable state that shows generated charts the chart
    data is the complete result of [generateDataFromStats] for some
    counters and clock reading, and a render of the state shows the
    Refresh button, enabled, as soon as nothing is loading. *)
Theorem fallback_is_generated_and_refreshable (st : state) :
  reachable st -> useSessionData st = false ->
  (exists now s, chartData st = to_value (generateDataFromStats now s)) /\
  (isLoading st = false -> refresh_enabled st = true).
Proof.
  intros Hr Hu. destruct (reachable_coherent st Hr) as (_ & Hf & _).
  destruct (Hf Hu) as (_ & now & s & Hd).
  split; [exists now, s; exact Hd |].
  intros Hl. unfold refresh_enabled. rewrite Hl, Hd. reflexivity.
Qed.

(** X4: whenever the main view is rendered in a reachable state, the
    banner shows exactly one text: the session text on the success class
    for session data, the generated-charts text on the warning class
    otherwise; the reconnecting text and the info class never appear. *)
Theorem banner_shows_one_text (st : state) (b : Banner) :
  reachable st -> render st = Ok (Some b) ->
  b = if useSessionData st
      then {| alert_class := "alert-success";
              texts := ["🟢 Session-Based Data Active"];
              badge := "Session-Based" |}%string
      else {| alert_class := "alert-warning";
              texts := ["📊 Charts Generated from Current Detection Stats"];
              badge := "Stats-Based" |}%string.
Proof.
  intros Hr. destruct (reachable_coherent st Hr) as (Ht & Hf & _).
  unfold render.
  destruct (isLoading st || negb (truthy (chartData st))) eqn:Hview;
    [discriminate |].
  destruct (main_view _ _ _ _ _); cbn [and_then]; [| discriminate].
  intros [= <-]. unfold banner.
  destruct (useSessionData st).
  - destruct (Ht eq_refl) as [[-> _] | [_ Hd]]; [reflexivity |].
    rewrite Hd in Hview. apply orb_false_elim in Hview.
    destruct Hview as [_ Hv]. discriminate Hv.
  - destruct (Hf eq_refl) as [-> _]. reflexivity.
Qed.

(** X5: in a reachable state that shows generated charts, the counters
    of the [stats] prop being numbers, a render never throws: it gives the
    spinner or the main view. *)
Theorem fallback_render_never_throws (st : state) :
  reachable st -> useSessionData st = false ->
  render st = Ok None \/ render st = Ok (Some (banner st)).
Proof.
  intros Hr Hu. destruct (reachable_coherent st Hr) as (_ & Hf & _).
  destruct (Hf Hu) as (_ & now & s & Hd).
  unfold render. rewrite Hu, Hd, generated_data_view.
  destruct (isLoading st || _); [left | right]; reflexivity.
Qed.

(** X6: the payload of a successful pull is not validated: when it is a
    truthy value without [timeline_data] (and with a [last_updated] that
    [new Date] converts), it is adopted and the render that follows throws
    a TypeError. *)
Theorem payload_without_timeline_breaks_render (now : Z) (st : state) (i : nat)
    (captured : LocalStats) (response : Response) (data last_updated : value) :
  nth_error (pending st) i = Some captured ->
  ok response = true -> json response = Ok data ->
  truthy data = true -> get data "timeline_data" = Ok VUndefined ->
  get data "last_updated" = Ok last_updated -> converts last_updated = true ->
  chartData (step now (FetchSettled i (Resolved response)) st) = data /\
  render (step now (FetchSettled i (Resolved response)) st) = Throw TypeError.
Proof.
  intros Hi Hok Hjson Htruthy Hget Hlast Hdate.
  destruct (settled_payload now st i captured response data last_updated
              Hi Hok Hjson Hlast Hdate) as (Hd & Hu & Hl).
  split; [exact Hd |].
  unfold render. rewrite Hl, Hd, Htruthy. cbn [orb negb].
  unfold main_view. rewrite Hget. reflexivity.
Qed.

(** X27: the main view of generated charts throws when the
    [suspiciousCount] it is given is an object: a [TypeError] at
    [totalAnomalies > 0] when the object does not convert to a primitive,
    and React's error for an object used as a child otherwise. *)
Theorem fallback_view_needs_primitive_counters (now : Z) (s : LocalStats)
    (total normal : number) (fields : list (string * value)) :
  main_view false (to_value (generateDataFromStats now s))
    (VNum total) (VNum normal) (VObj fields) =
  Throw (if converts (VObj fields) then InvalidChild else TypeError).
Proof.
  unfold main_view, to_value.
  cbn [get lookup String.eqb Ascii.eqb Bool.eqb and_then numbers_of].
  rewrite numbers_of_numbers. cbn [and_then]. unfold gt_zero, to_number.
  destruct (converts (VObj fields)); cbn [and_then]; [| reflexivity].
  change (converts (VNum normal)) with true. cbn [negb].
  rewrite andb_false_r. cbn [and_then at_index to_string].
  destruct (indexOf _ _) as [i|]; reflexivity.
Qed.

End ChartGuarantees.

Lemma status_follows_data_source_witness :
  let st := Charts.run (host := UTC.host) [(1000, Charts.FetchSettled 0 Rejected)]
              (Charts.mount (host := UTC.host) 0 Charts.no_logs) in
  Charts.connectionStatus st <> Charts.disconnected /\
  (Charts.useSessionData st = false <-> Charts.connectionStatus st = Charts.error).
Proof.
  cbn zeta. apply (status_follows_data_source (host := UTC.host)).
  exists 0, Charts.no_logs, [(1000, Charts.FetchSettled 0 Rejected)].
  reflexivity.
Defined.

Lemma loading_only_while_pull_in_flight_witness :
  Charts.pending (Charts.mount (host := UTC.host) 0 Charts.no_logs) <> [].
Proof.
  apply (loading_only_while_pull_in_flight (host := UTC.host)).
  - exists 0, Charts.no_logs, []. reflexivity.
  - reflexivity.
Defined.

Lemma fallback_is_generated_and_refreshable_witness :
  let st := Charts.run (host := UTC.host) [(1000, Charts.FetchSettled 0 Rejected)]
              (Charts.mount (host := UTC.host) 0 Charts.no_logs) in
  Charts.refresh_enabled st = true.
Proof.
  cbn zeta.
  apply (fallback_is_generated_and_refreshable (host := UTC.host)).
  - exists 0, Charts.no_logs, [(1000, Charts.FetchSettled 0 Rejected)].
    reflexivity.
  - reflexivity.
  - reflexivity.
Defined.

Lemma banner_shows_one_text_witness :
  let st := Charts.run (host := UTC.host) [(1000, Charts.FetchSettled 0 Rejected)]
              (Charts.mount (host := UTC.host) 0 Charts.no_logs) in
  ChartsView.texts (ChartsView.banner st) =
  ["📊 Charts Generated from Current Detection Stats"%string].
Proof.
  cbn zeta.
  refine (f_equal ChartsView.texts
            (banner_shows_one_text (host := UTC.host) (conv := Decimal.conversions)
               (Charts.run (host := UTC.host)
                  [(1000, Charts.FetchSettled 0 Rejected)]
                  (Charts.mount (host := UTC.host) 0 Charts.no_logs)) _ _ _)).
  - exists 0, Charts.no_logs, [(1000, Charts.FetchSettled 0 Rejected)].
    reflexivity.
  - vm_compute. reflexivity.
Defined.

Lemma fallback_render_never_throws_witness :
  let st := Charts.run (host := UTC.host) [(1000, Charts.FetchSettled 0 Rejected)]
              (Charts.mount (host := UTC.host) 0 Charts.no_logs) in
  ChartsView.render (conv := Decimal.conversions) st = Ok None \/
  ChartsView.render (conv := Decimal.conversions) st =
    Ok (Some (ChartsView.banner st)).
Proof.
  cbn zeta.
  apply (fallback_render_never_throws (host := UTC.host) (conv := Decimal.conversions)).
  - exists 0, Charts.no_logs, [(1000, Charts.FetchSettled 0 Rejected)].
    reflexivity.
  - reflexivity.
Defined.

Lemma payload_without_timeline_breaks_render_witness :
  let st := Charts.step (host := UTC.host) 1000
              (Charts.FetchSettled 0
                 (Resolved {| ok := true; status := 200; json := Ok (VObj []) |}))
              (Charts.mount (host := UTC.host) 0 Charts.no_logs) in
  Charts.chartData st = VObj [] /\
  ChartsView.render (conv := Decimal.conversions) st = Throw TypeError.
Proof.
  apply (payload_without_timeline_breaks_render (host := UTC.host)
           (conv := Decimal.conversions) 1000
           (Charts.mount (host := UTC.host) 0 Charts.no_logs) 0 Charts.no_logs
           {| ok := true; status := 200; json := Ok (VObj []) |} (VObj [])
           VUndefined);
    reflexivity.
Defined.

(** ** More on the fallback synthesiser *)

Section SynthesiserEdges.
Context {host : Host}.
Import Charts.

(** X7: whenever [totalLogs > 0] does not hold (no log, a negative or a
    missing total), the base rate is the default 0.02 and all eight hourly
    counts are 1, whatever the other counters are. *)
Theorem hourly_counts_without_logs (now : Z) (s : LocalStats) :
  gt (totalLogs s) (of_Z 0) = false ->
  threat_counts (hourly_patterns (generateDataFromStats now s)) =
  map of_Z [1; 1; 1; 1; 1; 1; 1; 1].
Proof.
  intros H. unfold generateDataFromStats. cbn [hourly_patterns threat_counts].
  rewrite H. vm_compute. reflexivity.
Qed.

(** X8: for an integer [suspiciousCount] below 2^50 the four category
    counts are integers that do not increase from the first category to
    the last, the last is at least 1, and their sum is at least
    totalThreats and at most totalThreats + 3. *)
Theorem category_counts_cover_the_threats (now : Z) (s : LocalStats) (n : Z) :
  0 <= n < 2 ^ 50 -> suspiciousCount s = of_Z n ->
  exists c4 c3 c2 c1,
    counts (threat_categories (generateDataFromStats now s)) =
      map of_Z [c4; c3; c2; c1] /\
    c4 >= c3 /\ c3 >= c2 /\ c2 >= c1 /\ c1 >= 1 /\
    Z.max n 1 <= c4 + c3 + c2 + c1 <= Z.max n 1 + 3.
Proof.
  intros Hn Hs.
  set (T := Z.max n 1). assert (HT : 1 <= T < 2 ^ 50) by (subst T; lia).
  exists ((4 * T + 9) / 10), ((3 * T + 9) / 10), ((2 * T + 9) / 10),
         ((1 * T + 9) / 10).
  split.
  - change (counts (threat_categories (generateDataFromStats now s)))
      with (map (fun w => Math_ceil (mul (Math_max (suspiciousCount s) (of_Z 1)) w))
                [dec 4 1; dec 3 1; dec 2 1; dec 1 1]).
    rewrite Hs, max_one by lia. fold T. cbn [map].
    rewrite !ceil_weight by (auto; lia). reflexivity.
  - pose proof (Z.div_mod (4 * T + 9) 10 ltac:(lia)).
    pose proof (Z.mod_pos_bound (4 * T + 9) 10 ltac:(lia)).
    pose proof (Z.div_mod (3 * T + 9) 10 ltac:(lia)).
    pose proof (Z.mod_pos_bound (3 * T + 9) 10 ltac:(lia)).
    pose proof (Z.div_mod (2 * T + 9) 10 ltac:(lia)).
    pose proof (Z.mod_pos_bound (2 * T + 9) 10 ltac:(lia)).
    pose proof (Z.div_mod (1 * T + 9) 10 ltac:(lia)).
    pose proof (Z.mod_pos_bound (1 * T + 9) 10 ltac:(lia)).
    lia.
Qed.

(** X9: the guard [|| 0] protects the timeline only: with a
    [suspiciousCount] that is NaN all ten anomaly points are 0, while the
    four category counts are NaN. *)
Theorem nan_counter_reaches_the_categories (now : Z) (s : LocalStats) :
  suspiciousCount s = NaN ->
  anomaly_counts (timeline_data (generateDataFromStats now s)) =
    repeat (of_Z 0) 10 /\
  counts (threat_categories (generateDataFromStats now s)) =
    [NaN; NaN; NaN; NaN].
Proof.
  intros H. rewrite timeline_anomaly_counts.
  unfold generateDataFromStats. cbn [threat_categories counts].
  rewrite H. split; reflexivity.
Qed.

End SynthesiserEdges.

Lemma hourly_counts_without_logs_witness :
  Charts.threat_counts
    (Charts.hourly_patterns
       (Charts.generateDataFromStats (host := UTC.host) 0
          {| Charts.totalLogs := of_Z 0; Charts.normalCount := of_Z 3;
             Charts.suspiciousCount := of_Z 40 |})) =
  map of_Z [1; 1; 1; 1; 1; 1; 1; 1].
Proof.
  apply (hourly_counts_without_logs (host := UTC.host)). reflexivity.
Defined.

Lemma category_counts_cover_the_threats_witness :
  exists c4 c3 c2 c1,
    Charts.counts
      (Charts.threat_categories
         (Charts.generateDataFromStats (host := UTC.host) 0
            {| Charts.totalLogs := of_Z 57; Charts.normalCount := of_Z 50;
               Charts.suspiciousCount := of_Z 7 |})) =
      map of_Z [c4; c3; c2; c1] /\
    c4 >= c3 /\ c3 >= c2 /\ c2 >= c1 /\ c1 >= 1 /\
    Z.max 7 1 <= c4 + c3 + c2 + c1 <= Z.max 7 1 + 3.
Proof.
  apply (category_counts_cover_the_threats (host := UTC.host) 0 _ 7);
    [lia | reflexivity].
Defined.

Lemma nan_counter_reaches_the_categories_witness :
  Charts.counts
    (Charts.threat_categories
       (Charts.generateDataFromStats (host := UTC.host) 0
          {| Charts.totalLogs := of_Z 5; Charts.normalCount := of_Z 5;
             Charts.suspiciousCount := NaN |})) = [NaN; NaN; NaN; NaN].
Proof.
  apply (nan_counter_reaches_the_categories (host := UTC.host)). reflexivity.
Defined.

(** ** The control panel *)

Section ControlPanelFacts.
Import ControlPanel.

Lemma shown_button_cases (p : Props) (b : Button) :
  In b (buttonsToShow p) ->
  disabled b = isLoading p \/
  (disabled b = isLoading p || negb (truthy (modelTrained p)) /\
   (onClick b = onTestDetection \/ onClick b = onTestRealDetection)).
Proof.
  unfold buttonsToShow.
  destruct (truthy (realDataEnabled p)); cbn [advancedButtons basicButtons In];
    intros [<- | [<- | [<- | []]]]; cbn; auto.
Qed.

(** X10: the loading text of a button is never displayed: every button
    is disabled while [isLoading] is set, so each shown button always
    carries its label. *)
Theorem loading_text_is_never_shown (p : Props) (b : Button) :
  In b (buttonsToShow p) -> button_text p b = label b.
Proof.
  intros Hb. unfold button_text.
  destruct (shown_button_cases p b Hb) as [-> | [-> _]];
    destruct (isLoading p); reflexivity.
Qed.

(** X11: a click starts a handler only when nothing is loading and, for
    the two detection tests, only when the model is trained; the
    handlers offered are those of the current mode. *)
Theorem click_is_gated (p : Props) (button_id : string) (h : handler) :
  click p button_id = Some h ->
  isLoading p = false /\
  (h = onTestDetection \/ h = onTestRealDetection ->
   truthy (modelTrained p) = true) /\
  (truthy (realDataEnabled p) = true ->
   h = onTrainRealData \/ h = onTestRealDetection \/ h = onTestDetection) /\
  (truthy (realDataEnabled p) = false ->
   h = onTrainModel \/ h = onTestDetection \/ h = onGenerateData).
Proof.
  unfold click.
  destruct (find _ (buttonsToShow p)) as [b|] eqn:Hfind; [| discriminate].
  apply find_some in Hfind. destruct Hfind as [Hin _].
  destruct (disabled b) eqn:Hd; [discriminate |]. intros [= <-].
  assert (Hmode :
    (truthy (realDataEnabled p) = true ->
     onClick b = onTrainRealData \/ onClick b = onTestRealDetection \/
     onClick b = onTestDetection) /\
    (truthy (realDataEnabled p) = false ->
     onClick b = onTrainModel \/ onClick b = onTestDetection \/
     onClick b = onGenerateData)).
  { revert Hin. unfold buttonsToShow.
    destruct (truthy (realDataEnabled p));
      cbn [advancedButtons basicButtons In];
      intros [<- | [<- | [<- | []]]]; cbn; split; intros; auto; discriminate. }
  assert (Hgate : isLoading p = false /\
                  (onClick b = onTestDetection \/ onClick b = onTestRealDetection ->
                   truthy (modelTrained p) = true)).
  { revert Hin Hd. unfold buttonsToShow.
    destruct (truthy (realDataEnabled p));
      cbn [advancedButtons basicButtons In];
      intros [<- | [<- | [<- | []]]]; cbn;
      destruct (isLoading p); destruct (truthy (modelTrained p)); cbn;
      intros Hd; try discriminate Hd;
      (split; [reflexivity | intros [H | H]; try reflexivity; discriminate H]). }
  destruct Hgate as [Hl Ht]. destruct Hmode as [Ha Hb].
  repeat split; assumption.
Qed.

(** X12: under the buttons exactly one of the three blocks is shown: the
    progress bar while loading, otherwise the warning for an untrained
    model or the ready message for a trained one. *)
Theorem one_status_block (p : Props) :
  (progress_bar p = true /\ not_trained_warning p = false /\ ready_message p = false) \/
  (progress_bar p = false /\ not_trained_warning p = true /\ ready_message p = false) \/
  (progress_bar p = false /\ not_trained_warning p = false /\ ready_message p = true).
Proof.
  unfold progress_bar, not_trained_warning, ready_message.
  destruct (isLoading p); destruct (truthy (modelTrained p)); cbn; auto.
Qed.

End ControlPanelFacts.

Lemma loading_text_is_never_shown_witness :
  let p := {| ControlPanel.isLoading := true;
              ControlPanel.modelTrained := VBool true;
              ControlPanel.realDataEnabled := VBool false |} in
  map (ControlPanel.button_text p) (ControlPanel.buttonsToShow p) =
  ["Train Basic AI"; "Test Basic Detection"; "Generate Sample Data"]%string.
Proof.
  cbn zeta. cbn [ControlPanel.buttonsToShow ControlPanel.realDataEnabled truthy
                 ControlPanel.basicButtons map].
  rewrite !(loading_text_is_never_shown
              {| ControlPanel.isLoading := true;
                 ControlPanel.modelTrained := VBool true;
                 ControlPanel.realDataEnabled := VBool false |})
    by (cbn; auto).
  reflexivity.
Defined.

Lemma click_is_gated_witness :
  let p := {| ControlPanel.isLoading := false;
              ControlPanel.modelTrained := VBool true;
              ControlPanel.realDataEnabled := VBool true |} in
  ControlPanel.click p "test-real" = Some ControlPanel.onTestRealDetection /\
  ControlPanel.isLoading p = false.
Proof.
  cbn zeta. split; [reflexivity |].
  apply (click_is_gated _ "test-real"%string ControlPanel.onTestRealDetection).
  reflexivity.
Defined.

(** ** The request helper *)

Section RequestConfig.
Import ApiService.

Lemma own_none_lookup (k : string) (fields : list (string * value)) :
  own k fields = None -> lookup k fields = VUndefined.
Proof.
  induction fields as [| [k' v] rest IH]; cbn; [reflexivity |].
  destruct (own k rest); [discriminate |].
  rewrite IH by reflexivity.
  destruct (String.eqb k k'); [discriminate | reflexivity].
Qed.

(** X13: in the configuration that [request] builds, the headers are
    the caller's own [headers] option whenever the caller passes one: the
    default content type is sent only when the options have no headers at
    all, and is never merged with them; every other option is passed on
    as it is. *)
Theorem caller_headers_replace_the_defaults (fields : list (string * value)) :
  exists config,
    request_config (VObj fields) = Ok config /\
    own "headers" config =
      Some (match own "headers" fields with
            | Some headers => headers
            | None => VObj [("Content-Type", VStr "application/json")]
            end)%string /\
    forall k, k <> "headers"%string -> own k config = own k fields.
Proof.
  eexists. split; [reflexivity |]. split.
  - cbn [own spread]. destruct (own "headers" fields) eqn:Hown; [reflexivity |].
    rewrite (own_none_lookup _ _ Hown). reflexivity.
  - intros k Hk. cbn [own spread]. destruct (own k fields) eqn:Hown.
    + reflexivity.
    + apply String.eqb_neq in Hk. rewrite Hk. reflexivity.
Qed.

End RequestConfig.

(** ** The status check and the session pull of the shell *)

Section ShellFacts.
Import App.

(** The status check writes the [systemStatus] cell and no other. *)
Lemma checkSystemStatus_frame (advanced basic : fetched) (st : state) :
  let st' := checkSystemStatus advanced basic st in
  stats st' = stats st /\ realTimeStats st' = realTimeStats st /\
  alerts st' = alerts st /\ apiResponding st' = apiResponding st /\
  sessionPulls st' = sessionPulls st.
Proof.
  cbn zeta. unfold checkSystemStatus, advanced_probe, basic_probe. run_action.
  destruct (request advanced) as [v|e]; cbn.
  - destruct (get v "real_data_enabled") as [flag|e]; cbn.
    + destruct (is_defined flag); cbn.
      * destruct (get v "model_trained"); cbn;
          [destruct (get v "version"); cbn |];
          repeat (destruct (request basic) as [status|e']; cbn;
                  [destruct (get status "system_status"); cbn;
                   [destruct (get status "model_trained"); cbn |] |]);
          auto.
      * destruct (request basic) as [status|e']; cbn;
          [destruct (get status "system_status"); cbn;
           [destruct (get status "model_trained"); cbn |] |]; auto.
    + destruct (request basic) as [status|e']; cbn;
        [destruct (get status "system_status"); cbn;
         [destruct (get status "model_trained"); cbn |] |]; auto.
  - destruct (request basic) as [status|e']; cbn;
      [destruct (get status "system_status"); cbn;
       [destruct (get status "model_trained"); cbn |] |]; auto.
Qed.

(** The status check writes all four fields of [systemStatus]: what it
    leaves does not depend on what was there. *)
Lemma checkSystemStatus_overwrites (advanced basic : fetched) (st st' : state) :
  systemStatus (checkSystemStatus advanced basic st) =
  systemStatus (checkSystemStatus advanced basic st').
Proof.
  unfold checkSystemStatus, advanced_probe, basic_probe. run_action.
  destruct (request advanced) as [v|e]; cbn.
  - destruct (get v "real_data_enabled") as [flag|e]; cbn.
    + destruct (is_defined flag); cbn.
      * destruct (get v "model_trained"); cbn;
          [destruct (get v "version"); cbn |];
          repeat (destruct (request basic) as [status|e']; cbn;
                  [destruct (get status "system_status"); cbn;
                   [destruct (get status "model_trained"); cbn |] |]);
          auto.
      * destruct (request basic) as [status|e']; cbn;
          [destruct (get status "system_status"); cbn;
           [destruct (get status "model_trained"); cbn |] |]; auto.
    + destruct (request basic) as [status|e']; cbn;
        [destruct (get status "system_status"); cbn;
         [destruct (get status "model_trained"); cbn |] |]; auto.
  - destruct (request basic) as [status|e']; cbn;
      [destruct (get status "system_status"); cbn;
       [destruct (get status "model_trained"); cbn |] |]; auto.
Qed.

(** X14: when the advanced API answers with a [real_data_enabled] that
    is not undefined (be it [null] or [false]), the basic API is not
    consulted: the system is classified as online, the two flags are the
    answer's when they are truthy and [false] otherwise, and the version
    is the answer's or 2.0.0. *)
Theorem advanced_answer_decides_status (advanced : fetched) (st : state)
    (answer flag : value) :
  request advanced = Ok answer ->
  get answer "real_data_enabled" = Ok flag ->
  is_defined flag = true ->
  exists model_trained version,
    get answer "model_trained" = Ok model_trained /\
    get answer "version" = Ok version /\
    forall basic,
      checkSystemStatus advanced basic st =
      setSystemStatus
        {| online := true;
           modelTrained := or_else model_trained (VBool false);
           realDataEnabled := or_else flag (VBool false);
           version := or_else version (VStr "2.0.0") |} st.
Proof.
  intros Hreq Hflag Hdef.
  destruct (get_defined _ _ "model_trained" _ Hflag) as [m Hm].
  destruct (get_defined _ _ "version" _ Hflag) as [v Hv].
  exists m, v. split; [exact Hm |]. split; [exact Hv |]. intros basic.
  unfold checkSystemStatus, advanced_probe. run_action.
  rewrite Hreq. cbn. rewrite Hflag. cbn. rewrite Hdef. cbn.
  rewrite Hm. cbn. rewrite Hv. reflexivity.
Qed.

End ShellFacts.

Lemma advanced_answer_decides_status_witness :
  (exists model_trained version,
    get (VObj [("real_data_enabled", VNull)]) "model_trained" = Ok model_trained /\
    get (VObj [("real_data_enabled", VNull)]) "version" = Ok version /\
    forall basic,
      App.checkSystemStatus
        (Resolved {| ok := true; status := 200;
                     json := Ok (VObj [("real_data_enabled", VNull)]) |})
        basic App.initial =
      App.setSystemStatus
        {| App.online := true;
           App.modelTrained := or_else model_trained (VBool false);
           App.realDataEnabled := or_else VNull (VBool false);
           App.version := or_else version (VStr "2.0.0") |} App.initial)%string.
Proof.
  apply (advanced_answer_decides_status
           (Resolved {| ok := true; status := 200;
                        json := Ok (VObj [("real_data_enabled", VNull)]%string) |})
           App.initial (VObj [("real_data_enabled", VNull)]%string) VNull);
    reflexivity.
Defined.

(** ** Invariants of the shell and its handlers *)

Section ActionRules.
Context {S : Type} (P : S -> Prop).

Lemma preserves_ret {A : Type} (a : A) : preserves P (ret a).
Proof. intros st H. exact H. Qed.

Lemma preserves_lift {A : Type} (r : result A) : preserves P (lift r).
Proof. intros st H. exact H. Qed.

Lemma preserves_write (f : S -> S) :
  (forall st, P st -> P (f st)) -> preserves P (write f).
Proof. intros Hf st H. exact (Hf st H). Qed.

Lemma preserves_bind {A B : Type} (c : action S A) (k : A -> action S B) :
  preserves P c -> (forall a, preserves P (k a)) -> preserves P (bind c k).
Proof.
  intros Hc Hk st H. unfold bind. specialize (Hc st H).
  destruct (c st) as [st' [a|e]]; cbn in Hc |- *; [apply Hk; exact Hc | exact Hc].
Qed.

Lemma preserves_if {A : Type} (b : bool) (c d : action S A) :
  preserves P c -> preserves P d -> preserves P (if b then c else d).
Proof. destruct b; auto. Qed.

Lemma try_catch_finally_rule (Q : S -> Prop) (body : action S unit)
    (handler : exn -> S -> S) (final : S -> S) :
  preserves P body ->
  (forall e st, P st -> P (handler e st)) ->
  (forall st, P st -> Q (final st)) ->
  forall st, P st -> Q (try_catch_finally body handler final st).
Proof.
  intros Hb Hh Hf st H. unfold try_catch_finally. specialize (Hb st H).
  destruct (body st) as [st' [a|e]]; cbn in Hb; auto.
Qed.

End ActionRules.

Create HintDb handlers.
#[local] Hint Resolve preserves_ret preserves_lift preserves_write
  preserves_bind preserves_if : handlers.

Section ShellInvariants.
Context {host : Host} {conv : Conversions}.
Import Actions.

Lemma stored_or_else (v : value) : stored_counter (or_else v (VNum (of_Z 0))).
Proof.
  unfold or_else, stored_counter. destruct (truthy v) eqn:H; [left; exact H | right; reflexivity].
Qed.

Lemma sound_mount : sound App.mount.
Proof.
  unfold sound, stored_counter; cbn.
  repeat split; auto; try discriminate; lia.
Qed.

Lemma sound_addAlert (now : Z) (type message : string) (a : App.state) :
  sound a -> sound (App.addAlert now type message a).
Proof.
  unfold sound, App.addAlert, App.setAlerts.
  cbn [App.alerts App.stats App.realTimeStats List.length].
  intros (H1 & H2 & H3 & H4 & H5 & H6).
  repeat split; auto.
  pose proof (firstn_le_length 4 (App.alerts a)). lia.
Qed.

Lemma sound_mark_trained (a : App.state) : sound a -> sound (mark_trained a).
Proof. unfold sound; cbn. intros H; exact H. Qed.

Lemma sound_setStats (x y z : value) (a : App.state) :
  sound a ->
  sound (App.setStats {| App.totalLogs := or_else x (VNum (of_Z 0));
                         App.normalCount := or_else y (VNum (of_Z 0));
                         App.suspiciousCount := or_else z (VNum (of_Z 0)) |} a).
Proof.
  unfold sound; cbn. intros (H1 & H2 & H3 & H4 & H5 & H6).
  repeat split; try assumption; apply stored_or_else.
Qed.

Lemma sound_checkSystemStatus (advanced basic : fetched) (a : App.state) :
  sound a -> sound (App.checkSystemStatus advanced basic a).
Proof.
  destruct (checkSystemStatus_frame advanced basic a) as (Hs & Hr & Ha & _).
  unfold sound. rewrite Hs, Hr, Ha. auto.
Qed.

Lemma sound_fetchSessionStats_call (a : App.state) :
  sound a -> sound (App.fetchSessionStats_call a).
Proof. unfold sound; cbn. intros H; exact H. Qed.

Lemma sound_ws_onmessage (parsed : result value) (a : App.state) :
  sound a -> sound (fst (App.ws_onmessage parsed a)).
Proof.
  intros H. unfold App.ws_onmessage. run_action.
  destruct parsed as [message|e]; cbn; [| exact H].
  destruct (get message "type") as [type|e]; cbn; [| exact H].
  destruct (_ || _); cbn; [apply sound_fetchSessionStats_call |]; exact H.
Qed.

Lemma sound_fetchSessionStats_resume (f : fetched) (a : App.state) :
  sound a -> sound (App.fetchSessionStats_resume f a).
Proof.
  intros (H1 & H2 & H3 & H4 & H5 & H6).
  unfold App.fetchSessionStats_resume, App.fetchSessionStats_try. run_action.
  assert (Hkeep : forall b n, sound (App.setApiResponding b (App.with_sessionPulls n a)))
    by (intros; unfold sound; cbn; repeat split; assumption).
  destruct f as [| response]; cbn; [apply Hkeep |].
  destruct (ok response); cbn; [| apply Hkeep].
  destruct (json response) as [data|e]; cbn; [| apply Hkeep].
  destruct (get data "session_stats") as [sessionData|e]; cbn; [| apply Hkeep].
  destruct (get sessionData "total_logs_processed") as [total|e] eqn:Ht; cbn;
    [| apply Hkeep].
  destruct (get sessionData "normal_activities") as [normal|e]; cbn; [| apply Hkeep].
  destruct (get sessionData "total_anomalies_detected") as [anomalies|e]; cbn;
    [| apply Hkeep].
  destruct (get_not_nullish _ _ _ Ht) as [Hu Hn].
  destruct (get sessionData "session_id") as [session_id|e]; cbn;
    [destruct (to_string _); cbn |];
    unfold sound; cbn; repeat split; try assumption; apply stored_or_else.
Qed.

Lemma sound_step (e : App.event) (a : App.state) : sound a -> sound (App.step e a).
Proof.
  intros H. destruct e as [| parsed | f | advanced basic]; cbn [App.step].
  - apply sound_fetchSessionStats_call, H.
  - apply sound_ws_onmessage, H.
  - destruct (App.sessionPulls a);
      [exact H | apply sound_fetchSessionStats_resume, H].
  - apply sound_checkSystemStatus, H.
Qed.

(** Writes to the cells of the shell keep what a running handler holds. *)
Lemma during_in_app (l : list continuation) (b : bool) (g : App.state -> App.state) :
  (forall a, sound a -> sound (g a)) ->
  forall st, during l b st -> during l b (in_app g st).
Proof.
  intros Hg st (Hr & Hl & Hs). unfold during. cbn. auto.
Qed.

Lemma during_alert (l : list continuation) (b : bool) (now : Z)
    (type message : string) :
  preserves (during l b) (alert now type message).
Proof.
  apply preserves_write, during_in_app. intros a. apply sound_addAlert.
Qed.

Lemma during_addAlert (l : list continuation) (b : bool) (now : Z)
    (type message : string) (st : state) :
  during l b st -> during l b (in_app (App.addAlert now type message) st).
Proof. apply during_in_app. intros a. apply sound_addAlert. Qed.

Lemma during_finally (l : list continuation) (b : bool) (st : state) :
  during l b st -> during l false (setIsLoading false st).
Proof. intros (Hr & Hl & Hs). unfold during. cbn. auto. Qed.

#[local] Hint Resolve during_alert during_addAlert during_finally
  during_in_app sound_mark_trained sound_setStats : handlers.

Ltac handler_rule :=
  repeat first
    [ apply preserves_bind; [| intros ?]
    | apply preserves_lift
    | apply preserves_ret
    | apply during_alert
    | apply preserves_if
    | apply preserves_write ].

Lemma during_handleTrainModel (now : Z) (f : fetched) (st : state) (b : bool) :
  during [] b st -> during [] false (handleTrainModel_resume now f st).
Proof.
  unfold handleTrainModel_resume.
  apply (try_catch_finally_rule (during [] b)); eauto with handlers.
  handler_rule. apply during_in_app, @sound_mark_trained.
Qed.

Lemma during_handleTestDetection (now later : Z) (f : fetched) (st : state) (b : bool) :
  during [] b st -> during [] false (handleTestDetection_resume now later f st).
Proof.
  unfold handleTestDetection_resume.
  apply (try_catch_finally_rule (during [] b)); eauto with handlers.
  handler_rule. apply during_in_app. intros ?. apply sound_setStats.
Qed.

Lemma during_handleTestRealDetection (now later : Z) (f : fetched) (st : state)
    (b : bool) :
  during [] b st -> during [] false (handleTestRealDetection_resume now later f st).
Proof.
  unfold handleTestRealDetection_resume.
  apply (try_catch_finally_rule (during [] b)); eauto with handlers.
  handler_rule.
  - apply during_in_app. intros ?. apply sound_setStats.
  - intros s (Hr & Hl & Hs). unfold during. cbn. auto.
Qed.

Lemma during_handleGenerateData (now : Z) (f : fetched) (st : state) (b : bool) :
  during [] b st -> during [] false (handleGenerateData_resume now f st).
Proof.
  unfold handleGenerateData_resume.
  apply (try_catch_finally_rule (during [] b)); eauto with handlers.
  handler_rule.
Qed.

Lemma during_handleTrainRealData (now : Z) (f : fetched) (st : state) :
  during [] true st ->
  during [] false (handleTrainRealData_resume now f st) \/
  during [StatusAfterTraining] true (handleTrainRealData_resume now f st).
Proof.
  intros H. unfold handleTrainRealData_resume.
  match goal with
  | |- context [match ?body st with _ => _ end] =>
      assert (Hb : preserves (during [] true) body)
        by (handler_rule; apply during_in_app, @sound_mark_trained);
      specialize (Hb st H); destruct (body st) as [st' [a|e]]; cbn in Hb
  end.
  - right. destruct Hb as (Hr & Hl & Hs). unfold during. cbn. rewrite Hr. auto.
  - left. apply during_finally with (b := true), during_addAlert, Hb.
Qed.

Lemma click_needs_idle (p : ControlPanel.Props) (button_id : string)
    (h : ControlPanel.handler) :
  ControlPanel.click p button_id = Some h -> ControlPanel.isLoading p = false.
Proof.
  unfold ControlPanel.click.
  destruct (find _ (ControlPanel.buttonsToShow p)) as [b|] eqn:Hfind; [| discriminate].
  apply find_some in Hfind. destruct Hfind as [Hin _].
  destruct (ControlPanel.disabled b) eqn:Hd; [discriminate |]. intros _.
  destruct (shown_button_cases p b Hin) as [H | [H _]]; rewrite H in Hd.
  - exact Hd.
  - apply orb_false_elim in Hd. apply Hd.
Qed.

Lemma step_invariant (now later : Z) (e : event) (st : state) :
  exclusive st /\ sound (app st) ->
  exclusive (step now later e st) /\ sound (app (step now later e st)).
Proof.
  intros [Hx Hs].
  assert (Hout : forall st', during [] false st' -> exclusive st' /\ sound (app st')).
  { intros st' (Hr & Hl & Hs'). split; [left; auto | exact Hs']. }
  destruct e as [button_id | i f | i advanced basic | | e]; cbn [step].
  - destruct (ControlPanel.click (panel_props st) button_id) as [h|] eqn:Hc; [| auto].
    apply click_needs_idle in Hc. cbn in Hc.
    destruct Hx as [[Hr Hl] | (c & Hr & Hl)]; [| congruence].
    split; [| exact Hs]. right. exists (continuation_of h). cbn. rewrite Hr. auto.
  - destruct Hx as [[Hr Hl] | (c & Hr & Hl)]; rewrite Hr.
    + destruct i; cbn; (split; [left; auto | exact Hs]).
    + destruct i as [| i]; cbn [nth_error Charts.remove_nth];
        [| destruct i; cbn; (split; [right; eauto | exact Hs])].
      assert (Hd : during [] true (with_running [] st))
        by (unfold during; cbn; auto).
      destruct c.
      * apply Hout, during_handleTrainModel with (b := true), Hd.
      * destruct (during_handleTrainRealData now f _ Hd) as [H | (H1 & H2 & H3)];
          [apply Hout, H | split; [right; eauto | exact H3]].
      * split; [right; eauto | exact Hs].
      * apply Hout, during_handleTestDetection with (b := true), Hd.
      * apply Hout, during_handleTestRealDetection with (b := true), Hd.
      * apply Hout, during_handleGenerateData with (b := true), Hd.
  - destruct Hx as [[Hr Hl] | (c & Hr & Hl)]; rewrite Hr.
    + destruct i; cbn; (split; [left; auto | exact Hs]).
    + destruct i as [| i]; cbn [nth_error Charts.remove_nth];
        [| destruct i; cbn; (split; [right; eauto | exact Hs])].
      destruct c; try (split; [right; eauto | exact Hs]).
      apply Hout. unfold handleTrainRealData_checked, during. cbn.
      split; [reflexivity | split; [reflexivity | apply sound_checkSystemStatus, Hs]].
  - destruct (timeouts st); [auto |]. split; [exact Hx | cbn; exact Hs].
  - split; [exact Hx | cbn; apply sound_step, Hs].
Qed.

Lemma run_invariant (evs : list (Z * Z * event)) (st : state) :
  exclusive st /\ sound (app st) ->
  exclusive (run evs st) /\ sound (app (run evs st)).
Proof.
  revert st. induction evs as [| [[now later] e] rest IH]; intros st H; cbn [run].
  - exact H.
  - apply IH, step_invariant, H.
Qed.

Lemma reachable_invariant (st : state) :
  reachable st -> exclusive st /\ sound (app st).
Proof.
  intros [evs ->]. apply run_invariant. split.
  - left. split; reflexivity.
  - exact sound_mount.
Qed.

End ShellInvariants.

(** ** What the handlers guarantee *)

Section HandlerGuarantees.
Context {host : Host} {conv : Conversions}.
Import Actions.

(** X16: the five handlers exclude one another: in every state that the
    shell can reach at most one handler is suspended at a request, and
    the loading flag is set exactly while one is. *)
Theorem one_handler_at_a_time (st : state) :
  reachable st ->
  (List.length (running st) <= 1)%nat /\
  (isLoading st = true <-> running st <> []).
Proof.
  intros H. destruct (reachable_invariant st H) as [[[Hr Hl] | (c & Hr & Hl)] _];
    rewrite Hr, Hl; cbn; split; try lia; split; congruence.
Qed.

(** X17: whatever the server sends, each of the three counters of the
    shell is a truthy value or the number 0: the handlers and the session
    pull never store [null], [undefined], [NaN], an empty string or
    [false] in them. *)
Theorem counters_are_truthy_or_zero (st : state) :
  reachable st ->
  stored_counter (App.totalLogs (App.stats (app st))) /\
  stored_counter (App.normalCount (App.stats (app st))) /\
  stored_counter (App.suspiciousCount (App.stats (app st))).
Proof.
  intros H. destruct (reachable_invariant st H) as [_ (H1 & H2 & H3 & _)]. auto.
Qed.

(** X18: the session object of the shell is never [null] or
    [undefined], so that the reads [realTimeStats.session_id] and
    [realTimeStats.total_logs_processed] of the markup never throw. *)
Theorem session_object_is_never_nullish (st : state) (k : string) :
  reachable st -> exists v, get (App.realTimeStats (app st)) k = Ok v.
Proof.
  intros H. destruct (reachable_invariant st H) as [_ (_ & _ & _ & Hu & Hn & _)].
  destruct (App.realTimeStats (app st)); cbn; eauto; congruence.
Qed.

(** X19: the alert log holds five alerts at most in every state that
    the shell can reach, whichever handlers posted them. *)
Theorem alert_log_never_exceeds_five (st : state) :
  reachable st -> (List.length (App.alerts (app st)) <= 5)%nat.
Proof.
  intros H. destruct (reachable_invariant st H) as [_ (_ & _ & _ & _ & _ & Hlen)].
  exact Hlen.
Qed.

(** X20: when the answer to the detection on real data has no
    [total_analyzed], the handler posts no alert and leaves the counters
    as they are: it only schedules the refresh of the session statistics
    and clears the loading flag. *)
Theorem detection_answer_without_total_is_silent (now later : Z) (f : fetched)
    (st : state) (result : value) :
  App.request f = Ok result ->
  get result "total_analyzed" = Ok VUndefined ->
  handleTestRealDetection_resume now later f st =
  setIsLoading false (with_timeouts (Datatypes.S (timeouts st)) st).
Proof.
  intros Hreq Hget. unfold handleTestRealDetection_resume. run_action.
  rewrite Hreq. cbn. rewrite Hget. reflexivity.
Qed.

(** X21: the training on real data sets [modelTrained] to [true] only
    until its status check ends: the check overwrites the whole system
    status, which then is what the check would have left without the
    training. *)
Theorem status_check_overrides_training_flag (now later : Z) (f advanced basic : fetched)
    (st : state) (result samples : value) (text : string) :
  running st = [TrainRealData] ->
  App.request f = Ok result ->
  get result "training_samples" = Ok samples ->
  to_string samples = Ok text ->
  let st1 := step now later (Settled 0 f) st in
  let st2 := step now later (StatusSettled 0 advanced basic) st1 in
  running st1 = [StatusAfterTraining] /\
  App.modelTrained (App.systemStatus (app st1)) = VBool true /\
  App.systemStatus (app st2) =
    App.systemStatus (App.checkSystemStatus advanced basic (app st)) /\
  running st2 = [] /\ isLoading st2 = false.
Proof.
  intros Hr Hreq Hget Htext. cbn zeta. cbn [step]. rewrite Hr.
  cbn [nth_error Charts.remove_nth].
  unfold handleTrainRealData_resume. run_action.
  rewrite Hreq. cbn. rewrite Hget. cbn. rewrite Htext. cbn.
  repeat split. apply checkSystemStatus_overwrites.
Qed.

(** X22: when the training request is answered by the JSON text [null],
    the handler has already set [modelTrained] when reading the number of
    samples throws: the model is marked as trained and the alert that is
    posted reports that the training failed. *)
Theorem null_answer_marks_trained_and_reports_failure (now : Z) (f : fetched)
    (st : state) :
  App.request f = Ok VNull ->
  let st' := handleTrainModel_resume now f st in
  App.modelTrained (App.systemStatus (app st')) = VBool true /\
  App.alerts (app st') =
    App.entry (now, "error", "❌ Basic training failed. Please try again.")%string
    :: firstn 4 (App.alerts (app st)) /\
  isLoading st' = false.
Proof.
  intros Hreq. cbn zeta. unfold handleTrainModel_resume. run_action.
  rewrite Hreq. cbn. auto.
Qed.

(** X23: when the request of a handler fails, the handler posts exactly
    one alert, of type error, and changes nothing else in the shell:
    counters, session object and system status are what they were, the
    handler is gone and the loading flag is cleared. *)
Theorem failed_request_posts_one_error (now later : Z) (c : continuation)
    (f : fetched) (e : exn) (st : state) :
  running st = [c] ->
  c <> StatusAfterTraining ->
  App.request f = Throw e ->
  let st' := step now later (Settled 0 f) st in
  (exists t message,
     App.alerts (app st') =
       App.entry (t, "error"%string, message) :: firstn 4 (App.alerts (app st))) /\
  App.stats (app st') = App.stats (app st) /\
  App.realTimeStats (app st') = App.realTimeStats (app st) /\
  App.systemStatus (app st') = App.systemStatus (app st) /\
  running st' = [] /\ isLoading st' = false /\ timeouts st' = timeouts st.
Proof.
  intros Hr Hc Hreq. cbn zeta. cbn [step]. rewrite Hr.
  cbn [nth_error Charts.remove_nth].
  destruct c; try congruence;
    unfold handleTrainModel_resume, handleTrainRealData_resume,
      handleTestDetection_resume, handleTestRealDetection_resume,
      handleGenerateData_resume;
    run_action; rewrite Hreq; cbn; (split; [eexists _, _; reflexivity | auto 10]).
Qed.

(** X24: when neither API answers, the status check resets the system
    status, [modelTrained] included; the control panel then starts nothing
    but the basic training and the generation of sample data. *)
Theorem unreachable_backend_leaves_training_only (now later : Z)
    (advanced basic : fetched) (e1 e2 : exn) (st : state)
    (button_id : string) (h : ControlPanel.handler) :
  App.request advanced = Throw e1 ->
  App.request basic = Throw e2 ->
  let st' := step now later (Shell (App.StatusChecked advanced basic)) st in
  App.systemStatus (app st') = App.offline /\
  (ControlPanel.click (panel_props st') button_id = Some h ->
   h = ControlPanel.onTrainModel \/ h = ControlPanel.onGenerateData).
Proof.
  intros H1 H2. cbn zeta. cbn [step App.step].
  assert (Hoff : App.systemStatus (App.checkSystemStatus advanced basic (app st)) =
                 App.offline).
  { rewrite (advanced_probe_falls_through advanced (app st))
      by (left; eauto).
    unfold App.basic_probe. run_action. rewrite H2. reflexivity. }
  split; [exact Hoff |].
  unfold panel_props, ControlPanel.click.
  cbn [in_app app isLoading App.step].
  rewrite Hoff.
  destruct (find _ _) as [b|] eqn:Hfind; [| discriminate].
  apply find_some in Hfind. destruct Hfind as [Hin _].
  destruct (ControlPanel.disabled b) eqn:Hd; [discriminate |]. intros [= <-].
  revert Hin Hd. unfold ControlPanel.buttonsToShow.
  cbn [ControlPanel.realDataEnabled App.realDataEnabled App.offline truthy
       ControlPanel.basicButtons In].
  intros [<- | [<- | [<- | []]]]; cbn; auto.
  rewrite orb_true_r. discriminate.
Qed.

End HandlerGuarantees.

(** ** The session pull with its log, and the status cards *)

Section SessionAndCards.
Context {host : Host} {conv : Conversions}.

Lemma gt_zero_not_nullish (v : value) :
  gt_zero v = Ok true -> v <> VUndefined /\ v <> VNull.
Proof.
  destruct v; cbn; try (split; discriminate); intros H; discriminate H.
Qed.

Lemma toLocaleString_call_throws (v : value) (e : exn) :
  toLocaleString_call v = Throw e -> e = TypeError.
Proof.
  unfold toLocaleString_call. destruct v; try destruct (localizes _); congruence.
Qed.

(** X15: a session pull is all or nothing, but for its log.  When it
    ends with [apiResponding] set, the response was ok, the session object
    is the [session_stats] of its body and the three counters are the
    counters of that object, or 0 where those are falsy.  When it ends
    with [apiResponding] unset, the counters and the session object are
    what they were, unless the pull had succeeded and only the conversion
    of the session id for the log threw. *)
Theorem session_pull_all_or_nothing (f : fetched) (a : App.state) :
  let a' := App.fetchSessionStats_resume f a in
  if App.apiResponding a' then
    exists response data total normal anomalies,
      f = Resolved response /\ ok response = true /\
      json response = Ok data /\
      get data "session_stats" = Ok (App.realTimeStats a') /\
      get (App.realTimeStats a') "total_logs_processed" = Ok total /\
      get (App.realTimeStats a') "normal_activities" = Ok normal /\
      get (App.realTimeStats a') "total_anomalies_detected" = Ok anomalies /\
      App.stats a' =
        {| App.totalLogs := or_else total (VNum (of_Z 0));
           App.normalCount := or_else normal (VNum (of_Z 0));
           App.suspiciousCount := or_else anomalies (VNum (of_Z 0)) |}
  else
    (App.stats a' = App.stats a /\ App.realTimeStats a' = App.realTimeStats a) \/
    (exists session_id e,
       get (App.realTimeStats a') "session_id" = Ok session_id /\
       to_string (or_else session_id (VStr "none")) = Throw e).
Proof.
  cbn zeta. unfold App.fetchSessionStats_resume, App.fetchSessionStats_try.
  run_action.
  destruct f as [| response]; cbn; [auto |].
  destruct (ok response) eqn:Hok; cbn; [| auto].
  destruct (json response) as [data|e] eqn:Hjson; cbn; [| auto].
  destruct (get data "session_stats") as [sessionData|e] eqn:Hs; cbn; [| auto].
  destruct (get sessionData "total_logs_processed") as [total|e] eqn:Ht; cbn; [| auto].
  destruct (get sessionData "normal_activities") as [normal|e] eqn:Hn; cbn; [| auto].
  destruct (get sessionData "total_anomalies_detected") as [anomalies|e] eqn:Ha;
    cbn; [| auto].
  destruct (get_defined _ _ "session_id" _ Ht) as [session_id Hid]. rewrite Hid. cbn.
  destruct (to_string _) as [logged|e] eqn:Hlog; cbn.
  - exists response, data, total, normal, anomalies. repeat split; assumption.
  - right. exists session_id, e. auto.
Qed.

(** X25: a successful session pull whose [session_stats] has a positive
    [total_logs_processed] and no [total_anomalies_detected] (or [null]
    for it) is adopted by the shell, and the status cards then throw a
    [TypeError] when they render the count of suspicious activities. *)
Theorem partial_session_stats_break_the_cards (response : Response)
    (data session total : value) (a : App.state) :
  ok response = true ->
  json response = Ok data ->
  get data "session_stats" = Ok session ->
  get session "total_logs_processed" = Ok total ->
  gt_zero total = Ok true ->
  get session "total_anomalies_detected" = Ok VUndefined \/
  get session "total_anomalies_detected" = Ok VNull ->
  let a' := App.fetchSessionStats_resume (Resolved response) a in
  App.realTimeStats a' = session /\
  App.suspiciousCount (App.stats a') = VNum (of_Z 0) /\
  StatusCards.cards (StatusCards.props_of a') = Throw TypeError.
Proof.
  intros Hok Hjson Hsession Htotal Hgt Hanomalies. cbn zeta.
  destruct (get_defined _ _ "normal_activities" _ Htotal) as [normal Hnormal].
  destruct (get_defined _ _ "session_id" _ Htotal) as [session_id Hid].
  assert (Hst : exists anomalies,
            (anomalies = VUndefined \/ anomalies = VNull) /\
            get session "total_anomalies_detected" = Ok anomalies)
    by (destruct Hanomalies; eauto).
  destruct Hst as (anomalies & Hnullish & Ha).
  assert (Htruthy : truthy session = true).
  { destruct session; cbn in Htotal |- *; try discriminate Htotal;
      try reflexivity; injection Htotal as <-; discriminate Hgt. }
  assert (Hcards : forall a0,
            App.realTimeStats a0 = session ->
            StatusCards.cards (StatusCards.props_of a0) = Throw TypeError).
  { intros a0 Hrts.
    unfold StatusCards.cards, StatusCards.displayStats, StatusCards.session_active,
      StatusCards.props_of. cbn. rewrite Hrts.
    rewrite Htruthy, Htotal. cbn. rewrite Hgt. cbn. rewrite Ha. cbn.
    unfold minus. unfold gt_zero in Hgt.
    destruct (to_number total) as [n|e]; [| discriminate Hgt]. cbn.
    assert (Hn : exists m, to_number anomalies = Ok m)
      by (destruct Hnullish as [-> | ->]; cbn; eauto).
    destruct Hn as [m ->]. cbn.
    destruct (toLocaleString_call total) as [text|e] eqn:Hcall; cbn.
    - destruct Hnullish as [-> | ->]; reflexivity.
    - rewrite (toLocaleString_call_throws _ _ Hcall). reflexivity. }
  unfold App.fetchSessionStats_resume, App.fetchSessionStats_try. run_action.
  rewrite Hok. cbn. rewrite Hjson. cbn. rewrite Hsession. cbn.
  rewrite Htotal. cbn. rewrite Hnormal. cbn. rewrite Ha. cbn.
  rewrite Hid. cbn.
  destruct (to_string _); cbn;
    (split; [reflexivity |];
     split; [destruct Hnullish as [-> | ->]; reflexivity | apply Hcards; reflexivity]).
Qed.

(** X26: in every state that the shell can reach, when the session
    object shows no processed logs and the three counters are primitive
    values, the status cards are computed without an exception: there are
    four of them. *)
Theorem cards_of_primitive_counters (st : Actions.state) :
  Actions.reachable st ->
  StatusCards.session_active (StatusCards.props_of (Actions.app st)) = Ok false ->
  is_primitive (App.totalLogs (App.stats (Actions.app st))) = true ->
  is_primitive (App.normalCount (App.stats (Actions.app st))) = true ->
  is_primitive (App.suspiciousCount (App.stats (Actions.app st))) = true ->
  exists cs,
    StatusCards.cards (StatusCards.props_of (Actions.app st)) = Ok cs /\
    List.length cs = 4%nat.
Proof.
  intros Hreach Hactive Ht Hn Hs.
  destruct (reachable_invariant st Hreach) as [_ (H1 & H2 & H3 & _)].
  assert (Hcall : forall v, Actions.stored_counter v -> is_primitive v = true ->
                            exists text, toLocaleString_call v = Ok text).
  { intros v [Hv | ->] Hp; [| cbn; eauto].
    destruct v; cbn in Hv, Hp |- *; try discriminate; eauto. }
  destruct (Hcall _ H1 Ht) as [t1 E1].
  destruct (Hcall _ H2 Hn) as [t2 E2].
  destruct (Hcall _ H3 Hs) as [t3 E3].
  assert (Hgt : exists b, gt_zero (App.suspiciousCount (App.stats (Actions.app st))) = Ok b).
  { unfold gt_zero.
    destruct (App.suspiciousCount (App.stats (Actions.app st))) as [| | [|] | | | |];
      cbn in Hs |- *; try discriminate Hs; eauto. }
  destruct Hgt as [b Eb].
  unfold StatusCards.cards, StatusCards.displayStats. rewrite Hactive.
  cbn [and_then StatusCards.props_of StatusCards.stats].
  rewrite E1. cbn [and_then]. rewrite E2.
  cbn [and_then]. rewrite E3. cbn [and_then]. rewrite Eb. cbn [and_then].
  eexists. split; reflexivity.
Qed.

End SessionAndCards.

Lemma one_handler_at_a_time_witness :
  let st := Actions.run (host := UTC.host) (conv := Decimal.conversions)
              [(1000, 1000, Actions.Click "train-basic");
               (2000, 2000, Actions.Click "generate")]%string Actions.mount in
  (List.length (Actions.running st) <= 1)%nat /\
  (Actions.isLoading st = true <-> Actions.running st <> []).
Proof.
  cbn zeta.
  apply (one_handler_at_a_time (host := UTC.host) (conv := Decimal.conversions)).
  eexists. reflexivity.
Defined.

Lemma counters_are_truthy_or_zero_witness :
  let st := Actions.run (host := UTC.host) (conv := Decimal.conversions)
              [(1000, 1000,
                Actions.Shell
                  (App.PullSettled
                     (Resolved
                        {| ok := true; status := 200;
                           json := Ok (VObj [("session_stats",
                                              VObj [("total_logs_processed",
                                                     VNum (of_Z 5));
                                                    ("normal_activities", VNull)])])
                        |})))]%string Actions.mount in
  Actions.stored_counter (App.totalLogs (App.stats (Actions.app st))) /\
  Actions.stored_counter (App.normalCount (App.stats (Actions.app st))) /\
  Actions.stored_counter (App.suspiciousCount (App.stats (Actions.app st))).
Proof.
  cbn zeta.
  apply (counters_are_truthy_or_zero (host := UTC.host) (conv := Decimal.conversions)).
  eexists. reflexivity.
Defined.

Lemma session_object_is_never_nullish_witness :
  let st := Actions.run (host := UTC.host) (conv := Decimal.conversions)
              [(1000, 1000,
                Actions.Shell
                  (App.PullSettled
                     (Resolved
                        {| ok := true; status := 200;
                           json := Ok (VObj [("session_stats", VNull)]) |})))]%string
              Actions.mount in
  exists v, get (App.realTimeStats (Actions.app st)) "session_id" = Ok v.
Proof.
  cbn zeta.
  apply (session_object_is_never_nullish (host := UTC.host)
           (conv := Decimal.conversions)).
  eexists. reflexivity.
Defined.

Lemma alert_log_never_exceeds_five_witness :
  let st := Actions.run (host := UTC.host) (conv := Decimal.conversions)
              [(1000, 1000, Actions.Click "generate");
               (2000, 2000, Actions.Settled 0 Rejected)]%string Actions.mount in
  (List.length (App.alerts (Actions.app st)) <= 5)%nat.
Proof.
  cbn zeta.
  apply (alert_log_never_exceeds_five (host := UTC.host)
           (conv := Decimal.conversions)).
  eexists. reflexivity.
Defined.

Lemma detection_answer_without_total_is_silent_witness :
  Actions.handleTestRealDetection_resume (host := UTC.host)
    (conv := Decimal.conversions) 1000 1001
    (Resolved {| ok := true; status := 200; json := Ok (VObj []) |}) Actions.mount =
  Actions.setIsLoading false (Actions.with_timeouts 1 Actions.mount).
Proof.
  apply (detection_answer_without_total_is_silent (host := UTC.host)
           (conv := Decimal.conversions) 1000 1001
           (Resolved {| ok := true; status := 200; json := Ok (VObj []) |})
           Actions.mount (VObj []));
    reflexivity.
Defined.

Lemma status_check_overrides_training_flag_witness :
  let f := Resolved {| ok := true; status := 200;
                       json := Ok (VObj [("training_samples", VStr "1200")]%string) |} in
  let st := Actions.start ControlPanel.onTrainRealData Actions.mount in
  let st1 := Actions.step (host := UTC.host) (conv := Decimal.conversions)
               1000 1000 (Actions.Settled 0 f) st in
  let st2 := Actions.step (host := UTC.host) (conv := Decimal.conversions)
               1000 1000 (Actions.StatusSettled 0 Rejected Rejected) st1 in
  (Actions.running st1 = [Actions.StatusAfterTraining] /\
   App.modelTrained (App.systemStatus (Actions.app st1)) = VBool true /\
   App.systemStatus (Actions.app st2) =
     App.systemStatus (App.checkSystemStatus Rejected Rejected (Actions.app st)) /\
   Actions.running st2 = [] /\ Actions.isLoading st2 = false).
Proof.
  cbn zeta.
  apply (status_check_overrides_training_flag (host := UTC.host)
           (conv := Decimal.conversions) 1000 1000
           (Resolved {| ok := true; status := 200;
                        json := Ok (VObj [("training_samples", VStr "1200")]%string) |})
           Rejected Rejected
           (Actions.start ControlPanel.onTrainRealData Actions.mount)
           (VObj [("training_samples", VStr "1200")]%string) (VStr "1200")
           "1200"%string);
    reflexivity.
Defined.

Lemma null_answer_marks_trained_and_reports_failure_witness :
  let st' := Actions.handleTrainModel_resume (host := UTC.host)
               (conv := Decimal.conversions) 1000
               (Resolved {| ok := true; status := 200; json := Ok VNull |})
               Actions.mount in
  App.modelTrained (App.systemStatus (Actions.app st')) = VBool true /\
  App.alerts (Actions.app st') =
    App.entry (host := UTC.host)
      (1000, "error", "❌ Basic training failed. Please try again.")%string
    :: firstn 4 (App.alerts (Actions.app Actions.mount)) /\
  Actions.isLoading st' = false.
Proof.
  apply (null_answer_marks_trained_and_reports_failure (host := UTC.host)
           (conv := Decimal.conversions) 1000
           (Resolved {| ok := true; status := 200; json := Ok VNull |})
           Actions.mount).
  reflexivity.
Defined.

Lemma failed_request_posts_one_error_witness :
  let st := Actions.start ControlPanel.onGenerateData Actions.mount in
  let st' := Actions.step (host := UTC.host) (conv := Decimal.conversions)
               1000 1000 (Actions.Settled 0 Rejected) st in
  (exists t message,
     App.alerts (Actions.app st') =
       App.entry (host := UTC.host) (t, "error"%string, message)
       :: firstn 4 (App.alerts (Actions.app st))) /\
  App.stats (Actions.app st') = App.stats (Actions.app st) /\
  App.realTimeStats (Actions.app st') = App.realTimeStats (Actions.app st) /\
  App.systemStatus (Actions.app st') = App.systemStatus (Actions.app st) /\
  Actions.running st' = [] /\ Actions.isLoading st' = false /\
  Actions.timeouts st' = Actions.timeouts st.
Proof.
  cbn zeta.
  apply (failed_request_posts_one_error (host := UTC.host)
           (conv := Decimal.conversions) 1000 1000 Actions.GenerateData Rejected
           NetworkError (Actions.start ControlPanel.onGenerateData Actions.mount));
    [reflexivity | discriminate | reflexivity].
Defined.

Lemma unreachable_backend_leaves_training_only_witness :
  let st' := Actions.step (host := UTC.host) (conv := Decimal.conversions)
               1000 1000 (Actions.Shell (App.StatusChecked Rejected Rejected))
               Actions.mount in
  App.systemStatus (Actions.app st') = App.offline /\
  (ControlPanel.click (Actions.panel_props st') "train-basic" =
     Some ControlPanel.onTrainModel ->
   ControlPanel.onTrainModel = ControlPanel.onTrainModel \/
   ControlPanel.onTrainModel = ControlPanel.onGenerateData).
Proof.
  cbn zeta.
  apply (unreachable_backend_leaves_training_only (host := UTC.host)
           (conv := Decimal.conversions) 1000 1000 Rejected Rejected
           NetworkError NetworkError Actions.mount "train-basic"%string
           ControlPanel.onTrainModel);
    reflexivity.
Defined.

Lemma partial_session_stats_break_the_cards_witness :
  let session := VObj [("total_logs_processed", VNum (of_Z 5))]%string in
  let a' := App.fetchSessionStats_resume (conv := Decimal.conversions)
              (Resolved {| ok := true; status := 200;
                           json := Ok (VObj [("session_stats", session)]%string) |})
              App.mount in
  App.realTimeStats a' = session /\
  App.suspiciousCount (App.stats a') = VNum (of_Z 0) /\
  StatusCards.cards (conv := Decimal.conversions) (StatusCards.props_of a') =
    Throw TypeError.
Proof.
  cbn zeta.
  apply (partial_session_stats_break_the_cards (conv := Decimal.conversions)
           {| ok := true; status := 200;
              json := Ok (VObj [("session_stats",
                                 VObj [("total_logs_processed", VNum (of_Z 5))])]%string) |}
           (VObj [("session_stats",
                   VObj [("total_logs_processed", VNum (of_Z 5))])]%string)
           (VObj [("total_logs_processed", VNum (of_Z 5))]%string)
           (VNum (of_Z 5)) App.mount);
    try reflexivity.
  left. reflexivity.
Defined.

Lemma cards_of_primitive_counters_witness :
  exists cs,
    StatusCards.cards (conv := Decimal.conversions)
      (StatusCards.props_of (Actions.app Actions.mount)) = Ok cs /\
    List.length cs = 4%nat.
Proof.
  apply (cards_of_primitive_counters (host := UTC.host) (conv := Decimal.conversions)
           Actions.mount); try reflexivity.
  exists []. reflexivity.
Defined.
